(* ===== verification/_CoqProject ===== *)
-Q . S2P
Prelude.v
GoLang.v
Rational.v
Clock.v
Astiav.v
Logging.v
Sampler.v
Converter.v
Encoder.v
Recorder.v
Loop.v
Pipeline.v
Teardown.v
Recording.v
Guarantees.v
Steps.v
Program.v
System.v
