(* ===== verification/Prelude.v ===== *)
(** * A verification library for the go-astiav screen recorder

    The program under verification is the [screenrecorder] example of the
    go-astiav repository: three Go files of one [main] package.

    - [src/examples/screenrecorder/screencap.go], lines 1-41
      ([StartScreenCap]): the screen sampler, a goroutine that waits on a
      ticker or on the cancellation of a context, captures one bitmap per
      tick and hands it to the consumer over an unbuffered channel.
    - [src/examples/screenrecorder/screencap.go], lines 42-209 ([main],
      [StartScreenRecording]): the orchestrator.  It configures the output
      container and the encoder, registers its clean-up with [defer], starts
      the sampler, and then loops: receive a bitmap, convert it, stamp it
      with a presentation timestamp, send it to the encoder, drain the
      encoder's packets, rescale and write each of them.
    - [src/unnamed/part_000] ([SetupFFmpeg], [ImageRGBAtoAVFrame],
      [NewH264EncoderCodec]): logging set-up, the RGBA to YUV 4:2:0 frame
      converter, and the construction of the H.264 encoder context.

    The astiav binding itself (FFmpeg's frames, packets, codec and format
    contexts), the capture library and Go's [time] and [strings] packages
    are not part of these sources: the program only calls them.  They are
    modelled from their contract.  The binding is a heap of library
    objects, a precondition and an effect for every call, and an oracle
    (class [AvLib]) that answers every fallible call; a call whose
    precondition does not hold is recorded in the ghost field [faults] of
    the world.  Every theorem about the program is universally quantified
    over the oracle; the witnesses instantiate it with the scripted
    oracle [ScriptLib].

    ** How the code is modelled

    A Go function body is a term of the control monad [Go W D R A]
    ([GoLang]): a function from the world and the stack of deferred
    calls to an outcome ([Next], [Return], [Panic], or [Pending] for a
    body that has not finished) and the new world and stack.  [func]
    runs a body and then the calls it deferred, last registered first,
    also after a panic.  Every statement of the source is one
    operation of the monad, in the order of the source; every
    [if err != nil { ...; return }] is an [if_err], [if_nil] or
    [if_failed] with its handler.

    Each of the two goroutines is a function of what its [select]
    takes: [StartScreenRecording] takes a list of [Event]s
    ([EvImage img] for an image received on the channel, [EvDone] for
    the cancellation), [StartScreenCap] a list of [Tick]s.  A list that
    ends without the cancellation leaves the function [Blocked] in its
    [select].  Which lists the two goroutines take together is given
    by the transition system of [Pipeline]: a trace of it projects to
    the events of one ([events_of_trace]) and the ticks of the other
    ([ticks_of]).  [System] runs the two goroutines together, each on
    its world: a hand-off on the channel runs one turn of the loop of
    the recording function, and the result of the turn decides where
    the function is next.  The functions over sequences are proved to
    be the goroutines of this system.

    What the encoder hands out and what the file gets are kept as ghost
    state of the library model: the encoder context records the packets
    it has handed out ([cc_handed]), the container the packets written
    to it ([fc_written]), and a packet the time base it is stamped in
    ([p_tb]).

    ** Files, in dependency order

    - [Prelude] (this file): scopes, tactics, the hint database [go], the
      rewrite databases [wrap] and [gosimp], and the arithmetic and list
      lemmas shared by the components.
    - [GoLang]: the fragment of Go's semantics the program relies on:
      [int64] arithmetic with wrap-around and the division panic, the
      [error] values, the control monad, and the rules of the predicate
      [wp] by which the bodies are executed symbolically.
    - [Rational]: [astiav.Rational] and the timestamp rescaling
      ([av_rescale_q], round to nearest) that [Packet.RescaleTs]
      applies; time bases that refine one another ([refines]).
    - [Clock]: the frame clock of the orchestrator: the per-frame
      increment [int64((90 * 1000) / fps)], the timestamp
      [frameNumber * pts], the counter increment, and the sampler's
      [time.Second / time.Duration(fps)].
    - [Astiav]: the collaborator.  The objects ([Frame], [Packet],
      [CodecContext], [FormatContext], [Stream], [IOContext]), the heap
      of live handles, the alphabets [Alloc], [Call] and [Op] of the
      library's calls with [pre_call], [effect_call] and the like, the
      class [AvLib], the world, and the tactics ([go_run], [heap_simpl])
      that execute a body on a symbolic heap.
    - [Logging]: [SetupFFmpeg] and the text of the log callback, with
      [strings.TrimSpace] on ASCII.
    - [Sampler]: [StartScreenCap], the goroutine that runs it
      ([capture_goroutine]), and its abstract specification [history].
    - [Converter]: [ImageRGBAtoAVFrame], statement by statement.
    - [Encoder]: [NewH264EncoderCodec], statement by statement.
    - [Recorder]: [StartScreenRecording]: the set-up with its early
      returns and [defer]s ([setup]), the clock ([start_clock]), the
      loop ([encode_loop], [handle_image], [encode_frame], [drain]) and
      the deferred calls ([run_deferred], [write_trailer]); the
      specification of the set-up ([setup_spec]).
    - [Loop]: the invariant of the loop ([at_loop]: the heap of a
      session is the initial heap, the four session objects, and what
      the turns have allocated, [grown]; the container holds the
      packets the encoder handed out, rescaled, [delivered]), and the
      specification of [drain], [encode_frame], [handle_image] and
      [encode_loop] on every branch.
    - [Pipeline]: the two goroutines as transition systems
      ([sampler_step], [recorder_step]) and their composition [step]:
      interleaving, the unbuffered channel as a joint step, the
      cancellation, and a [select] that may take any ready case; the
      executable [fire] and [run]; the invariant [pipe_inv].
    - [Teardown]: what the deferred calls do from any state of the loop
      ([teardown_spec]).
    - [Recording]: the specification of [StartScreenRecording] from
      call to exit ([recording_spec]), one postcondition per exit.
    - [Guarantees]: the properties of a recording that follow from it.
    - [Steps]: the properties of the set-up, of one turn of the loop
      and of the deferred calls, each by itself.
    - [Program]: [main], and the program along a trace of the two
      goroutines.
    - [System]: the two goroutines as one transition system on their
      worlds ([Sys], [sys_step]), executable ([sys_fire], [sys_run]):
      the statements a step runs are the ones of [Sampler] and
      [Recorder] ([rec_turn] is [handle_image], followed by the
      deferred calls when the function leaves); its abstraction to
      [Pipeline] ([abs]); the set-up as the way to its first state
      ([boot]).

    ** What the theorems show

    - [Clock]: timestamps are exactly [N * (90000 / fps)] below the
      overflow bound, strictly increasing exactly when
      [1 <= fps <= 90000], and the program panics on [fps = 0].
    - [Rational]: rescaling is the identity between equal time bases, is
      monotone, and is within half a unit of the exact quotient; into a
      time base [k] times finer it multiplies by [k], and back it
      returns the timestamp (round trip), while the product fits
      [int64].
    - [Converter], [Encoder]: the result on every branch (each failing
      call is a distinct early return), which objects are live on exit,
      and that the contract of the library is respected.
    - [Guarantees]: for [1 <= fps <= 90000] and images of the size the
      encoder is configured with, no call of a recording
      violates the contract of the library (header before packets,
      rescale before write, increasing timestamps, frames of the size
      of the encoder, nothing after the
      trailer, no handle used after its release), whatever the library
      answers; the world stays well formed; the frames submitted are
      the conversions of the images received, in order; on return
      everything is released except the frames, which are never
      released; the packets of the file are the packets the encoder
      handed out, in order, rescaled to the time base of the stream,
      all of them or all but the last when its write failed and was
      reported; rescaled back they are the packets of the encoder, when
      the time base of the stream refines the one of the encoder; their
      order is kept; the encoder is never flushed; the
      trailer is attempted once on every exit after the set-up, also
      after the panic of [fps = 0]; the function returns only on
      cancellation or after a reported failure.
    - [Steps]: the state the set-up builds, the invariant of one turn,
      and the effect of the deferred calls; an image of another size
      than the encoder's ends the recording, its frame refused by the
      encoder: nothing in the program compares or adapts the two sizes.
    - [Sampler]: the sampler refines [history]: one capture of the
      display per tick, each image handed over once and in order; the
      ticker is stopped on every return; the panics of the period; a
      failed capture is reported twice and told to nobody.
    - [Pipeline]: no image is lost or duplicated between the
      goroutines; every trace is a run of the two functions on
      sequences that agree; the cancellation does not win the race with
      a tick; a failed capture strands the recording function; a
      sampler abandoned in its send stays blocked.
    - [Program]: [main] neither panics nor violates the contract; along
      any trace, the encoder gets the conversion of each image the
      sampler handed over, in order, and the file gets the packets of
      the encoder.
    - [System]: the system implements the pipeline (simulation by
      [abs]); after any trace, [StartScreenRecording] on the events of
      the trace and the goroutine of the sampler on its ticks give the
      exits and the worlds of the state reached (the functions are the
      goroutines), and every run of the recording function is a run of
      the system; the system is deterministic; set up for the size of
      the display, with captures of that size, no state reached has a
      fault, whatever the schedule and the answers of the codec
      library; a clean run stores the conversion of every image the
      sampler handed over; a failed capture leaves the file without a
      trailer until the operator interrupts; and the system can be
      stopped in four steps from any state but the one in which the
      sampler is abandoned in its send.
    - [Logging]: the callback prints a message without the white space
      around it.

    ** Bounds and fuel

    [int] and [int64] are 64-bit two's complement ([int] is 64 bits on every
    platform FFmpeg's cgo binding supports); a timestamp is exact while
    [N * (90000 / fps) < 2^63], that is for frame numbers up to
    [max_exact_frame].  The inner loop of the recorder ([drain]) runs as
    long as the encoder has packets ready; it is defined with fuel, and
    a run that uses all its fuel is [Pending].  The specifications show
    that this is the only way a turn of the loop does not come back,
    and that [fuel] packets have then been written for one image: any
    fuel above the number of packets the encoder has ready for a frame
    gives the result of the code.  The outer loops are structural in the
    list of events.  In [System] a turn that has used its fuel leaves
    the recording function [Pending]: it takes no further step, and
    the sampler goes on by itself.  The round trip of the timestamps
    holds for packets whose timestamps, multiplied by the ratio of the
    time bases, fit [int64] ([packet_fits]); for the usual stream time
    base of 1/180000 that is every timestamp of absolute value below
    [2^62].

    ** Not modelled

    - The scheduler below the [select]s: in [Pipeline] and in [System]
      a turn of the recording function is one step, and so is a
      capture.  A panic in
      the goroutine of the sampler ends the process; the model of the
      recorder does not see it.  Fairness is not assumed, so nothing is
      proved to happen eventually but what a trace is shown to do.
    - Real time: the ticker has a period and a state, no clock; how
      long a capture or a turn of the loop takes, and the ticks Go's
      ticker drops for a slow receiver, are below the model.
    - The capture library (kbinani/screenshot) is only called: its two
      calls are in the model, what they answer is an input, of which
      only the size is constrained ([System.capture_fits]).
    - The lines of the sources outside the functions (package clauses,
      imports, comments) translate to nothing.
    - Pixel data conversion inside libswscale, the H.264 bitstream, the
      MP4 container bytes and the operating-system capture call: the
      model records that the call happened, on which objects, and what
      the oracle answered.
    - When the library calls the log callback, and white space outside
      ASCII in [strings.TrimSpace]. *)

From Stdlib Require Export ZArith Lia.
From stdpp Require Export base tactics option list sorting numbers.

(** ** Scopes and databases *)

Declare Scope go_scope.
Delimit Scope go_scope with go.

(** [go]: resolution hints for the step and invariant lemmas of the
    components.  [wrap]: rewrite rules that remove an [int64] wrap-around
    whose argument is in range.  [gosimp]: rewrite rules that execute the
    control monad. *)
Create HintDb go discriminated.
Create Rewrite HintDb wrap.
Create Rewrite HintDb gosimp.

(** ** Tactics *)

(** stdpp's [inv H] (invert, substitute, clear) is the inversion tactic
    of the development. *)

(** Split every pair and conjunction of the context. *)
Ltac destruct_pairs :=
  repeat match goal with
         | p : _ * _ |- _ => destruct p
         | H : _ /\ _ |- _ => destruct H
         | H : (_, _) = (_, _) |- _ => inv H
         end.

(** Open every conjunction, existential and disjunction of the context. *)
Ltac destruct_hyps :=
  repeat match goal with
         | H : _ /\ _ |- _ => destruct H
         | H : exists _, _ |- _ => destruct H
         | H : _ \/ _ |- _ => destruct H
         end.

(** Case analysis on the scrutinee of the first [match] or [if] of the
    goal, remembering the equation. *)
Ltac case_goal :=
  match goal with
  | |- context [match ?x with _ => _ end] =>
      let E := fresh "E" in destruct x eqn:E
  end.

(** Turn boolean comparisons on [Z] in the context into propositions. *)
Ltac zbool :=
  repeat match goal with
         | H : (_ =? _)%Z = true |- _ => apply Z.eqb_eq in H
         | H : (_ =? _)%Z = false |- _ => apply Z.eqb_neq in H
         | H : (_ <=? _)%Z = true |- _ => apply Z.leb_le in H
         | H : (_ <=? _)%Z = false |- _ => apply Z.leb_gt in H
         | H : (_ <? _)%Z = true |- _ => apply Z.ltb_lt in H
         | H : (_ <? _)%Z = false |- _ => apply Z.ltb_ge in H
         end.

(** ** Truncated division

    Go's [/] on integers truncates toward zero: it is [Z.quot], which
    agrees with [Z.div] on non-negative operands. *)

Section Quot.
Local Open Scope Z_scope.

Lemma quot_nonneg_div (a b : Z) : 0 <= a -> 0 < b -> a ÷ b = a / b.
Proof. apply Z.quot_div_nonneg. Qed.

Lemma quot_bounds (a b : Z) : 0 <= a -> 0 < b -> 0 <= a ÷ b <= a.
Proof.
  intros Ha Hb. rewrite quot_nonneg_div by lia. split.
  - apply Z.div_pos; lia.
  - apply Z.div_le_upper_bound; nia.
Qed.

Lemma quot_pos_iff (a b : Z) : 0 <= a -> 0 < b -> (0 < a ÷ b <-> b <= a).
Proof.
  intros Ha Hb. rewrite quot_nonneg_div by lia. split; intros H.
  - destruct (Z_lt_le_dec a b) as [Hlt|]; [|lia].
    rewrite Z.div_small in H; lia.
  - apply Z.div_str_pos; lia.
Qed.

Lemma quot_zero_iff (a b : Z) : 0 <= a -> 0 < b -> (a ÷ b = 0 <-> a < b).
Proof.
  intros Ha Hb. pose proof (quot_pos_iff a b Ha Hb).
  pose proof (quot_bounds a b Ha Hb). lia.
Qed.

(** The division identity, with the remainder of the truncated
    division. *)
Lemma quot_rem_eq (a b : Z) : a = b * (a ÷ b) + Z.rem a b.
Proof. apply Z.quot_rem'. Qed.

Lemma quot_neg_divisor (a b : Z) : 0 < a -> b < 0 -> a ÷ b <= 0.
Proof.
  intros Ha Hb. replace b with (- (- b)) by lia.
  rewrite Z.quot_opp_r by lia.
  pose proof (quot_bounds a (- b)). lia.
Qed.
End Quot.

(** ** Lists *)

Section Lists.
Context {A : Type}.

(** The elements of a list satisfy [R] pairwise, earlier to later. *)
Fixpoint chain (R : A -> A -> Prop) (l : list A) : Prop :=
  match l with
  | [] => True
  | x :: l' => match l' with [] => True | y :: _ => R x y end /\ chain R l'
  end.

Lemma chain_cons R x y l : chain R (x :: y :: l) <-> R x y /\ chain R (y :: l).
Proof. reflexivity. Qed.

Lemma chain_snoc R l x y :
  chain R (l ++ [x]) -> R x y -> chain R ((l ++ [x]) ++ [y]).
Proof.
  induction l as [|a l IH]; simpl.
  - tauto.
  - intros [Ha Hl] Hxy. split; [|auto].
    destruct l; simpl in *; auto.
Qed.

Lemma chain_app_inv_l R l1 l2 : chain R (l1 ++ l2) -> chain R l1.
Proof.
  induction l1 as [|a l1 IH]; simpl; [tauto|].
  intros [Ha Hl]. split; [|auto].
  destruct l1; simpl in *; auto.
Qed.

(** A function that is monotone on the elements that satisfy [P] keeps
    a list of such elements sorted. *)
Lemma StronglySorted_fmap_Forall {B} (P : A -> Prop) (R : relation A) (S : relation B)
    (f : A -> B) (l : list A) :
  (forall x y, P x -> P y -> R x y -> S (f x) (f y)) ->
  Forall P l -> StronglySorted R l -> StronglySorted S (f <$> l).
Proof.
  intros Hf HP Hl. induction Hl as [|x l Hl IH Hx]; [constructor|].
  apply list.Forall_cons in HP as [Px Pl]. cbn. constructor; [by apply IH|].
  apply list.Forall_fmap, list.Forall_forall. intros y Hy.
  rewrite list.Forall_forall in Hx, Pl. apply Hf; auto.
Qed.
End Lists.

#[export] Hint Resolve chain_snoc : go.
