(* ===== verification/GoLang.v ===== *)
(** * GoLang: the fragment of Go's semantics the recorder relies on

    - [int64] values as [Z] with the wrap-around of two's complement
      written out ([wrap64]), and the run-time panic of integer division
      by zero ([int64_quot]);
    - [error] values and [errors.Is] on them;
    - the control monad [Go W D R A] of a function body: a statement
      either falls through with a value, executes [return r], or panics;
      [defer_] pushes a deferred call and [func] runs the body and then
      the deferred calls, last registered first, on every exit. *)

From stdpp Require Import strings.
From S2P Require Import Prelude.

Local Open Scope Z_scope.

(** ** 64-bit integers *)

Definition int64_min : Z := - 2 ^ 63.
Definition int64_max : Z := 2 ^ 63 - 1.

(** [z] is representable as an [int64]. *)
Definition in_int64 (z : Z) : Prop := int64_min <= z <= int64_max.

(** The bits of [z] kept by a 64-bit signed register. *)
Definition wrap64 (z : Z) : Z := (z + 2 ^ 63) mod 2 ^ 64 - 2 ^ 63.

(** [a + b], [a * b] on [int64]: silent wrap-around. *)
Definition int64_add (a b : Z) : Z := wrap64 (a + b).
Definition int64_mul (a b : Z) : Z := wrap64 (a * b).

(** [a / b] on [int] and [int64]: truncation toward zero; division by
    zero is a run-time panic ([None]). *)
Definition int64_quot (a b : Z) : option Z :=
  if b =? 0 then None else Some (wrap64 (a ÷ b)).

(** ** Errors *)

(** The error values that reach the program: [errors.New] strings, the
    integer [astiav.Error] codes, and the capture library's failures. *)
Inductive error : Type :=
| ErrorString (s : string)
| AvError (code : Z)
| CaptureError (code : Z).

#[export] Instance error_eq_dec : EqDecision error.
Proof. solve_decision. Defined.

(** [errors.Is err target] on these values, none of which wraps another:
    equality. *)
Definition errors_Is (err target : error) : bool := bool_decide (err = target).

(** ** Control *)

(** How a statement ends: it falls through with a value, it executes
    [return], it panics, or it has not finished ([Pending]: a loop out of
    fuel, or a [select] with no event left to take). *)
Inductive Ctl (R A : Type) : Type :=
| Next (a : A)
| Return (r : R)
| Panic (msg : string)
| Pending.
Arguments Next {R A} a.
Arguments Return {R A} r.
Arguments Panic {R A} msg.
Arguments Pending {R A}.

(** How a function call ends, if it does. *)
Inductive Exit (R : Type) : Type :=
| Returned (r : R)
| Panicked (msg : string)
| Blocked.
Arguments Returned {R} r.
Arguments Panicked {R} msg.
Arguments Blocked {R}.

Definition exit_of {R : Type} (c : Ctl R R) : Exit R :=
  match c with
  | Next r | Return r => Returned r
  | Panic msg => Panicked msg
  | Pending => Blocked
  end.

Section Control.
(** [W]: the state the program acts on.  [D]: the deferred calls. *)
Context {W D : Type}.

(** A statement of a function of result type [R], producing an [A]:
    it transforms the state and the stack of deferred calls (most
    recent first). *)
Definition Go (R A : Type) : Type := W * list D -> Ctl R A * (W * list D).

Definition ret {R A} (a : A) : Go R A := fun s => (Next a, s).

Definition bind {R A B} (m : Go R A) (k : A -> Go R B) : Go R B :=
  fun s =>
    match m s with
    | (Next a, s') => k a s'
    | (Return r, s') => (Return r, s')
    | (Panic msg, s') => (Panic msg, s')
    | (Pending, s') => (Pending, s')
    end.

(** [return r]. *)
Definition return_ {R A} (r : R) : Go R A := fun s => (Return r, s).

(** A run-time panic. *)
Definition panic {R A} (msg : string) : Go R A := fun s => (Panic msg, s).

(** Not finished. *)
Definition pending {R A} : Go R A := fun s => (Pending, s).

(** Dereferencing a pointer: nil panics. *)
Definition deref {R A} (p : option A) : Go R A :=
  match p with
  | Some a => ret a
  | None => panic "invalid memory address or nil pointer dereference"
  end.

(** [defer d]: push the call; it runs when the function exits. *)
Definition defer_ {R} (d : D) : Go R unit :=
  fun '(w, ds) => (Next tt, (w, d :: ds)).

(** An operation on the state that cannot fail. *)
Definition lift {R A} (f : W -> A * W) : Go R A :=
  fun '(w, ds) => let '(a, w') := f w in (Next a, (w', ds)).

(** An operation that panics on [None] (a nil dereference). *)
Definition lift_opt {R A} (msg : string) (f : W -> option (A * W)) : Go R A :=
  fun '(w, ds) =>
    match f w with
    | Some (a, w') => (Next a, (w', ds))
    | None => (Panic msg, (w, ds))
    end.

(** [if err != nil { handler }]: the handler ends in [return_]. *)
Definition if_err {R} (err : option error) (handler : error -> Go R unit)
  : Go R unit :=
  match err with
  | Some e => handler e
  | None => ret tt
  end.

(** [if p == nil { handler }] on a pointer result. *)
Definition if_nil {R A} (p : option A) (handler : Go R A) : Go R A :=
  match p with
  | Some a => ret a
  | None => handler
  end.

(** [v, err := f(); if err != nil { handler }]. *)
Definition if_failed {R A} (r : error + A) (handler : error -> Go R A)
  : Go R A :=
  match r with
  | inl e => handler e
  | inr a => ret a
  end.

(** The deferred calls run last registered first. *)
Definition run_defers (run : D -> W -> W) (ds : list D) (w : W) : W :=
  fold_left (fun w d => run d w) ds w.

(** A function: run the body with an empty stack of deferred calls,
    then run what it deferred, whether it returned or panicked.  A body
    that has not finished has not run them. *)
Definition func {R} (run : D -> W -> W) (body : Go R R) (w : W)
  : Exit R * W :=
  let '(c, (w', ds)) := body (w, []) in
  (exit_of c, match c with Pending => w' | _ => run_defers run ds w' end).

(** Calling a function from a statement: its panic propagates. *)
Definition call {R R'} (f : W -> Exit R' * W) : Go R R' :=
  fun '(w, ds) =>
    match f w with
    | (Returned r, w') => (Next r, (w', ds))
    | (Panicked msg, w') => (Panic msg, (w', ds))
    | (Blocked, w') => (Pending, (w', ds))
    end.

(** The state-and-outcome predicate [Q] holds after running [m] from the
    state [w] with the deferred calls [ds]. *)
Definition wp {R A} (m : Go R A) (w : W) (ds : list D)
    (Q : Ctl R A -> W -> list D -> Prop) : Prop :=
  Q (m (w, ds)).1 (m (w, ds)).2.1 (m (w, ds)).2.2.
End Control.

Arguments Go : clear implicits.

Notation "x <- m ;; k" := (bind m (fun x => k))
  (at level 100, m at next level, right associativity) : go_scope.
Notation "m ;; k" := (bind m (fun _ => k))
  (at level 100, right associativity) : go_scope.

(** ** Lemmas on [int64] *)

Section Int64.
Lemma two63 : 2 ^ 63 = 9223372036854775808.
Proof. reflexivity. Qed.

Lemma two64 : 2 ^ 64 = 18446744073709551616.
Proof. reflexivity. Qed.

Lemma wrap64_range (z : Z) : in_int64 (wrap64 z).
Proof.
  unfold in_int64, wrap64, int64_min, int64_max.
  pose proof (Z.mod_pos_bound (z + 2 ^ 63) (2 ^ 64)). lia.
Qed.

Lemma wrap64_id (z : Z) : in_int64 z -> wrap64 z = z.
Proof.
  unfold in_int64, wrap64, int64_min, int64_max. intros H.
  rewrite Z.mod_small; lia.
Qed.

Lemma wrap64_idem (z : Z) : wrap64 (wrap64 z) = wrap64 z.
Proof. apply wrap64_id, wrap64_range. Qed.

(** Wrapping only removes a multiple of [2^64]. *)
Lemma wrap64_congr (z : Z) : exists k, wrap64 z = z - k * 2 ^ 64.
Proof.
  exists ((z + 2 ^ 63) / 2 ^ 64). unfold wrap64.
  pose proof (Z.div_mod (z + 2 ^ 63) (2 ^ 64)). lia.
Qed.

Lemma wrap64_inj_range (z : Z) : wrap64 z = z <-> in_int64 z.
Proof.
  split; [intros <-; apply wrap64_range | apply wrap64_id].
Qed.

Lemma int64_add_exact (a b : Z) : in_int64 (a + b) -> int64_add a b = a + b.
Proof. apply wrap64_id. Qed.

Lemma int64_mul_exact (a b : Z) : in_int64 (a * b) -> int64_mul a b = a * b.
Proof. apply wrap64_id. Qed.

Lemma int64_quot_zero (a : Z) : int64_quot a 0 = None.
Proof. reflexivity. Qed.

Lemma int64_quot_nonzero (a b : Z) :
  b <> 0 -> int64_quot a b = Some (wrap64 (a ÷ b)).
Proof.
  intros Hb. unfold int64_quot. destruct (Z.eqb_spec b 0); [lia | done].
Qed.

(** A non-negative dividend in range and a positive divisor: no wrap. *)
Lemma int64_quot_exact (a b : Z) :
  0 <= a <= int64_max -> 0 < b -> int64_quot a b = Some (a ÷ b).
Proof.
  intros Ha Hb. rewrite int64_quot_nonzero by lia. f_equal.
  apply wrap64_id. pose proof (quot_bounds a b).
  unfold in_int64, int64_min, int64_max in *. lia.
Qed.

Lemma int64_quot_Some_inv (a b q : Z) :
  int64_quot a b = Some q -> b <> 0 /\ q = wrap64 (a ÷ b).
Proof.
  unfold int64_quot. destruct (Z.eqb_spec b 0); [done|].
  intros [= <-]. done.
Qed.
End Int64.

#[export] Hint Rewrite wrap64_idem : wrap.
#[export] Hint Rewrite wrap64_id int64_add_exact int64_mul_exact
  using (unfold in_int64, int64_min, int64_max in *; lia) : wrap.
#[export] Hint Resolve wrap64_range : go.

(** ** Lemmas on the control monad *)

Section ControlLaws.
Context {W D : Type}.
Implicit Types (s : W * list D) (ds : list D) (w : W).
Local Open Scope go_scope.

Lemma bind_ret_l {R A B} (a : A) (k : A -> Go W D R B) s :
  (x <- ret a ;; k x) s = k a s.
Proof. done. Qed.

Lemma bind_ret_r {R A} (m : Go W D R A) s :
  (x <- m ;; ret x) s = m s.
Proof. unfold bind, ret. destruct (m s) as [[]]; done. Qed.

Lemma bind_assoc {R A B C} (m : Go W D R A) (k : A -> Go W D R B)
    (h : B -> Go W D R C) s :
  (y <- (x <- m ;; k x) ;; h y) s = (x <- m ;; y <- k x ;; h y) s.
Proof. unfold bind. destruct (m s) as [[]]; done. Qed.

(** A [return] skips the rest of the body. *)
Lemma bind_return {R A B} (r : R) (k : A -> Go W D R B) s :
  (x <- return_ r ;; k x) s = (Return r, s).
Proof. done. Qed.

Lemma bind_panic {R A B} msg (k : A -> Go W D R B) s :
  (x <- panic msg ;; k x) s = (Panic msg, s).
Proof. done. Qed.

Lemma run_defers_app (run : D -> W -> W) ds1 ds2 w :
  run_defers run (ds1 ++ ds2) w = run_defers run ds2 (run_defers run ds1 w).
Proof. apply fold_left_app. Qed.

Lemma run_defers_cons (run : D -> W -> W) d ds w :
  run_defers run (d :: ds) w = run_defers run ds (run d w).
Proof. done. Qed.

(** [func] runs the deferred calls also when the body panics. *)
Lemma func_panics {R} run (body : Go W D R R) w w' ds msg :
  body (w, []) = (Panic msg, (w', ds)) ->
  func run body w = (Panicked msg, run_defers run ds w').
Proof. unfold func. by intros ->. Qed.

(** A body that has not finished has not run its deferred calls. *)
Lemma func_pending {R} run (body : Go W D R R) w w' ds :
  body (w, []) = (Pending, (w', ds)) -> func run body w = (Blocked, w').
Proof. unfold func. by intros ->. Qed.

Lemma func_returns {R} run (body : Go W D R R) w w' ds r :
  body (w, []) = (Return r, (w', ds)) ->
  func run body w = (Returned r, run_defers run ds w').
Proof. unfold func. by intros ->. Qed.
End ControlLaws.

#[export] Hint Rewrite @run_defers_cons @run_defers_app : gosimp.

(** ** Reasoning rules

    One rule per statement form; [wp_step] applies the rule of the head
    statement. *)

Section Rules.
Context {W D : Type}.
Implicit Types (ds : list D) (w : W).

Lemma wp_ret {R A} (a : A) w ds (Q : Ctl R A -> W -> list D -> Prop) :
  Q (Next a) w ds -> wp (ret a) w ds Q.
Proof. done. Qed.

Lemma wp_return {R A} (r : R) w ds (Q : Ctl R A -> W -> list D -> Prop) :
  Q (Return r) w ds -> wp (return_ r) w ds Q.
Proof. done. Qed.

Lemma wp_panic {R A} msg w ds (Q : Ctl R A -> W -> list D -> Prop) :
  Q (Panic msg) w ds -> wp (panic msg) w ds Q.
Proof. done. Qed.

Lemma wp_bind {R A B} (m : Go W D R A) (k : A -> Go W D R B) w ds Q :
  wp m w ds (fun c w' ds' =>
    match c with
    | Next a => wp (k a) w' ds' Q
    | Return r => Q (Return r) w' ds'
    | Panic msg => Q (Panic msg) w' ds'
    | Pending => Q Pending w' ds'
    end) ->
  wp (bind m k) w ds Q.
Proof. unfold wp, bind. destruct (m (w, ds)) as [[a|r|p|] [w' ds']]; done. Qed.

Lemma wp_lift {R A} (f : W -> A * W) w ds (Q : Ctl R A -> W -> list D -> Prop) :
  Q (Next (f w).1) (f w).2 ds -> wp (lift f) w ds Q.
Proof. unfold wp, lift. by destruct (f w). Qed.

Lemma wp_defer {R} (d : D) w ds (Q : Ctl R unit -> W -> list D -> Prop) :
  Q (Next tt) w (d :: ds) -> wp (defer_ d) w ds Q.
Proof. done. Qed.

Lemma wp_if_err {R} (err : option error) (h : error -> Go W D R unit) w ds Q :
  match err with Some e => wp (h e) w ds Q | None => Q (Next tt) w ds end ->
  wp (if_err err h) w ds Q.
Proof. by destruct err. Qed.

Lemma wp_if_nil {R A} (p : option A) (h : Go W D R A) w ds Q :
  match p with Some a => Q (Next a) w ds | None => wp h w ds Q end ->
  wp (if_nil p h) w ds Q.
Proof. by destruct p. Qed.

Lemma wp_if_failed {R A} (r : error + A) (h : error -> Go W D R A) w ds Q :
  match r with inl e => wp (h e) w ds Q | inr a => Q (Next a) w ds end ->
  wp (if_failed r h) w ds Q.
Proof. by destruct r. Qed.

Lemma wp_call {R R'} (f : W -> Exit R' * W) w ds
    (Q : Ctl R R' -> W -> list D -> Prop) :
  match (f w).1 with
  | Returned r => Q (Next r) (f w).2 ds
  | Panicked msg => Q (Panic msg) (f w).2 ds
  | Blocked => Q Pending (f w).2 ds
  end ->
  wp (call f) w ds Q.
Proof. unfold wp, call. by destruct (f w) as [[]]. Qed.

(** A call of a function with a proved specification [P]. *)
Lemma wp_call_spec {R R'} (f : W -> Exit R' * W) (P : Exit R' -> W -> Prop) w ds
    (Q : Ctl R R' -> W -> list D -> Prop) :
  P (f w).1 (f w).2 ->
  (forall r w', P r w' ->
     match r with
     | Returned r => Q (Next r) w' ds
     | Panicked msg => Q (Panic msg) w' ds
     | Blocked => Q Pending w' ds
     end) ->
  wp (call f) w ds Q.
Proof. intros HP HQ. apply wp_call. apply HQ in HP. by destruct (f w).1. Qed.

(** A weaker postcondition. *)
Lemma wp_mono {R A} (m : Go W D R A) w ds (Q Q' : Ctl R A -> W -> list D -> Prop) :
  wp m w ds Q -> (forall c w' ds', Q c w' ds' -> Q' c w' ds') -> wp m w ds Q'.
Proof. unfold wp. auto. Qed.

(** What a function does, from what its body does. *)
Lemma wp_func {R} run (body : Go W D R R) w (P : Exit R -> W -> Prop) :
  wp body w [] (fun c w' ds =>
    P (exit_of c) (match c with Pending => w' | _ => run_defers run ds w' end)) ->
  P (func run body w).1 (func run body w).2.
Proof. unfold wp, func. by destruct (body (w, [])) as [c [w' ds]]. Qed.

Lemma wp_deref {R A} (p : option A) w ds (Q : Ctl R A -> W -> list D -> Prop) :
  match p with
  | Some a => Q (Next a) w ds
  | None => Q (Panic "invalid memory address or nil pointer dereference") w ds
  end ->
  wp (deref p) w ds Q.
Proof. by destruct p. Qed.

Lemma wp_pending {R A} w ds (Q : Ctl R A -> W -> list D -> Prop) :
  Q Pending w ds -> wp pending w ds Q.
Proof. done. Qed.

(** The value of a run, from a postcondition that determines it. *)
Lemma wp_eq {R A} (m : Go W D R A) w ds c w' ds' :
  wp m w ds (fun c0 w0 ds0 => c0 = c /\ w0 = w' /\ ds0 = ds') ->
  m (w, ds) = (c, (w', ds')).
Proof.
  unfold wp. destruct (m (w, ds)) as [c0 [w0 ds0]]. simpl.
  by intros (-> & -> & ->).
Qed.
End Rules.

Ltac wp_step :=
  lazymatch goal with
  | |- wp (ret _) _ _ _ => apply wp_ret
  | |- wp (return_ _) _ _ _ => apply wp_return
  | |- wp (panic _) _ _ _ => apply wp_panic
  | |- wp (defer_ _) _ _ _ => apply wp_defer
  | |- wp (lift _) _ _ _ => apply wp_lift
  | |- wp (if_err _ _) _ _ _ => apply wp_if_err
  | |- wp (if_nil _ _) _ _ _ => apply wp_if_nil
  | |- wp (if_failed _ _) _ _ _ => apply wp_if_failed
  | |- wp (deref _) _ _ _ => apply wp_deref
  | |- wp pending _ _ _ => apply wp_pending
  | |- wp (if ?b then _ else _) _ _ _ => destruct b eqn:?; try discriminate
  end; cbv beta.

(** A sequence: run the first statement with the rest of the body folded
    into a local definition, so that simplification only sees the
    statement at hand. *)
Ltac wp_seq :=
  lazymatch goal with
  | |- wp (bind _ _) _ _ _ =>
      apply wp_bind;
      lazymatch goal with
      | |- wp _ _ _ ?Q => let K := fresh "K" in set (K := Q)
      end
  end.

(** The statement is done: continue with the rest of the body. *)
Ltac wp_continue :=
  lazymatch goal with
  | |- ?K _ _ _ => is_var K; unfold K; clear K; cbv beta iota
  end.
