(* ===== verification/Rational.v ===== *)
(** * Rational: [astiav.Rational] and timestamp rescaling

    A time base is a rational number of seconds.  [Packet.RescaleTs]
    converts a timestamp from one time base to another with
    [av_rescale_q], which multiplies by the ratio of the two and rounds to
    the nearest integer, halves away from zero.  The lemmas are the ones
    the theorems of the recorder need: identity between equal time
    bases, monotonicity, the rounding error, and the round trip: when
    the destination divides the unit of the source in [k] parts
    ([refines]), rescaling is the multiplication by [k], and rescaling
    back gives the timestamp again as long as the product fits
    [int64] ([fits]). *)

From S2P Require Import Prelude GoLang.

Local Open Scope Z_scope.

(** ** Definitions *)

Record Rational : Type := NewRational { num : Z; den : Z }.

#[export] Instance Rational_eq_dec : EqDecision Rational.
Proof. solve_decision. Defined.

(** Both terms positive: what a time base is. *)
Definition positive_rational (q : Rational) : Prop := 0 < num q /\ 0 < den q.

(** The timestamp that means "none". *)
Definition AV_NOPTS_VALUE : Z := int64_min.

(** [av_rescale_rnd a b c AV_ROUND_NEAR_INF]: [a * b / c] rounded to the
    nearest integer, halves away from zero; [int64_min] on an invalid
    ratio. *)
Definition av_rescale_rnd (a b c : Z) : Z :=
  if (c <=? 0) || (b <? 0) then int64_min
  else if 0 <=? a then wrap64 ((a * b + c / 2) / c)
  else wrap64 (- ((- a * b + c / 2) / c)).

(** [av_rescale_q a bq cq]: [a] in units of [bq], expressed in units of
    [cq]. *)
Definition av_rescale_q (a : Z) (bq cq : Rational) : Z :=
  av_rescale_rnd a (num bq * den cq) (num cq * den bq).

(** A timestamp field of a packet: [AV_NOPTS_VALUE] is kept. *)
Definition rescale_ts (a : Z) (src dst : Rational) : Z :=
  if a =? AV_NOPTS_VALUE then a else av_rescale_q a src dst.

(** The duration field: rescaled only when positive. *)
Definition rescale_duration (d : Z) (src dst : Rational) : Z :=
  if 0 <? d then av_rescale_q d src dst else d.

(** The unwrapped value of a rescale with a valid ratio. *)
Definition round_near (n c : Z) : Z :=
  if 0 <=? n then (n + c / 2) / c else - ((- n + c / 2) / c).

(** [dst] refines [src] by [k]: a unit of [src] is [k] units of [dst]. *)
Definition refines (dst src : Rational) (k : Z) : Prop :=
  positive_rational src /\ positive_rational dst /\
  num src * den dst = k * (num dst * den src).

(** The timestamp [a] has an image in [dst]: it is not [AV_NOPTS_VALUE]
    and its rescaling fits. *)
Definition rescalable (src dst : Rational) (a : Z) : Prop :=
  a <> AV_NOPTS_VALUE /\
  in_int64 (round_near (a * (num src * den dst)) (num dst * den src)).

(** [a * k] is a timestamp: it fits, and it is not [AV_NOPTS_VALUE]. *)
Definition fits (k a : Z) : Prop := int64_min < a * k <= int64_max.

(** ** Rounded division *)

Section Rounding.
Implicit Types a b c : Z.

Lemma round_near_exact n c : 0 < c -> round_near (n * c) c = n.
Proof.
  intros Hc. unfold round_near. destruct (Z.leb_spec 0 (n * c)).
  - rewrite Z.div_add_l by lia. rewrite (Z.div_small (c / 2)); [lia|].
    split; [apply Z.div_pos; lia | apply Z.div_lt; lia].
  - replace (- (n * c) + c / 2) with (- n * c + c / 2) by lia.
    rewrite Z.div_add_l by lia. rewrite (Z.div_small (c / 2)); [lia|].
    split; [apply Z.div_pos; lia | apply Z.div_lt; lia].
Qed.

Lemma round_near_nonneg n c : 0 < c -> 0 <= n -> 0 <= round_near n c.
Proof.
  intros Hc Hn. unfold round_near. destruct (Z.leb_spec 0 n); [|lia].
  apply Z.div_pos; [|lia]. pose proof (Z.div_pos c 2). lia.
Qed.

Lemma round_near_nonpos n c : 0 < c -> n < 0 -> round_near n c <= 0.
Proof.
  intros Hc Hn. unfold round_near. destruct (Z.leb_spec 0 n); [lia|].
  enough (0 <= (- n + c / 2) / c) by lia.
  apply Z.div_pos; [|lia]. pose proof (Z.div_pos c 2). lia.
Qed.

Lemma round_near_mono n m c : 0 < c -> n <= m -> round_near n c <= round_near m c.
Proof.
  intros Hc Hnm. unfold round_near.
  destruct (Z.leb_spec 0 n), (Z.leb_spec 0 m); try lia.
  - apply Z.div_le_mono; lia.
  - pose proof (round_near_nonpos n c Hc ltac:(lia)) as H1.
    pose proof (round_near_nonneg m c Hc ltac:(lia)) as H2.
    unfold round_near in H1, H2.
    destruct (Z.leb_spec 0 n), (Z.leb_spec 0 m); lia.
  - enough ((- m + c / 2) / c <= (- n + c / 2) / c) by lia.
    apply Z.div_le_mono; lia.
Qed.

(** Twice the rounding error is at most the divisor. *)
Lemma round_near_error n c :
  0 < c -> 2 * Z.abs (c * round_near n c - n) <= c.
Proof.
  intros Hc. unfold round_near.
  pose proof (Z.div_mod c 2 ltac:(lia)) as Hc2.
  pose proof (Z.mod_pos_bound c 2 ltac:(lia)) as Hc2b.
  destruct (Z.leb_spec 0 n).
  - pose proof (Z.div_mod (n + c / 2) c ltac:(lia)).
    pose proof (Z.mod_pos_bound (n + c / 2) c Hc). lia.
  - pose proof (Z.div_mod (- n + c / 2) c ltac:(lia)).
    pose proof (Z.mod_pos_bound (- n + c / 2) c Hc). lia.
Qed.

Lemma av_rescale_rnd_valid a b c :
  0 < c -> 0 <= b -> av_rescale_rnd a b c = wrap64 (round_near (a * b) c).
Proof.
  intros Hc Hb. unfold av_rescale_rnd, round_near.
  destruct (Z.leb_spec c 0); [lia|]. destruct (Z.ltb_spec b 0); [lia|]. simpl.
  destruct (Z.leb_spec 0 a), (Z.leb_spec 0 (a * b)); try done; try nia.
  - assert (a * b = 0) as Hab by nia. assert (- a * b = 0) as -> by nia.
    rewrite Hab. simpl. rewrite Z.div_small; [done|].
    split; [apply Z.div_pos; lia | apply Z.div_lt; lia].
  - by replace (- a * b) with (- (a * b)) by lia.
Qed.
End Rounding.

(** ** Rescaling between time bases *)

Section Rescale.
Implicit Types (a : Z) (src dst : Rational).

Lemma av_rescale_q_valid a src dst :
  positive_rational src -> positive_rational dst ->
  av_rescale_q a src dst
    = wrap64 (round_near (a * (num src * den dst)) (num dst * den src)).
Proof.
  intros [] []. unfold av_rescale_q. apply av_rescale_rnd_valid; nia.
Qed.

(** Between equal time bases a timestamp is unchanged. *)
Lemma av_rescale_q_same a tb :
  positive_rational tb -> in_int64 a -> av_rescale_q a tb tb = a.
Proof.
  intros Htb Ha. rewrite av_rescale_q_valid by done. destruct Htb.
  rewrite round_near_exact by lia. by apply wrap64_id.
Qed.

Lemma rescale_ts_same a tb :
  positive_rational tb -> in_int64 a -> rescale_ts a tb tb = a.
Proof.
  intros. unfold rescale_ts. case_goal; [done|]. by apply av_rescale_q_same.
Qed.

(** Rescaling is monotone as long as the results fit in an [int64]. *)
Lemma av_rescale_q_mono a a' src dst :
  positive_rational src -> positive_rational dst ->
  in_int64 (round_near (a * (num src * den dst)) (num dst * den src)) ->
  in_int64 (round_near (a' * (num src * den dst)) (num dst * den src)) ->
  a <= a' -> av_rescale_q a src dst <= av_rescale_q a' src dst.
Proof.
  intros Hs Hd Ha Ha' Hle. rewrite !av_rescale_q_valid by done.
  rewrite !wrap64_id by done. destruct Hs, Hd.
  apply round_near_mono; [lia|].
  apply Z.mul_le_mono_nonneg_r; lia.
Qed.
End Rescale.

(** ** Round trips

    A time base [dst] refines [src] by [k] when a unit of [src] is [k]
    units of [dst]: a timestamp is then rescaled from [src] to [dst] by
    the multiplication by [k], without rounding, and rescaling back
    returns it. *)

Section RoundTrip.
Implicit Types (a d k : Z) (src dst : Rational).

Lemma refines_pos dst src k : refines dst src k -> 0 < k.
Proof. intros ([] & [] & Hk). nia. Qed.

Lemma fits_in_int64 k a : 0 < k -> fits k a -> in_int64 a /\ in_int64 (a * k).
Proof. unfold fits, in_int64, int64_min, int64_max. intros Hk Ha. nia. Qed.

(** To the finer time base: the multiplication by [k]. *)
Lemma av_rescale_q_refine a src dst k :
  refines dst src k -> in_int64 (a * k) -> av_rescale_q a src dst = a * k.
Proof.
  intros (Hs & Hd & Hk) Ha. rewrite av_rescale_q_valid by done. destruct Hs, Hd.
  rewrite Hk, Z.mul_assoc, round_near_exact by lia. by apply wrap64_id.
Qed.

(** Back to the coarser one: the division by [k], exact on a multiple. *)
Lemma av_rescale_q_coarsen a src dst k :
  refines dst src k -> in_int64 a -> av_rescale_q (a * k) dst src = a.
Proof.
  intros (Hs & Hd & Hk) Ha. rewrite av_rescale_q_valid by done. destruct Hs, Hd.
  rewrite Hk. replace (a * k * (num dst * den src)) with (a * (k * (num dst * den src))) by lia.
  rewrite round_near_exact by nia. by apply wrap64_id.
Qed.

Lemma rescale_ts_refine a src dst k :
  refines dst src k -> fits k a -> rescale_ts a src dst = a * k.
Proof.
  intros Hr Ha. pose proof (refines_pos _ _ _ Hr) as Hk.
  destruct (fits_in_int64 k a Hk Ha) as [Ha1 Ha2]. unfold rescale_ts.
  destruct (Z.eqb_spec a AV_NOPTS_VALUE) as [->|_]; [|by apply av_rescale_q_refine].
  unfold fits, AV_NOPTS_VALUE, int64_min, int64_max in *. nia.
Qed.

(** A timestamp rescaled to a finer time base and back is unchanged. *)
Lemma rescale_ts_roundtrip a src dst k :
  refines dst src k -> a = AV_NOPTS_VALUE \/ fits k a ->
  rescale_ts (rescale_ts a src dst) dst src = a.
Proof.
  intros Hr [->|Ha]; [done|]. rewrite (rescale_ts_refine a src dst k) by done.
  pose proof (refines_pos _ _ _ Hr) as Hk.
  destruct (fits_in_int64 k a Hk Ha) as [Ha1 Ha2]. unfold rescale_ts.
  destruct (Z.eqb_spec (a * k) AV_NOPTS_VALUE) as [He|_];
    [unfold fits, AV_NOPTS_VALUE in *; lia|].
  by apply av_rescale_q_coarsen.
Qed.

Lemma rescale_duration_roundtrip d src dst k :
  refines dst src k -> d * k <= int64_max ->
  rescale_duration (rescale_duration d src dst) dst src = d.
Proof.
  intros Hr Hd. pose proof (refines_pos _ _ _ Hr) as Hk. unfold rescale_duration.
  destruct (Z.ltb_spec 0 d) as [Hp|Hn]; [|by destruct (Z.ltb_spec 0 d); [lia|]].
  assert (in_int64 d /\ in_int64 (d * k)) as [Hd1 Hd2]
    by (unfold in_int64, int64_min, int64_max in *; nia).
  rewrite (av_rescale_q_refine d src dst k) by done.
  destruct (Z.ltb_spec 0 (d * k)); [|nia]. by apply av_rescale_q_coarsen.
Qed.

(** Rescaling keeps the order of timestamps that fit. *)
Lemma rescale_ts_mono a a' src dst :
  positive_rational src -> positive_rational dst ->
  rescalable src dst a -> rescalable src dst a' ->
  a <= a' -> rescale_ts a src dst <= rescale_ts a' src dst.
Proof.
  intros Hs Hd [Ha Hr] [Ha' Hr'] Hle. unfold rescale_ts.
  destruct (Z.eqb_spec a AV_NOPTS_VALUE); [done|].
  destruct (Z.eqb_spec a' AV_NOPTS_VALUE); [done|]. by apply av_rescale_q_mono.
Qed.

(** The identity is the refinement by one. *)
Lemma refines_same tb : positive_rational tb -> refines tb tb 1.
Proof. intros Htb. repeat split; try apply Htb. lia. Qed.
End RoundTrip.
