(* ===== verification/Clock.v ===== *)
(** * Clock: the frame clock of the orchestrator and the sampler's period

    [StartScreenRecording] stamps the frame number [N] with
    [N * int64((90 * 1000) / fps)] and increments [N] after each
    submitted frame; [StartScreenCap] waits [time.Second / fps] between
    captures.  All of it is [int64] arithmetic: the definitions keep the
    wrap-around and the division panic, the theorems say when neither
    occurs. *)

From S2P Require Import Prelude GoLang.

Local Open Scope Z_scope.

(** ** Definitions *)

(** The frequency of the encoder's time base [1 / (90 * 1000)]. *)
Definition timeBaseFrequency : Z := 90 * 1000.

(** [pts := int64((90 * 1000) / fps)]; [None] is the division panic. *)
Definition pts_increment (fps : Z) : option Z :=
  int64_quot timeBaseFrequency fps.

(** [frameNumber := int64(0)]. *)
Definition frameNumber0 : Z := 0.

(** The argument of [frame.SetPts]: [frameNumber * pts]. *)
Definition frame_pts (frameNumber pts : Z) : Z := int64_mul frameNumber pts.

(** [frameNumber++]. *)
Definition next_frame (frameNumber : Z) : Z := int64_add frameNumber 1.

(** [time.Second], in nanoseconds. *)
Definition time_Second : Z := 1000000000.

(** [waitTime := time.Second / time.Duration(fps)]. *)
Definition waitTime (fps : Z) : option Z := int64_quot time_Second fps.

(** The timestamps the loop gives to [n] consecutive frames, starting
    with the counter at [frameNumber]. *)
Fixpoint stamps_from (pts frameNumber : Z) (n : nat) : list Z :=
  match n with
  | O => []
  | S n' => frame_pts frameNumber pts :: stamps_from pts (next_frame frameNumber) n'
  end.

(** The largest frame number whose timestamp cannot overflow, whatever
    the positive frame rate: [(2^63 - 1) / 90000]. *)
Definition max_exact_frame : Z := 102481911520608.

(** ** The increment *)

Section Increment.
Lemma pts_increment_zero : pts_increment 0 = None.
Proof. reflexivity. Qed.

Lemma increment_in_int64 (fps : Z) : in_int64 (timeBaseFrequency ÷ fps).
Proof.
  unfold in_int64, int64_min, int64_max, timeBaseFrequency.
  destruct (Z.lt_trichotomy fps 0) as [H | [-> | H]].
  - pose proof (quot_bounds (90 * 1000) (- fps)).
    replace fps with (- - fps) by lia. rewrite Z.quot_opp_r by lia. lia.
  - vm_compute. split; discriminate.
  - pose proof (quot_bounds (90 * 1000) fps). lia.
Qed.

(** The conversion to [int64] never wraps: the quotient is at most
    [90000] in absolute value. *)
Lemma pts_increment_nonzero (fps : Z) :
  fps <> 0 -> pts_increment fps = Some (timeBaseFrequency ÷ fps).
Proof.
  intros H. unfold pts_increment. rewrite int64_quot_nonzero by done.
  by rewrite wrap64_id by apply increment_in_int64.
Qed.

Lemma pts_increment_pos (fps : Z) :
  0 < fps -> pts_increment fps = Some (timeBaseFrequency / fps).
Proof.
  intros H. rewrite pts_increment_nonzero by lia.
  by rewrite quot_nonneg_div by (unfold timeBaseFrequency; lia).
Qed.

Lemma increment_bounds (fps : Z) :
  0 < fps -> 0 <= timeBaseFrequency / fps <= timeBaseFrequency.
Proof.
  intros H. rewrite <- quot_nonneg_div by (unfold timeBaseFrequency; lia).
  apply quot_bounds; unfold timeBaseFrequency; lia.
Qed.

Lemma increment_pos_iff (fps : Z) :
  0 < fps -> (0 < timeBaseFrequency / fps <-> fps <= timeBaseFrequency).
Proof.
  intros H. rewrite <- quot_nonneg_div by (unfold timeBaseFrequency; lia).
  apply quot_pos_iff; unfold timeBaseFrequency; lia.
Qed.
End Increment.

(** ** The period of the sampler *)

Section Period.
Lemma waitTime_pos (fps : Z) : 0 < fps -> waitTime fps = Some (time_Second / fps).
Proof.
  intros Hf. unfold waitTime.
  rewrite int64_quot_exact by (unfold time_Second, int64_max; lia).
  by rewrite quot_nonneg_div by (unfold time_Second; lia).
Qed.

Lemma waitTime_period (fps : Z) :
  0 < fps <= time_Second -> 0 < time_Second / fps.
Proof.
  intros Hf. rewrite <- quot_nonneg_div by (unfold time_Second; lia).
  apply quot_pos_iff; unfold time_Second in *; lia.
Qed.

(** A negative frame rate, or one above [10^9], has no positive period. *)
Lemma waitTime_nonpos (fps d : Z) :
  waitTime fps = Some d -> fps < 0 \/ time_Second < fps -> d <= 0.
Proof.
  intros [Hz ->]%int64_quot_Some_inv [Hneg|Hbig].
  - pose proof (quot_bounds time_Second (- fps)) as Hb.
    rewrite Z.quot_opp_r in Hb by done.
    rewrite wrap64_id; unfold in_int64, int64_min, int64_max, time_Second in *; lia.
  - rewrite Z.quot_small by (unfold time_Second in *; lia). done.
Qed.
End Period.

(** ** Timestamps *)

Section Stamps.
(** Below [max_exact_frame] the product is in range for every positive
    frame rate. *)
Lemma stamp_in_int64 (fps N : Z) :
  0 < fps -> 0 <= N <= max_exact_frame ->
  in_int64 (N * (timeBaseFrequency / fps)).
Proof.
  intros Hf HN. pose proof (increment_bounds fps Hf).
  unfold in_int64, int64_min, int64_max, max_exact_frame,
    timeBaseFrequency in *. nia.
Qed.

Lemma frame_pts_no_wrap (N inc : Z) :
  in_int64 (N * inc) -> frame_pts N inc = N * inc.
Proof. apply int64_mul_exact. Qed.

Lemma next_frame_no_wrap (N : Z) :
  int64_min <= N < int64_max -> next_frame N = N + 1.
Proof.
  intros H. apply int64_add_exact. unfold in_int64. lia.
Qed.

(** At [int64_max] the counter wraps to [int64_min]. *)
Lemma next_frame_wraps : next_frame int64_max = int64_min.
Proof. reflexivity. Qed.

(** The [k]-th of [n] consecutive timestamps. *)
Lemma stamps_from_lookup (inc N : Z) (n k : nat) :
  (k < n)%nat -> 0 <= N -> N + Z.of_nat n <= int64_max ->
  stamps_from inc N n !! k = Some (frame_pts (N + Z.of_nat k) inc).
Proof.
  revert N k. induction n as [|n IH]; intros N k Hk HN Hmax; [lia|].
  destruct k as [|k]; simpl.
  - by rewrite Z.add_0_r.
  - rewrite next_frame_no_wrap by (unfold int64_min; lia).
    rewrite IH by lia. do 2 f_equal. lia.
Qed.

(** One more frame: its number is the counter after [k] increments. *)
Lemma stamps_from_snoc (inc N : Z) (k : nat) :
  stamps_from inc N (S k)
    = stamps_from inc N k ++ [frame_pts (Nat.iter k next_frame N) inc].
Proof.
  revert N. induction k as [|k IH]; intros N; [done|].
  change (stamps_from inc N (S (S k)))
    with (frame_pts N inc :: stamps_from inc (next_frame N) (S k)).
  rewrite IH. by rewrite Nat.iter_succ_r.
Qed.

(** The counter after [k] increments, as long as it does not wrap. *)
Lemma iter_next_frame (k : nat) :
  Z.of_nat k <= int64_max -> Nat.iter k next_frame frameNumber0 = Z.of_nat k.
Proof.
  induction k as [|k IH]; intros Hk; [done|].
  rewrite Nat.iter_succ, IH by lia.
  rewrite next_frame_no_wrap by (unfold int64_min; lia). lia.
Qed.

Lemma stamps_from_length (inc N : Z) (n : nat) :
  length (stamps_from inc N n) = n.
Proof. revert N. induction n; intros; simpl; auto. Qed.

Lemma frame_pts_zero (N : Z) : frame_pts N 0 = 0.
Proof. unfold frame_pts, int64_mul. by rewrite Z.mul_0_r. Qed.

Lemma pts_increment_fast (fps : Z) :
  timeBaseFrequency < fps -> pts_increment fps = Some 0.
Proof.
  intros Hf. rewrite pts_increment_pos by (unfold timeBaseFrequency in *; lia).
  rewrite Z.div_small; [done | unfold timeBaseFrequency in *; lia].
Qed.

(** A later frame has a later timestamp, for the frame rates whose
    increment is positive. *)
Lemma frame_pts_lt (fps inc N M : Z) :
  0 < fps <= timeBaseFrequency ->
  pts_increment fps = Some inc ->
  0 <= N -> N < M -> M <= max_exact_frame ->
  frame_pts N inc < frame_pts M inc.
Proof.
  intros Hf Hinc HN HNM HM.
  rewrite pts_increment_pos in Hinc by lia. injection Hinc as <-.
  rewrite !frame_pts_no_wrap by (apply stamp_in_int64; lia).
  pose proof (proj2 (increment_pos_iff fps (proj1 Hf)) (proj2 Hf)). nia.
Qed.
End Stamps.

#[export] Hint Rewrite stamps_from_length : gosimp.
#[export] Hint Resolve stamp_in_int64 increment_in_int64 : go.

(** ** Properties *)

(** C16. For a positive frame rate and a frame number up to
    [max_exact_frame], the increment is computed without panic and the
    timestamp of frame [N] is exactly [N * (90000 / fps)]: there is no
    wrap-around and no accumulated rounding. *)
Theorem frame_pts_exact (fps N : Z) :
  0 < fps -> 0 <= N <= max_exact_frame ->
  exists inc, pts_increment fps = Some inc /\
              frame_pts N inc = N * (timeBaseFrequency / fps).
Proof.
  intros Hf HN. exists (timeBaseFrequency / fps). split.
  - by apply pts_increment_pos.
  - apply frame_pts_no_wrap. by apply stamp_in_int64.
Qed.

Lemma frame_pts_exact_witness :
  exists inc, pts_increment 30 = Some inc /\
              frame_pts 7 inc = 7 * (timeBaseFrequency / 30).
Proof. apply (frame_pts_exact 30 7); unfold max_exact_frame; lia. Defined.

(** C37. With [1 <= fps <= 90000] the timestamps are strictly increasing
    in the frame number, up to [max_exact_frame]. *)
Theorem frame_pts_strictly_increasing (fps inc N M : Z) :
  0 < fps <= timeBaseFrequency ->
  pts_increment fps = Some inc ->
  0 <= N -> N < M -> M <= max_exact_frame ->
  frame_pts N inc < frame_pts M inc.
Proof. apply frame_pts_lt. Qed.

Lemma frame_pts_strictly_increasing_witness :
  frame_pts 3 1500 < frame_pts 4 1500.
Proof.
  apply (frame_pts_strictly_increasing 60 1500 3 4);
    unfold timeBaseFrequency, max_exact_frame; (reflexivity || lia).
Defined.

(** A frame rate above the time-base frequency makes the increment
    zero: every frame is stamped [0], so the timestamps are not strictly
    increasing. *)
Theorem frame_pts_collapse (fps N : Z) :
  timeBaseFrequency < fps ->
  pts_increment fps = Some 0 /\ frame_pts N 0 = 0.
Proof. intros Hf. split; [by apply pts_increment_fast|apply frame_pts_zero]. Qed.

Lemma frame_pts_collapse_witness :
  pts_increment 100000 = Some 0 /\ frame_pts 5 0 = 0.
Proof. apply (frame_pts_collapse 100000 5). unfold timeBaseFrequency. lia. Defined.

(** A frame rate of zero panics in the orchestrator (the increment)
    and in the sampler (the period): both are integer divisions by
    [fps]. *)
Theorem fps_zero_panics : pts_increment 0 = None /\ waitTime 0 = None.
Proof. split; reflexivity. Qed.

(** The timestamps of [n] consecutive frames from the start of the
    recording are [0, inc, 2 * inc, ...]. *)
Theorem stamps_from_start (fps : Z) (n k : nat) :
  0 < fps -> (k < n)%nat -> Z.of_nat n <= max_exact_frame ->
  exists inc, pts_increment fps = Some inc /\
    stamps_from inc frameNumber0 n !! k
      = Some (Z.of_nat k * (timeBaseFrequency / fps)).
Proof.
  intros Hf Hk Hn. exists (timeBaseFrequency / fps). split.
  - by apply pts_increment_pos.
  - rewrite stamps_from_lookup;
      [| done | done | unfold frameNumber0, int64_max, max_exact_frame in *; lia].
    unfold frameNumber0. rewrite Z.add_0_l. f_equal.
    apply frame_pts_no_wrap, stamp_in_int64; lia.
Qed.

Lemma stamps_from_start_witness :
  exists inc, pts_increment 30 = Some inc /\
    stamps_from inc frameNumber0 10 !! 9%nat
      = Some (Z.of_nat 9 * (timeBaseFrequency / 30)).
Proof.
  apply (stamps_from_start 30 10 9); unfold max_exact_frame; lia.
Defined.

(** The scenario of the specification: 30 frames per second, ten
    frames. *)
Example stamps_30fps :
  pts_increment 30 = Some 3000 /\
  stamps_from 3000 frameNumber0 10
    = [0; 3000; 6000; 9000; 12000; 15000; 18000; 21000; 24000; 27000].
Proof. split; reflexivity. Qed.

(** Past the bound the product wraps: at one frame per second the
    frame after [max_exact_frame] gets a negative timestamp. *)
Theorem frame_pts_overflow :
  pts_increment 1 = Some 90000 /\
  frame_pts max_exact_frame 90000 = 9223372036854720000 /\
  frame_pts (max_exact_frame + 1) 90000 = - 9223372036854741616.
Proof. repeat split; reflexivity. Qed.

(** Drift against the capture cadence: frame [N] is due at
    [N * 90000 / fps] ticks; the stamp is early by [N * (90000 mod fps)
    / fps] ticks, which is zero exactly when [fps] divides [90000]. *)
Theorem frame_pts_drift (fps inc N : Z) :
  0 < fps -> 0 <= N <= max_exact_frame ->
  pts_increment fps = Some inc ->
  timeBaseFrequency * N - fps * frame_pts N inc
    = N * (timeBaseFrequency mod fps).
Proof.
  intros Hf HN Hinc.
  rewrite pts_increment_pos in Hinc by lia. injection Hinc as <-.
  rewrite frame_pts_no_wrap by (apply stamp_in_int64; lia).
  pose proof (Z.div_mod timeBaseFrequency fps). nia.
Qed.

Lemma frame_pts_drift_witness :
  timeBaseFrequency * 61 - 61 * frame_pts 61 1475
    = 61 * (timeBaseFrequency mod 61).
Proof.
  apply (frame_pts_drift 61 1475 61); unfold max_exact_frame; (reflexivity || lia).
Defined.

(** The sampler's period: positive exactly for
    [1 <= fps <= 10^9]; above that it is zero, which [time.NewTicker]
    rejects. *)
Theorem waitTime_spec (fps : Z) :
  0 < fps ->
  exists d, waitTime fps = Some d /\ d = time_Second / fps /\
            (0 < d <-> fps <= time_Second).
Proof.
  intros Hf. exists (time_Second / fps).
  assert (Hq : time_Second ÷ fps = time_Second / fps)
    by (apply quot_nonneg_div; unfold time_Second; lia).
  split; [|split; [done|]].
  - unfold waitTime. rewrite int64_quot_exact, Hq;
      [done | unfold time_Second, int64_max; lia | done].
  - rewrite <- Hq. apply quot_pos_iff; unfold time_Second; lia.
Qed.

Lemma waitTime_spec_witness :
  exists d, waitTime 30 = Some d /\ d = time_Second / 30 /\
            (0 < d <-> 30 <= time_Second).
Proof. apply (waitTime_spec 30). lia. Defined.
