(* ===== verification/Astiav.v ===== *)
(** * Astiav: the codec and container collaborator

    The program drives FFmpeg through the astiav binding.  This file is
    the contract of that collaborator as the program sees it:

    - the objects behind the handles ([Frame], [Packet], [CodecContext],
      [FormatContext], [Stream], [IOContext], [SoftwareScaleContext]) and
      the heap [Heap] of live handles;
    - the API surface the program uses, as three alphabets: [Alloc]
      (calls that return a new object), [Call] (calls that return an
      error or nil) and [Op] (setters and releases, which return
      nothing), with the precondition ([pre_call], [pre_op]) and the
      effect ([effect_call], [effect_op]) of each;
    - the class [AvLib] of oracles: whether a fallible call fails, what
      the encoder hands out, and which time base the muxer gives a
      stream when the header is written;
    - the world [World] and the runners [place], [alloc], [attempt], [exec],
      [ReceivePacket], [query], [Println].

    A call whose precondition does not hold (a released handle, a packet
    written before the header, a frame whose timestamp does not increase
    or whose size is not the one of the encoder,
    a packet written in the wrong time base) is undefined behaviour in
    the library; the model records it in [faults] and leaves the objects
    unchanged, so that "no fault is recorded" is the statement that the
    program respects the contract.  Other ghost fields record what has
    happened to an object: the frames an encoder was sent ([cc_sent]),
    the packets it has handed out ([cc_handed]), the time base a packet
    is stamped in ([p_tb]), the objects released ([released]). *)

From stdpp Require Import gmap strings.
From S2P Require Import Prelude GoLang Rational.

Local Open Scope Z_scope.

(** ** Values *)

Definition Handle : Type := positive.

Inductive PixelFormat : Type :=
| PixelFormatNone
| PixelFormatRgba
| PixelFormatYuv420P.

Inductive CodecID : Type :=
| CodecIDNone
| CodecIDH264.

#[export] Instance PixelFormat_eq_dec : EqDecision PixelFormat.
Proof. solve_decision. Defined.
#[export] Instance CodecID_eq_dec : EqDecision CodecID.
Proof. solve_decision. Defined.

(** [image.Rectangle] and [image.RGBA] of Go's standard library. *)
Record Rectangle : Type := mkRectangle { MinX : Z; MinY : Z; MaxX : Z; MaxY : Z }.
Record RGBA : Type := mkRGBA { Pix : list Z; Stride : Z; Rect : Rectangle }.

Definition Bounds (img : RGBA) : Rectangle := Rect img.
Definition Dx (r : Rectangle) : Z := wrap64 (MaxX r - MinX r).
Definition Dy (r : Rectangle) : Z := wrap64 (MaxY r - MinY r).

(** Flag constants of the binding. *)
Definition CodecContextFlagGlobalHeader : Z := Z.shiftl 1 22.
Definition IOContextFlagWrite : Z := 2.
Definition SoftwareScaleContextFlagBilinear : Z := 2.
Definition LogLevelDebug : Z := 48.

(** [flags.Add(f)]: set the bits of [f]. *)
Definition flags_Add (flags f : Z) : Z := Z.lor flags f.

(** The error codes the drain loop tests for. *)
Definition ErrEof : error := AvError (- 541478725).
Definition ErrEagain : error := AvError (- 11).
Definition EINVAL : error := AvError (- 22).

(** ** Objects *)

(** Where the samples of a frame come from: nothing yet, the pixels of a
    bitmap, or the conversion of other samples to a size and format. *)
Inductive FrameData : Type :=
| NoData
| Pixels (img : RGBA)
| Scaled (src : FrameData) (w h : Z) (fmt : PixelFormat).

Record Frame : Type := mkFrame {
  f_width : Z; f_height : Z; f_format : PixelFormat; f_pts : Z;
  f_buffer : bool; f_writable : bool; f_data : FrameData }.

(** [p_tb] is ghost: the time base the timestamps are expressed in. *)
Record Packet : Type := mkPacket {
  p_pts : Z; p_dts : Z; p_duration : Z; p_size : Z; p_tb : option Rational }.

(** [cc_sent] and [cc_handed] are ghost: the frames the encoder was given
    and the packets it has handed out, in order. *)
Record CodecContext : Type := mkCodecContext {
  cc_codec : CodecID; cc_width : Z; cc_height : Z;
  cc_framerate : Rational; cc_time_base : Rational;
  cc_format : PixelFormat; cc_bit_rate : Z; cc_flags : Z;
  cc_open : bool; cc_flushed : bool; cc_sent : list Frame;
  cc_handed : list Packet }.

Record CodecParameters : Type := mkCodecParameters {
  cp_codec : CodecID; cp_width : Z; cp_height : Z;
  cp_format : PixelFormat; cp_bit_rate : Z }.

Record Stream : Type := mkStream {
  st_time_base : Rational; st_params : option CodecParameters }.

(** The life cycle of the container. *)
Inductive MuxState : Type :=
| Unopened
| HeaderWritten
| Streaming
| TrailerWritten
| Aborted.

#[export] Instance MuxState_eq_dec : EqDecision MuxState.
Proof. solve_decision. Defined.

Record FormatContext : Type := mkFormatContext {
  fc_filename : string; fc_bit_rate : Z; fc_pb : option Handle;
  fc_streams : list Handle; fc_state : MuxState; fc_written : list Packet }.

(** [io_busy] is ghost: a container whose header is written and whose
    trailer is not writes through this context. *)
Record IOContext : Type := mkIOContext { io_filename : string; io_busy : bool }.

Record SwsContext : Type := mkSwsContext {
  sws_src_w : Z; sws_src_h : Z; sws_src_fmt : PixelFormat;
  sws_dst_w : Z; sws_dst_h : Z; sws_dst_fmt : PixelFormat; sws_flags : Z }.

Inductive Obj : Type :=
| OFrame (f : Frame)
| OPacket (p : Packet)
| OCodecContext (c : CodecContext)
| OFormatContext (o : FormatContext)
| OStream (s : Stream)
| OIOContext (c : IOContext)
| OSwsContext (s : SwsContext).

Abbreviation Heap := (gmap Handle Obj).

(** What [av_frame_alloc], [av_packet_alloc], ... return. *)
Definition empty_frame : Frame :=
  mkFrame 0 0 PixelFormatNone AV_NOPTS_VALUE false false NoData.
Definition empty_packet : Packet :=
  mkPacket AV_NOPTS_VALUE AV_NOPTS_VALUE 0 0 None.
Definition empty_codec_context (id : CodecID) : CodecContext :=
  mkCodecContext id 0 0 (NewRational 0 1) (NewRational 0 1)
    PixelFormatNone 0 0 false false [] [].
Definition empty_format_context (filename : string) : FormatContext :=
  mkFormatContext filename 0 None [] Unopened [].
Definition empty_stream : Stream := mkStream (NewRational 0 1) None.

(** ** The API surface *)

Inductive Alloc : Type :=
| AllocFrame
| AllocPacket
| AllocCodecContext (codec : CodecID)
| AllocOutputFormatContext (filename : string)
| NewStream (fc : Handle) (codec : CodecID)
| OpenIOContext (filename : string) (flags : Z)
| CreateSoftwareScaleContext (sw sh : Z) (sf : PixelFormat)
    (dw dh : Z) (df : PixelFormat) (flags : Z).

Inductive Call : Type :=
| FindEncoder (id : CodecID)
| FrameAllocBuffer (f : Handle) (align : Z)
| FrameMakeWritable (f : Handle)
| FrameFromImage (f : Handle) (img : RGBA)
| ScaleFrame (sws src dst : Handle)
| CodecOpen (cc : Handle) (codec : CodecID)
| FromCodecContext (st cc : Handle)
| WriteHeader (fc : Handle)
| WriteTrailer (fc : Handle)
| SendFrame (cc : Handle) (f : option Handle)
| WriteFrame (fc pkt : Handle).

Inductive Op : Type :=
| FrameSetWidth (f : Handle) (v : Z)
| FrameSetHeight (f : Handle) (v : Z)
| FrameSetPixelFormat (f : Handle) (v : PixelFormat)
| FrameSetPts (f : Handle) (v : Z)
| CodecSetWidth (cc : Handle) (v : Z)
| CodecSetHeight (cc : Handle) (v : Z)
| CodecSetFramerate (cc : Handle) (v : Rational)
| CodecSetTimeBase (cc : Handle) (v : Rational)
| CodecSetPixelFormat (cc : Handle) (v : PixelFormat)
| CodecSetBitRate (cc : Handle) (v : Z)
| CodecSetFlags (cc : Handle) (v : Z)
| StreamSetTimeBase (st : Handle) (v : Rational)
| FormatSetPb (fc io : Handle)
| PacketRescaleTs (pkt : Handle) (src dst : Rational)
| Free (h : Handle).

Inductive Query : Type :=
| FrameWidth (f : Handle)
| FrameHeight (f : Handle)
| FormatBitRate (fc : Handle)
| CodecFlags (cc : Handle).

Inductive QueryTb : Type :=
| CodecTimeBase (cc : Handle)
| StreamTimeBase (st : Handle).

(** A recorded violation of the library's contract. *)
Inductive Fault : Type :=
| BadAlloc (a : Alloc)
| BadCall (c : Call)
| BadOp (o : Op)
| BadQuery (q : Query)
| BadQueryTb (q : QueryTb)
| BadReceive (cc pkt : Handle).

(** Where a diagnostic line goes. *)
Inductive Sink : Type := LogPrintln | FmtPrintln.

(** ** The oracle *)

(** What the program cannot know in advance: whether a fallible call
    fails (and with which error), what the encoder hands out when asked
    for a packet, and the time base the muxer gives to a stream when it
    writes the header (given the one requested). *)
Class AvLib (O : Type) : Type := {
  alloc_fails : Alloc -> O -> option error * O;
  call_fails : Call -> Heap -> O -> option error * O;
  receive : O -> (error + Packet) * O;
  mux_time_base : O -> Rational -> Rational;
}.

(** ** The world *)

(** The process around the library: the log set-up, and the context
    that [signal.NotifyContext] returns ([ctx_done]: its [Done] channel is
    closed; [notify]: SIGINT is routed to it). *)
Record Env : Type := mkEnv {
  log_level : option Z;
  log_callback : bool;
  ctx_done : bool;
  notify : bool }.

(** [released] is ghost: the containers and encoder contexts that were
    released, as they were at that moment, in the order of release. *)
Record World (O : Type) : Type := mkWorld {
  heap : Heap;
  next : Handle;
  lib : O;
  faults : list Fault;
  out : list (Sink * string * option error);
  released : list Obj;
  env : Env }.
Arguments mkWorld {O}.
Arguments heap {O}.
Arguments next {O}.
Arguments lib {O}.
Arguments faults {O}.
Arguments out {O}.
Arguments released {O}.
Arguments env {O}.

(** ** Object access *)

(** The object behind a handle, as one kind of object. *)
Definition as_frame (o : Obj) : option Frame :=
  match o with OFrame f => Some f | _ => None end.
Definition as_packet (o : Obj) : option Packet :=
  match o with OPacket p => Some p | _ => None end.
Definition as_codec (o : Obj) : option CodecContext :=
  match o with OCodecContext c => Some c | _ => None end.
Definition as_format (o : Obj) : option FormatContext :=
  match o with OFormatContext c => Some c | _ => None end.
Definition as_stream (o : Obj) : option Stream :=
  match o with OStream s => Some s | _ => None end.
Definition as_io (o : Obj) : option IOContext :=
  match o with OIOContext c => Some c | _ => None end.
Definition as_sws (o : Obj) : option SwsContext :=
  match o with OSwsContext s => Some s | _ => None end.

Definition obj_at {A : Type} (proj : Obj -> option A) (hp : Heap) (h : Handle)
  : option A :=
  hp !! h ≫= proj.

Abbreviation frame_at := (obj_at as_frame).
Abbreviation packet_at := (obj_at as_packet).
Abbreviation codec_at := (obj_at as_codec).
Abbreviation format_at := (obj_at as_format).
Abbreviation stream_at := (obj_at as_stream).
Abbreviation io_at := (obj_at as_io).
Abbreviation sws_at := (obj_at as_sws).

Definition on_frame (g : Frame -> Frame) (o : Obj) : Obj :=
  match o with OFrame f => OFrame (g f) | _ => o end.
Definition on_packet (g : Packet -> Packet) (o : Obj) : Obj :=
  match o with OPacket p => OPacket (g p) | _ => o end.
Definition on_codec (g : CodecContext -> CodecContext) (o : Obj) : Obj :=
  match o with OCodecContext c => OCodecContext (g c) | _ => o end.
Definition on_format (g : FormatContext -> FormatContext) (o : Obj) : Obj :=
  match o with OFormatContext c => OFormatContext (g c) | _ => o end.
Definition on_stream (g : Stream -> Stream) (o : Obj) : Obj :=
  match o with OStream s => OStream (g s) | _ => o end.
Definition on_io (g : IOContext -> IOContext) (o : Obj) : Obj :=
  match o with OIOContext c => OIOContext (g c) | _ => o end.

(** Field updates. *)
Definition set_f_width v f := mkFrame v (f_height f) (f_format f) (f_pts f) (f_buffer f) (f_writable f) (f_data f).
Definition set_f_height v f := mkFrame (f_width f) v (f_format f) (f_pts f) (f_buffer f) (f_writable f) (f_data f).
Definition set_f_format v f := mkFrame (f_width f) (f_height f) v (f_pts f) (f_buffer f) (f_writable f) (f_data f).
Definition set_f_pts v f := mkFrame (f_width f) (f_height f) (f_format f) v (f_buffer f) (f_writable f) (f_data f).
Definition set_f_buffer v f := mkFrame (f_width f) (f_height f) (f_format f) (f_pts f) v (f_writable f) (f_data f).
Definition set_f_writable v f := mkFrame (f_width f) (f_height f) (f_format f) (f_pts f) (f_buffer f) v (f_data f).
Definition set_f_data v f := mkFrame (f_width f) (f_height f) (f_format f) (f_pts f) (f_buffer f) (f_writable f) v.

Definition set_cc_width v c := mkCodecContext (cc_codec c) v (cc_height c) (cc_framerate c) (cc_time_base c) (cc_format c) (cc_bit_rate c) (cc_flags c) (cc_open c) (cc_flushed c) (cc_sent c) (cc_handed c).
Definition set_cc_height v c := mkCodecContext (cc_codec c) (cc_width c) v (cc_framerate c) (cc_time_base c) (cc_format c) (cc_bit_rate c) (cc_flags c) (cc_open c) (cc_flushed c) (cc_sent c) (cc_handed c).
Definition set_cc_framerate v c := mkCodecContext (cc_codec c) (cc_width c) (cc_height c) v (cc_time_base c) (cc_format c) (cc_bit_rate c) (cc_flags c) (cc_open c) (cc_flushed c) (cc_sent c) (cc_handed c).
Definition set_cc_time_base v c := mkCodecContext (cc_codec c) (cc_width c) (cc_height c) (cc_framerate c) v (cc_format c) (cc_bit_rate c) (cc_flags c) (cc_open c) (cc_flushed c) (cc_sent c) (cc_handed c).
Definition set_cc_format v c := mkCodecContext (cc_codec c) (cc_width c) (cc_height c) (cc_framerate c) (cc_time_base c) v (cc_bit_rate c) (cc_flags c) (cc_open c) (cc_flushed c) (cc_sent c) (cc_handed c).
Definition set_cc_bit_rate v c := mkCodecContext (cc_codec c) (cc_width c) (cc_height c) (cc_framerate c) (cc_time_base c) (cc_format c) v (cc_flags c) (cc_open c) (cc_flushed c) (cc_sent c) (cc_handed c).
Definition set_cc_flags v c := mkCodecContext (cc_codec c) (cc_width c) (cc_height c) (cc_framerate c) (cc_time_base c) (cc_format c) (cc_bit_rate c) v (cc_open c) (cc_flushed c) (cc_sent c) (cc_handed c).
Definition set_cc_open v c := mkCodecContext (cc_codec c) (cc_width c) (cc_height c) (cc_framerate c) (cc_time_base c) (cc_format c) (cc_bit_rate c) (cc_flags c) v (cc_flushed c) (cc_sent c) (cc_handed c).
Definition set_cc_flushed v c := mkCodecContext (cc_codec c) (cc_width c) (cc_height c) (cc_framerate c) (cc_time_base c) (cc_format c) (cc_bit_rate c) (cc_flags c) (cc_open c) v (cc_sent c) (cc_handed c).
Definition set_cc_sent v c := mkCodecContext (cc_codec c) (cc_width c) (cc_height c) (cc_framerate c) (cc_time_base c) (cc_format c) (cc_bit_rate c) (cc_flags c) (cc_open c) (cc_flushed c) v (cc_handed c).
Definition set_cc_handed v c := mkCodecContext (cc_codec c) (cc_width c) (cc_height c) (cc_framerate c) (cc_time_base c) (cc_format c) (cc_bit_rate c) (cc_flags c) (cc_open c) (cc_flushed c) (cc_sent c) v.

Definition set_fc_pb v o := mkFormatContext (fc_filename o) (fc_bit_rate o) v (fc_streams o) (fc_state o) (fc_written o).
Definition set_fc_streams v o := mkFormatContext (fc_filename o) (fc_bit_rate o) (fc_pb o) v (fc_state o) (fc_written o).
Definition set_fc_state v o := mkFormatContext (fc_filename o) (fc_bit_rate o) (fc_pb o) (fc_streams o) v (fc_written o).
Definition set_fc_written v o := mkFormatContext (fc_filename o) (fc_bit_rate o) (fc_pb o) (fc_streams o) (fc_state o) v.

Definition set_st_time_base v s := mkStream v (st_params s).
Definition set_st_params v s := mkStream (st_time_base s) v.

(** ** Preconditions and effects *)

Definition is_some {A : Type} (o : option A) : bool :=
  match o with Some _ => true | None => false end.

(** The container accepts packets and a trailer. *)
Definition mux_accepts (s : MuxState) : bool :=
  match s with HeaderWritten | Streaming => true | _ => false end.

(** The stream the packets of the program go to. *)
Definition first_stream (hp : Heap) (o : FormatContext) : option Stream :=
  match fc_streams o with
  | st :: _ => stream_at hp st
  | [] => None
  end.

(** The next frame's timestamp is above the last submitted one. *)
Definition pts_increases (c : CodecContext) (fr : Frame) : bool :=
  match list.last (cc_sent c) with
  | Some prev => f_pts prev <? f_pts fr
  | None => true
  end.

(** The frame has the size and the pixel format the encoder was
    configured with. *)
Definition frame_fits (c : CodecContext) (fr : Frame) : bool :=
  bool_decide (f_width fr = cc_width c) && bool_decide (f_height fr = cc_height c)
  && bool_decide (f_format fr = cc_format c).

(** What an open encoder requires of the frame it is sent. *)
Definition accepts (c : CodecContext) (fr : Frame) : bool :=
  pts_increases c fr && frame_fits c fr.

(** Mark the I/O context of a container busy or idle. *)
Definition set_io_busy (b : bool) (pb : option Handle) (hp : Heap) : Heap :=
  match pb with
  | Some io => alter (on_io (fun c => mkIOContext (io_filename c) b)) io hp
  | None => hp
  end.

Definition params_of (c : CodecContext) : CodecParameters :=
  mkCodecParameters (cc_codec c) (cc_width c) (cc_height c) (cc_format c)
    (cc_bit_rate c).

Definition pre_alloc (a : Alloc) (hp : Heap) : bool :=
  match a with
  | NewStream fc _ => is_some (format_at hp fc)
  | _ => true
  end.

Definition pre_call (c : Call) (hp : Heap) : bool :=
  match c with
  | FindEncoder _ => true
  | FrameAllocBuffer f _ =>
      match frame_at hp f with Some fr => negb (f_buffer fr) | None => false end
  | FrameMakeWritable f => is_some (frame_at hp f)
  | FrameFromImage f _ =>
      match frame_at hp f with
      | Some fr => f_buffer fr && f_writable fr
      | None => false
      end
  | ScaleFrame sws src dst =>
      match sws_at hp sws, frame_at hp src, frame_at hp dst with
      | Some _, Some s, Some d => f_buffer s && f_buffer d
      | _, _, _ => false
      end
  | CodecOpen cc _ =>
      match codec_at hp cc with
      | Some c => negb (cc_open c) && bool_decide (positive_rational (cc_time_base c))
      | None => false
      end
  | FromCodecContext st cc => is_some (stream_at hp st) && is_some (codec_at hp cc)
  | WriteHeader fc =>
      match format_at hp fc with
      | Some o =>
          bool_decide (fc_state o = Unopened)
          && match fc_pb o with Some io => is_some (io_at hp io) | None => false end
          && match first_stream hp o with
             | Some s => is_some (st_params s)
             | None => false
             end
      | None => false
      end
  | WriteTrailer fc =>
      match format_at hp fc with
      | Some o => mux_accepts (fc_state o)
      | None => false
      end
  | SendFrame cc None =>
      match codec_at hp cc with
      | Some c => cc_open c && negb (cc_flushed c)
      | None => false
      end
  | SendFrame cc (Some f) =>
      match codec_at hp cc, frame_at hp f with
      | Some c, Some fr =>
          cc_open c && negb (cc_flushed c) && f_buffer fr && accepts c fr
      | _, _ => false
      end
  | WriteFrame fc pkt =>
      match format_at hp fc, packet_at hp pkt with
      | Some o, Some p =>
          mux_accepts (fc_state o)
          && bool_decide (p_tb p = st_time_base <$> first_stream hp o)
      | _, _ => false
      end
  end.

Definition pre_op (o : Op) (hp : Heap) : bool :=
  match o with
  | FrameSetWidth f _ | FrameSetHeight f _ | FrameSetPts f _ => is_some (frame_at hp f)
  | FrameSetPixelFormat f _ => is_some (frame_at hp f)
  | CodecSetWidth cc _ | CodecSetHeight cc _ | CodecSetBitRate cc _
  | CodecSetFlags cc _ => is_some (codec_at hp cc)
  | CodecSetFramerate cc _ | CodecSetTimeBase cc _ => is_some (codec_at hp cc)
  | CodecSetPixelFormat cc _ => is_some (codec_at hp cc)
  | StreamSetTimeBase st _ => is_some (stream_at hp st)
  | FormatSetPb fc io => is_some (format_at hp fc) && is_some (io_at hp io)
  | PacketRescaleTs pkt _ _ => is_some (packet_at hp pkt)
  | Free h => match io_at hp h with Some c => negb (io_busy c) | None => true end
  end.

(** The packet [p] with its timestamps declared to be in [tb]. *)
Definition stamped_in (tb : Rational) (p : Packet) : Packet :=
  mkPacket (p_pts p) (p_dts p) (p_duration p) (p_size p) (Some tb).

(** [Packet.RescaleTs]: both timestamps and the duration; the ghost time
    base follows when the source time base was the packet's. *)
Definition rescale_packet (src dst : Rational) (p : Packet) : Packet :=
  mkPacket (rescale_ts (p_pts p) src dst) (rescale_ts (p_dts p) src dst)
    (rescale_duration (p_duration p) src dst) (p_size p)
    (if decide (p_tb p = Some src) then Some dst else None).

(** The order of the decoding timestamps. *)
Definition dts_le (p q : Packet) : Prop := p_dts p <= p_dts q.

(** The timestamps and the duration of [p] fit once multiplied by [k]. *)
Definition packet_fits (k : Z) (p : Packet) : Prop :=
  (p_pts p = AV_NOPTS_VALUE \/ fits k (p_pts p)) /\
  (p_dts p = AV_NOPTS_VALUE \/ fits k (p_dts p)) /\
  p_duration p * k <= int64_max.

Definition effect_call (tb : Rational -> Rational) (c : Call) (hp : Heap) : Heap :=
  match c with
  | FindEncoder _ => hp
  | FrameAllocBuffer f _ => alter (on_frame (set_f_buffer true)) f hp
  | FrameMakeWritable f => alter (on_frame (set_f_writable true)) f hp
  | FrameFromImage f img => alter (on_frame (set_f_data (Pixels img))) f hp
  | ScaleFrame sws src dst =>
      match frame_at hp src with
      | Some s =>
          alter (on_frame (fun d =>
            set_f_data (Scaled (f_data s) (f_width d) (f_height d) (f_format d)) d))
            dst hp
      | None => hp
      end
  | CodecOpen cc _ => alter (on_codec (set_cc_open true)) cc hp
  | FromCodecContext st cc =>
      match codec_at hp cc with
      | Some c => alter (on_stream (set_st_params (Some (params_of c)))) st hp
      | None => hp
      end
  | WriteHeader fc =>
      match format_at hp fc with
      | Some o =>
          alter (on_format (set_fc_state HeaderWritten)) fc
            (set_io_busy true (fc_pb o)
               (foldr (fun st h =>
                  alter (on_stream (fun s => set_st_time_base (tb (st_time_base s)) s)) st h)
                  hp (fc_streams o)))
      | None => hp
      end
  | WriteTrailer fc =>
      match format_at hp fc with
      | Some o =>
          alter (on_format (set_fc_state TrailerWritten)) fc (set_io_busy false (fc_pb o) hp)
      | None => hp
      end
  | SendFrame cc None => alter (on_codec (set_cc_flushed true)) cc hp
  | SendFrame cc (Some f) =>
      match frame_at hp f with
      | Some fr => alter (on_codec (fun c => set_cc_sent (cc_sent c ++ [fr]) c)) cc hp
      | None => hp
      end
  | WriteFrame fc pkt =>
      match packet_at hp pkt with
      | Some p =>
          alter (on_format (fun o =>
            set_fc_written (fc_written o ++ [p]) (set_fc_state Streaming o))) fc hp
      | None => hp
      end
  end.

(** What a call that fails still does: a failed trailer ends the
    container and releases its hold on the I/O context. *)
Definition effect_failed (c : Call) (hp : Heap) : Heap :=
  match c with
  | WriteTrailer fc =>
      match format_at hp fc with
      | Some o => alter (on_format (set_fc_state Aborted)) fc (set_io_busy false (fc_pb o) hp)
      | None => hp
      end
  | _ => hp
  end.

Definition effect_op (o : Op) (hp : Heap) : Heap :=
  match o with
  | FrameSetWidth f v => alter (on_frame (set_f_width v)) f hp
  | FrameSetHeight f v => alter (on_frame (set_f_height v)) f hp
  | FrameSetPixelFormat f v => alter (on_frame (set_f_format v)) f hp
  | FrameSetPts f v => alter (on_frame (set_f_pts v)) f hp
  | CodecSetWidth cc v => alter (on_codec (set_cc_width v)) cc hp
  | CodecSetHeight cc v => alter (on_codec (set_cc_height v)) cc hp
  | CodecSetFramerate cc v => alter (on_codec (set_cc_framerate v)) cc hp
  | CodecSetTimeBase cc v => alter (on_codec (set_cc_time_base v)) cc hp
  | CodecSetPixelFormat cc v => alter (on_codec (set_cc_format v)) cc hp
  | CodecSetBitRate cc v => alter (on_codec (set_cc_bit_rate v)) cc hp
  | CodecSetFlags cc v => alter (on_codec (set_cc_flags v)) cc hp
  | StreamSetTimeBase st v => alter (on_stream (set_st_time_base v)) st hp
  | FormatSetPb fc io => alter (on_format (set_fc_pb (Some io))) fc hp
  | PacketRescaleTs pkt src dst => alter (on_packet (rescale_packet src dst)) pkt hp
  | Free h =>
      match format_at hp h with
      | Some o => foldr delete (delete h hp) (fc_streams o)
      | None => delete h hp
      end
  end.

(** The object an allocation creates, and what it is attached to. *)
Definition new_obj (a : Alloc) : Obj :=
  match a with
  | AllocFrame => OFrame empty_frame
  | AllocPacket => OPacket empty_packet
  | AllocCodecContext id => OCodecContext (empty_codec_context id)
  | AllocOutputFormatContext filename => OFormatContext (empty_format_context filename)
  | NewStream _ _ => OStream empty_stream
  | OpenIOContext filename _ => OIOContext (mkIOContext filename false)
  | CreateSoftwareScaleContext sw sh sf dw dh df flags =>
      OSwsContext (mkSwsContext sw sh sf dw dh df flags)
  end.

Definition attach (a : Alloc) (h : Handle) (hp : Heap) : Heap :=
  match a with
  | NewStream fc _ => alter (on_format (fun o => set_fc_streams (fc_streams o ++ [h]) o)) fc hp
  | _ => hp
  end.

(** No handle from [n] on is live. *)
Definition fresh_from (hp : Heap) (n : Handle) : Prop :=
  forall h, (n <= h)%positive -> hp !! h = None.

(** ** The runners *)

Section Run.
Context {O : Type} `{AvLib O}.

Definition set_heap (hp : Heap) (w : World O) : World O :=
  mkWorld hp (next w) (lib w) (faults w) (out w) (released w) (env w).
Definition set_lib (o : O) (w : World O) : World O :=
  mkWorld (heap w) (next w) o (faults w) (out w) (released w) (env w).
Definition add_fault (f : Fault) (w : World O) : World O :=
  mkWorld (heap w) (next w) (lib w) (faults w ++ [f]) (out w) (released w) (env w).
Definition set_env (e : Env) (w : World O) : World O :=
  mkWorld (heap w) (next w) (lib w) (faults w) (out w) (released w) e.

(** What a release leaves in [released]. *)
Definition buried (o : Op) (hp : Heap) : list Obj :=
  match o with
  | Free h =>
      match hp !! h with
      | Some (OFormatContext c) => [OFormatContext c]
      | Some (OCodecContext c) => [OCodecContext c]
      | _ => []
      end
  | _ => []
  end.

(** A successful allocation: the new object gets the next handle.  The
    program uses [astiav.AllocFrame] without a nil check, that is, as
    [place AllocFrame]. *)
Definition place (a : Alloc) (w : World O) : Handle * World O :=
  (next w,
   mkWorld (attach a (next w) (<[next w := new_obj a]> (heap w))) (Pos.succ (next w))
     (lib w) (faults w) (out w) (released w) (env w)).

(** An allocation that can fail: the oracle decides. *)
Definition alloc (a : Alloc) (w : World O) : (error + Handle) * World O :=
  if pre_alloc a (heap w) then
    let '(r, o) := alloc_fails a (lib w) in
    match r with
    | Some e => (inl e, set_lib o w)
    | None => let '(h, w') := place a (set_lib o w) in (inr h, w')
    end
  else (inl EINVAL, add_fault (BadAlloc a) w).

(** The same for the constructors that return nil instead of an error. *)
Definition alloc_ptr (a : Alloc) (w : World O) : option Handle * World O :=
  let '(r, w') := alloc a w in
  (match r with inr h => Some h | inl _ => None end, w').

(** A fallible call. *)
Definition attempt (c : Call) (w : World O) : option error * World O :=
  if pre_call c (heap w) then
    let '(r, o) := call_fails c (heap w) (lib w) in
    match r with
    | Some e => (Some e, set_heap (effect_failed c (heap w)) (set_lib o w))
    | None => (None, set_heap (effect_call (mux_time_base o) c (heap w)) (set_lib o w))
    end
  else (Some EINVAL, add_fault (BadCall c) w).

(** [astiav.FindEncoder(id)]: the codec, or nil. *)
Definition find_encoder (id : CodecID) (w : World O) : option CodecID * World O :=
  let '(r, w') := attempt (FindEncoder id) w in
  (match r with None => Some id | Some _ => None end, w').

(** A setter or a release. *)
Definition exec (o : Op) (w : World O) : unit * World O :=
  if pre_op o (heap w) then
    (tt, mkWorld (effect_op o (heap w)) (next w) (lib w) (faults w) (out w)
           (released w ++ buried o (heap w)) (env w))
  else (tt, add_fault (BadOp o) w).

(** [cc.ReceivePacket(pkt)]: the packet is blanked, then filled with what
    the encoder hands out, stamped in the encoder's time base; the
    encoder's history records it. *)
Definition ReceivePacket (cc pkt : Handle) (w : World O) : option error * World O :=
  match codec_at (heap w) cc, packet_at (heap w) pkt with
  | Some c, Some _ =>
      if cc_open c then
        let '(r, o) := receive (lib w) in
        match r with
        | inl e => (Some e, set_heap (<[pkt := OPacket empty_packet]> (heap w)) (set_lib o w))
        | inr p =>
            let q := stamped_in (cc_time_base c) p in
            (None,
             set_heap (<[pkt := OPacket q]>
                         (alter (on_codec (fun c => set_cc_handed (cc_handed c ++ [q]) c))
                            cc (heap w)))
               (set_lib o w))
        end
      else (Some EINVAL, add_fault (BadReceive cc pkt) w)
  | _, _ => (Some EINVAL, add_fault (BadReceive cc pkt) w)
  end.

Definition query (q : Query) (w : World O) : Z * World O :=
  let bad := (0, add_fault (BadQuery q) w) in
  match q with
  | FrameWidth f => match frame_at (heap w) f with Some fr => (f_width fr, w) | None => bad end
  | FrameHeight f => match frame_at (heap w) f with Some fr => (f_height fr, w) | None => bad end
  | FormatBitRate fc => match format_at (heap w) fc with Some o => (fc_bit_rate o, w) | None => bad end
  | CodecFlags cc => match codec_at (heap w) cc with Some c => (cc_flags c, w) | None => bad end
  end.

Definition query_tb (q : QueryTb) (w : World O) : Rational * World O :=
  let bad := (NewRational 0 1, add_fault (BadQueryTb q) w) in
  match q with
  | CodecTimeBase cc => match codec_at (heap w) cc with Some c => (cc_time_base c, w) | None => bad end
  | StreamTimeBase st => match stream_at (heap w) st with Some s => (st_time_base s, w) | None => bad end
  end.

(** [log.Println] and [fmt.Println] of a message and an optional error. *)
Definition Println (s : Sink) (msg : string) (e : option error) (w : World O)
  : unit * World O :=
  (tt, mkWorld (heap w) (next w) (lib w) (faults w) (out w ++ [(s, msg, e)])
         (released w) (env w)).

Definition SetLogLevel (l : Z) (w : World O) : unit * World O :=
  (tt, set_env (mkEnv (Some l) (log_callback (env w)) (ctx_done (env w))
                  (notify (env w))) w).

Definition SetLogCallback (w : World O) : unit * World O :=
  (tt, set_env (mkEnv (log_level (env w)) true (ctx_done (env w))
                  (notify (env w))) w).

(** [signal.NotifyContext(context.Background(), syscall.SIGINT)]: a
    fresh context, cancelled when SIGINT arrives. *)
Definition NotifyContext (w : World O) : unit * World O :=
  (tt, set_env (mkEnv (log_level (env w)) (log_callback (env w)) false true) w).

(** The [stop] function it returns: the context is cancelled and SIGINT
    is no longer routed to it. *)
Definition stop_notify (w : World O) : unit * World O :=
  (tt, set_env (mkEnv (log_level (env w)) (log_callback (env w)) true false) w).

(** Every live handle is below the next one to be handed out. *)
Definition wf (w : World O) : Prop := fresh_from (heap w) (next w).

(** The world a program starts in. *)
Definition init_world (o : O) : World O :=
  mkWorld ∅ 1%positive o [] [] [] (mkEnv None false false false).

End Run.

(** ** A scripted oracle

    The answers to the fallible calls, in the order the program makes
    them (success once the script is exhausted), the encoder's output
    ("not ready" once exhausted), and the time base the muxer imposes
    ([None]: it keeps the requested one). *)
Record Script : Type := mkScript {
  s_answers : list (option error);
  s_packets : list (error + Packet);
  s_tb : option Rational }.

Definition script_answer (s : Script) : option error * Script :=
  match s_answers s with
  | [] => (None, s)
  | r :: rs => (r, mkScript rs (s_packets s) (s_tb s))
  end.

Definition script_receive (s : Script) : (error + Packet) * Script :=
  match s_packets s with
  | [] => (inl ErrEagain, s)
  | r :: rs => (r, mkScript (s_answers s) rs (s_tb s))
  end.

#[export] Instance ScriptLib : AvLib Script := {
  alloc_fails _ s := script_answer s;
  call_fails _ _ s := script_answer s;
  receive s := script_receive s;
  mux_time_base s tb := default tb (s_tb s);
}.

(** ** Lemmas: objects in the heap *)

Section HeapLemmas.
Context {A : Type} (proj : Obj -> option A).
Implicit Types (hp : Heap) (h g : Handle) (o : Obj).

Lemma obj_at_insert_eq hp h o : obj_at proj (<[h:=o]> hp) h = proj o.
Proof. unfold obj_at. by rewrite lookup_insert_eq. Qed.

Lemma obj_at_insert_ne hp h g o :
  g ≠ h -> obj_at proj (<[g:=o]> hp) h = obj_at proj hp h.
Proof. intros. unfold obj_at. by rewrite lookup_insert_ne. Qed.

Lemma obj_at_delete_eq hp h : obj_at proj (delete h hp) h = None.
Proof. unfold obj_at. by rewrite lookup_delete_eq. Qed.

Lemma obj_at_delete_ne hp h g :
  g ≠ h -> obj_at proj (delete g hp) h = obj_at proj hp h.
Proof. intros. unfold obj_at. by rewrite lookup_delete_ne. Qed.

Lemma obj_at_None hp h : hp !! h = None -> obj_at proj hp h = None.
Proof. unfold obj_at. by intros ->. Qed.

Lemma obj_at_Some hp h a : obj_at proj hp h = Some a -> is_Some (hp !! h).
Proof. unfold obj_at. destruct (hp !! h); [eauto | done]. Qed.

Lemma obj_at_lookup hp h o : hp !! h = Some o -> obj_at proj hp h = proj o.
Proof. unfold obj_at. by intros ->. Qed.
End HeapLemmas.

(** The map lemmas of the normal form, at the type of the heap. *)
Section HeapRewriting.
Implicit Types (hp : Heap) (h g : Handle) (o : Obj) (f : Obj -> Obj).

Lemma heap_alter_insert_eq hp h f o : alter f h (<[h:=o]> hp) = <[h:=f o]> hp.
Proof. apply alter_insert_eq. Qed.

Lemma heap_alter_insert_ne hp h g f o :
  g ≠ h -> alter f h (<[g:=o]> hp) = <[g:=o]> (alter f h hp).
Proof. intros. by apply alter_insert_ne. Qed.

Lemma heap_alter_lookup hp h f o : hp !! h = Some o -> alter f h hp = <[h:=f o]> hp.
Proof.
  intros Hh. apply map_eq. intros g. destruct (decide (g = h)) as [->|].
  - by rewrite lookup_alter_eq, lookup_insert_eq, Hh.
  - by rewrite lookup_alter_ne, lookup_insert_ne.
Qed.

Lemma heap_delete_insert_id hp h o : hp !! h = None -> delete h (<[h:=o]> hp) = hp.
Proof. apply delete_insert_id. Qed.

Lemma heap_delete_insert_ne hp h g o :
  g ≠ h -> delete h (<[g:=o]> hp) = <[g:=o]> (delete h hp).
Proof. intros. by apply delete_insert_ne. Qed.

Lemma heap_insert_insert hp h o o' : <[h:=o]> (<[h:=o']> hp) = <[h:=o]> hp.
Proof. apply insert_insert_eq. Qed.

Lemma heap_lookup_insert_eq hp h o : <[h:=o]> hp !! h = Some o.
Proof. apply lookup_insert_eq. Qed.

Lemma heap_lookup_insert_ne hp h g o : g ≠ h -> <[g:=o]> hp !! h = hp !! h.
Proof. intros. by apply lookup_insert_ne. Qed.
End HeapRewriting.

(** ** Lemmas: the runners *)

Section RunLemmas.
Context {O : Type} `{AvLib O}.
Implicit Types (w : World O) (hp : Heap) (h : Handle).

Lemma exec_ok op w :
  pre_op op (heap w) = true ->
  exec op w =
    (tt, mkWorld (effect_op op (heap w)) (next w) (lib w) (faults w) (out w)
           (released w ++ buried op (heap w)) (env w)).
Proof. unfold exec. by intros ->. Qed.

Lemma exec_bad op w :
  pre_op op (heap w) = false -> exec op w = (tt, add_fault (BadOp op) w).
Proof. unfold exec. by intros ->. Qed.

Lemma attempt_ok c w :
  pre_call c (heap w) = true ->
  attempt c w =
    match call_fails c (heap w) (lib w) with
    | (Some e, o) => (Some e, set_heap (effect_failed c (heap w)) (set_lib o w))
    | (None, o) =>
        (None, set_heap (effect_call (mux_time_base o) c (heap w)) (set_lib o w))
    end.
Proof. unfold attempt. intros ->. by destruct call_fails as [[]]. Qed.

Lemma attempt_bad c w :
  pre_call c (heap w) = false ->
  attempt c w = (Some EINVAL, add_fault (BadCall c) w).
Proof. unfold attempt. by intros ->. Qed.

(** Submitting a frame to an open encoder: the contract is the order
    of the timestamps and the size of the picture. *)
Lemma SendFrame_cases cc f w c fr :
  codec_at (heap w) cc = Some c -> frame_at (heap w) f = Some fr ->
  cc_open c = true -> cc_flushed c = false -> f_buffer fr = true ->
  attempt (SendFrame cc (Some f)) w =
    if accepts c fr then
      match call_fails (SendFrame cc (Some f)) (heap w) (lib w) with
      | (Some e, o) => (Some e, set_lib o w)
      | (None, o) =>
          (None, set_heap (alter (on_codec (fun c => set_cc_sent (cc_sent c ++ [fr]) c))
                             cc (heap w)) (set_lib o w))
      end
    else (Some EINVAL, add_fault (BadCall (SendFrame cc (Some f))) w).
Proof.
  intros Hc Hf Ho Hfl Hb. destruct (accepts c fr) eqn:Hinc.
  - rewrite attempt_ok by (cbn; by rewrite Hc, Hf, Ho, Hfl, Hb, Hinc).
    destruct call_fails as [[e|] o]; cbn; [by destruct w|]. by rewrite Hf.
  - apply attempt_bad. cbn. by rewrite Hc, Hf, Ho, Hfl, Hb, Hinc.
Qed.

Lemma alloc_ok a w :
  pre_alloc a (heap w) = true ->
  alloc a w =
    match alloc_fails a (lib w) with
    | (Some e, o) => (inl e, set_lib o w)
    | (None, o) => (inr (next w), (place a (set_lib o w)).2)
    end.
Proof. unfold alloc. intros ->. by destruct alloc_fails as [[]]. Qed.

Lemma alloc_ptr_ok a w :
  pre_alloc a (heap w) = true ->
  alloc_ptr a w =
    match alloc_fails a (lib w) with
    | (Some e, o) => (None, set_lib o w)
    | (None, o) => (Some (next w), (place a (set_lib o w)).2)
    end.
Proof.
  intros Hpre. unfold alloc_ptr. rewrite alloc_ok by done.
  by destruct alloc_fails as [[]].
Qed.

Lemma ReceivePacket_ok cc pkt w c p :
  codec_at (heap w) cc = Some c -> packet_at (heap w) pkt = Some p ->
  cc_open c = true ->
  ReceivePacket cc pkt w =
    match receive (lib w) with
    | (inl e, o) =>
        (Some e, set_heap (<[pkt := OPacket empty_packet]> (heap w)) (set_lib o w))
    | (inr q, o) =>
        (None,
         set_heap (<[pkt := OPacket (stamped_in (cc_time_base c) q)]>
                     (alter (on_codec (fun c' =>
                        set_cc_handed (cc_handed c' ++ [stamped_in (cc_time_base c) q]) c'))
                        cc (heap w)))
           (set_lib o w))
    end.
Proof.
  unfold ReceivePacket. intros -> -> ->. destruct receive as [[]]; reflexivity.
Qed.

Lemma wf_next w : wf w -> heap w !! next w = None.
Proof. intros Hwf. apply Hwf. lia. Qed.

Lemma wf_init (o : O) : wf (init_world o).
Proof. intros h _. apply lookup_empty. Qed.

Lemma fresh_from_insert hp n h o :
  fresh_from hp n -> (h < n)%positive -> fresh_from (<[h:=o]> hp) n.
Proof. intros Hf Hlt g Hg. rewrite lookup_insert_ne by lia. by apply Hf. Qed.

Lemma fresh_from_weaken hp n m :
  fresh_from hp n -> (n <= m)%positive -> fresh_from hp m.
Proof. intros Hf Hle g Hg. apply Hf. lia. Qed.
End RunLemmas.

#[export] Hint Resolve wf_init fresh_from_insert fresh_from_weaken : go.

(** ** Lemmas: rescaling a packet *)

Section RescalePacket.
Implicit Types (p : Packet) (src dst : Rational).

Lemma rescale_packet_tb src dst p :
  p_tb p = Some src -> p_tb (rescale_packet src dst p) = Some dst.
Proof. intros Hp. cbn. by rewrite decide_True. Qed.

(** A packet rescaled to a finer time base and back is unchanged. *)
Lemma rescale_packet_roundtrip src dst k p :
  refines dst src k -> p_tb p = Some src -> packet_fits k p ->
  rescale_packet dst src (rescale_packet src dst p) = p.
Proof.
  intros Hr Hp (Hpts & Hdts & Hd). destruct p as [pts dts d sz tb].
  cbn [p_pts p_dts p_duration p_tb] in *. subst tb.
  unfold rescale_packet. cbn [p_pts p_dts p_duration p_size p_tb].
  rewrite (decide_True (P := Some src = Some src)) by done.
  rewrite decide_True by done.
  by rewrite !(rescale_ts_roundtrip _ src dst k), (rescale_duration_roundtrip _ src dst k).
Qed.

(** Between equal time bases nothing changes. *)
Lemma rescale_packet_same tb p :
  positive_rational tb -> p_tb p = Some tb -> packet_fits 1 p ->
  rescale_packet tb tb p = p.
Proof.
  intros Htb Hp (Hpts & Hdts & Hd). destruct p as [pts dts d sz tb'].
  cbn [p_pts p_dts p_duration p_tb] in *. subst tb'.
  assert (forall a, a = AV_NOPTS_VALUE \/ fits 1 a -> rescale_ts a tb tb = a) as Hts.
  { intros a [->|Ha]; [done|]. apply rescale_ts_same; [done|].
    unfold fits, in_int64 in *. lia. }
  unfold rescale_packet. cbn [p_pts p_dts p_duration p_size p_tb].
  rewrite decide_True, !Hts by done. f_equal.
  unfold rescale_duration. destruct (Z.ltb_spec 0 d); [|done].
  apply av_rescale_q_same; [done|]. unfold in_int64, int64_min. lia.
Qed.
End RescalePacket.

(** ** Symbolic execution

    [heap_simpl] normalises a heap built from inserts over a base heap:
    lookups and updates at a known handle are computed.  [go_lift] runs
    the library call at the head of the goal: a call whose precondition
    holds is replaced by the oracle's answer and its effect, and the
    proof splits on the answer.  [go_run] runs a whole body. *)

Ltac handle_ne := first [ done | lia ].

(** [hp !! h = None] for a handle that was never handed out. *)
Ltac heap_none :=
  rewrite ?lookup_insert_ne by handle_ne;
  first [ assumption
        | match goal with
          | Hf : fresh_from ?hp _ |- ?hp !! _ = None => apply Hf; lia
          end ].

(** Records of the heap in constructor form. *)
Ltac obj_simpl :=
  cbv [set_f_width set_f_height set_f_format set_f_pts set_f_buffer
       set_f_writable set_f_data f_width f_height f_format f_pts f_buffer
       f_writable f_data empty_frame
       set_cc_width set_cc_height set_cc_framerate set_cc_time_base
       set_cc_format set_cc_bit_rate set_cc_flags set_cc_open set_cc_flushed
       set_cc_sent set_cc_handed cc_codec cc_width cc_height cc_framerate
       cc_time_base cc_format cc_bit_rate cc_flags cc_open cc_flushed cc_sent
       cc_handed empty_codec_context
       set_fc_pb set_fc_streams set_fc_state set_fc_written fc_filename
       fc_bit_rate fc_pb fc_streams fc_state fc_written empty_format_context
       set_st_time_base set_st_params st_time_base st_params empty_stream
       io_filename io_busy first_stream
       p_pts p_dts p_duration p_size p_tb empty_packet stamped_in
       set_heap set_lib add_fault set_env heap next lib faults out released
       env log_level log_callback ctx_done notify].

Ltac heap_cbn :=
  cbn [as_frame as_packet as_codec as_format as_stream as_io as_sws
       on_frame on_packet on_codec on_format on_stream on_io
       is_some negb andb orb mbind option_bind
       set_heap set_lib add_fault set_env heap next lib faults out
       released env log_level log_callback ctx_done notify
       fst snd place attach new_obj buried app
       NotifyContext stop_notify foldr mux_accepts
       Println SetLogLevel SetLogCallback query query_tb
       pre_op pre_call pre_alloc effect_op effect_call effect_failed
       set_io_busy].

(** One rewriting step on a lookup or an update of the heap. *)
Ltac heap_rewrite :=
  match goal with
  | |- context [obj_at _ (<[_:=_]> _) _] =>
      first [ rewrite obj_at_insert_eq | rewrite obj_at_insert_ne by handle_ne ]
  | |- context [obj_at _ (delete _ _) _] =>
      first [ rewrite obj_at_delete_eq | rewrite obj_at_delete_ne by handle_ne ]
  | |- context [alter _ _ (<[_:=_]> _)] =>
      first [ rewrite heap_alter_insert_eq | rewrite heap_alter_insert_ne by handle_ne ]
  | |- context [delete _ (<[_:=_]> _)] =>
      first [ rewrite heap_delete_insert_id by heap_none
            | rewrite heap_delete_insert_ne by handle_ne ]
  | |- context [<[?h:=_]> (<[?h:=_]> _)] => rewrite heap_insert_insert
  | |- context [(<[_:=_]> _) !! _] =>
      first [ rewrite heap_lookup_insert_eq | rewrite heap_lookup_insert_ne by handle_ne ]
  | H : ?hp !! ?h = Some ?o |- context [obj_at ?proj ?hp ?h] =>
      rewrite (obj_at_lookup proj hp h o H)
  | H : ?hp !! ?h = Some ?o |- context [alter ?f ?h ?hp] =>
      rewrite (heap_alter_lookup hp h f o H)
  | H : ?hp !! ?h = Some ?o |- context [?hp !! ?h] => rewrite H
  | H : mux_accepts ?st = true |- context [mux_accepts ?st] => rewrite H
  | |- context [obj_at _ _ _] => rewrite obj_at_None by heap_none
  | |- context [_ ++ []] => rewrite app_nil_r
  | |- context [bool_decide _] => rewrite bool_decide_eq_true_2 by done
  end.

Ltac heap_simpl :=
  repeat first [ heap_rewrite | progress obj_simpl | progress heap_cbn ].

Ltac go_lift :=
  try unfold find_encoder;
  lazymatch goal with
  | |- context [exec ?op (mkWorld ?a ?b ?c ?d ?e ?f ?g)] =>
      rewrite (exec_ok op (mkWorld a b c d e f g)) by (heap_simpl; done)
  | |- context [attempt (SendFrame ?cc (Some ?f)) ?w] =>
      erewrite (SendFrame_cases cc f w) by (heap_simpl; reflexivity);
      destruct (accepts _ _) eqn:?;
      [destruct (call_fails _ _ _) as [[?e|] ?o]|]
  | |- context [attempt ?c ?w] =>
      rewrite (attempt_ok c w) by (heap_simpl; done);
      destruct (call_fails c _ _) as [[?e|] ?o]
  | |- context [ReceivePacket ?cc ?pkt ?w] =>
      erewrite (ReceivePacket_ok cc pkt w) by (heap_simpl; reflexivity);
      destruct (receive _) as [[?e|?p] ?o]
  | |- context [alloc_ptr ?a ?w] =>
      rewrite (alloc_ptr_ok a w) by (heap_simpl; done);
      destruct (alloc_fails a _) as [[?e|] ?o]
  | |- context [alloc ?a ?w] =>
      rewrite (alloc_ok a w) by (heap_simpl; done);
      destruct (alloc_fails a _) as [[?e|] ?o]
  | |- _ => idtac
  end; heap_simpl.

(** [fresh_from] after inserts below the bound. *)
Ltac fresh_solve :=
  repeat (apply fresh_from_insert; [|lia]);
  first [ eapply fresh_from_weaken; [eassumption | lia] ].

(** The deferred calls of a function, run on an explicit world. *)
Ltac go_defers run :=
  cbn [exit_of run_defers fold_left]; unfold run; repeat go_lift.

Ltac go_step :=
  lazymatch goal with
  | |- wp (bind _ _) _ _ _ => wp_seq
  | |- wp _ _ _ _ => wp_step; go_lift
  | |- _ => wp_continue
  end.

Ltac go_run := repeat go_step.
