(* ===== verification/Logging.v ===== *)
(** * Logging: [SetupFFmpeg]

    The log set-up of the program ([src/unnamed/part_000], lines 12-26):
    the library's log level is set to debug and a callback is installed
    that prints every library message through Go's [log] package.

    [SetupFFmpeg] is the registration; [log_callback] is the text the
    closure prints for one message.  [TrimSpace] is Go's
    [strings.TrimSpace] on strings of ASCII bytes: the bytes from 128
    on are kept, so the white space of Unicode outside ASCII is not
    trimmed here. *)

From Stdlib Require Import Ascii.
From stdpp Require Import strings pretty.
From S2P Require Import Prelude GoLang Rational Astiav.

Local Open Scope Z_scope.
Local Open Scope go_scope.

(** ** The text of the callback *)

(** The white space of ASCII: tab, line feed, vertical tab, form feed,
    carriage return and space. *)
Definition asciiSpace (a : ascii) : bool :=
  bool_decide (nat_of_ascii a ∈ [9; 10; 11; 12; 13; 32]%nat).

Fixpoint trim_left (l : list ascii) : list ascii :=
  match l with
  | a :: l' => if asciiSpace a then trim_left l' else l
  | [] => []
  end.

Definition trim_right (l : list ascii) : list ascii :=
  reverse (trim_left (reverse l)).

Definition trim (l : list ascii) : list ascii := trim_right (trim_left l).

(** [strings.TrimSpace]. *)
Definition TrimSpace (s : string) : string :=
  String.string_of_list_ascii (trim (String.list_ascii_of_string s)).

(** The first argument of the callback: [nil], an object whose
    [Class()] is [nil], or an object and the [String()] of its class. *)
Definition Classer : Type := option (option string).

(** Lines 18-23. *)
Definition class_suffix (c : Classer) : string :=
  match c with
  | Some (Some cl) => " - class: " +:+ cl
  | _ => EmptyString
  end.

Definition newline : string := String (ascii_of_nat 10) EmptyString.

(** Lines 17-25: what the closure gives to [log.Printf] for a message
    of the library.  The format string of the library is not used. *)
Definition log_callback (c : Classer) (l : Z) (fmt msg : string) : string :=
  "ffmpeg log: " +:+ TrimSpace msg +:+ class_suffix c +:+ " - level: "
    +:+ pretty l +:+ newline.

(** A list that neither starts nor ends with white space. *)
Definition trimmed (l : list ascii) : Prop :=
  (forall a, head l = Some a -> asciiSpace a = false) /\
  (forall a, list.last l = Some a -> asciiSpace a = false).

(** ** Inputs of the witnesses *)

Definition spaces : list ascii := [ascii_of_nat 32; ascii_of_nat 9].
Definition line_end : list ascii := [ascii_of_nat 13; ascii_of_nat 10].
Definition text : list ascii := String.list_ascii_of_string "frame= 12 fps=30".

(** ** The registration *)

Section Logging.
Context {O : Type} `{AvLib O}.

(** A function without deferred calls. *)
Definition run_none (d : Empty_set) (w : World O) : World O := w.

(** Lines 13-26. *)
Definition SetupFFmpeg_body : Go (World O) Empty_set unit unit :=
  lift (SetLogLevel LogLevelDebug) ;;
  lift SetLogCallback.

Definition SetupFFmpeg (w : World O) : Exit unit * World O :=
  func run_none SetupFFmpeg_body w.

(** ** The specification *)

Lemma SetupFFmpeg_spec w :
  SetupFFmpeg w =
    (Returned tt,
     set_env (mkEnv (Some LogLevelDebug) true (ctx_done (env w)) (notify (env w))) w).
Proof. by destruct w as [hp nx o fl ou rl [ll lc cd nt]]. Qed.

End Logging.

(** ** Trimming *)

Section Trim.
Implicit Types (l p q m : list ascii) (a : ascii).

Lemma trim_left_spaces p m :
  Forall (fun a => asciiSpace a = true) p -> trim_left (p ++ m) = trim_left m.
Proof. induction 1 as [|a p Ha _ IH]; [done|]. cbn. by rewrite Ha. Qed.

Lemma trim_left_head l a : head l = Some a -> asciiSpace a = false -> trim_left l = l.
Proof. destruct l; intros [= ->] Ha; cbn. by rewrite Ha. Qed.

Lemma trim_left_spec l :
  exists p, l = p ++ trim_left l /\ Forall (fun a => asciiSpace a = true) p /\
            forall a, head (trim_left l) = Some a -> asciiSpace a = false.
Proof.
  induction l as [|a l (p & Hl & Hp & Hh)]; [by exists []|].
  cbn. destruct (asciiSpace a) eqn:Ha.
  - exists (a :: p). split; [by rewrite Hl at 1|]. split; [by constructor|done].
  - exists []. split; [done|]. split; [done|]. by intros ? [= <-].
Qed.

Lemma trim_right_snoc l a :
  trim_right (l ++ [a]) = if asciiSpace a then trim_right l else l ++ [a].
Proof.
  unfold trim_right. rewrite reverse_snoc. cbn [trim_left]. destruct (asciiSpace a); [done|].
  by rewrite reverse_cons, reverse_involutive.
Qed.

Lemma trim_right_spaces m q :
  Forall (fun a => asciiSpace a = true) q -> trim_right (m ++ q) = trim_right m.
Proof.
  induction q as [|a q IH] using rev_ind; intros Hq; [by rewrite app_nil_r|].
  apply Forall_app in Hq as [Hq Ha]. apply Forall_inv in Ha.
  by rewrite app_assoc, trim_right_snoc, Ha, IH.
Qed.

Lemma trim_right_last l a : list.last l = Some a -> asciiSpace a = false -> trim_right l = l.
Proof. intros [l' ->]%last_Some Ha. by rewrite trim_right_snoc, Ha. Qed.

Lemma trim_right_spec l :
  exists q, l = trim_right l ++ q /\ Forall (fun a => asciiSpace a = true) q /\
            forall a, list.last (trim_right l) = Some a -> asciiSpace a = false.
Proof.
  induction l as [|a l (q & Hl & Hq & Hh)] using rev_ind; [by exists []|].
  rewrite trim_right_snoc. destruct (asciiSpace a) eqn:Ha.
  - exists (q ++ [a]). split; [by rewrite app_assoc, <- Hl|].
    split; [|done]. apply Forall_app. split; [done|]. by constructor.
  - exists []. split; [by rewrite app_nil_r|]. split; [done|].
    intros b. rewrite last_snoc. by intros [= <-].
Qed.

(** The specification of [trim]: it removes white space at both ends
    and what it leaves starts and ends with something else. *)
Lemma trim_spec l :
  exists p q, l = p ++ trim l ++ q /\
    Forall (fun a => asciiSpace a = true) p /\
    Forall (fun a => asciiSpace a = true) q /\ trimmed (trim l).
Proof.
  destruct (trim_left_spec l) as (p & Hl & Hp & Hh).
  destruct (trim_right_spec (trim_left l)) as (q & Hr & Hq & Ht).
  exists p, q. unfold trim, trimmed. split; [by rewrite <- Hr|].
  split; [done|]. split; [done|]. split; [|done].
  intros a Ha. apply Hh. rewrite Hr. by destruct (trim_right (trim_left l)).
Qed.

(** [trim] is the only function with this specification. *)
Lemma trim_unique l p m q :
  l = p ++ m ++ q ->
  Forall (fun a => asciiSpace a = true) p ->
  Forall (fun a => asciiSpace a = true) q -> trimmed m -> trim l = m.
Proof.
  intros -> Hp Hq [Hh Hl]. unfold trim. rewrite trim_left_spaces by done.
  destruct (list.last m) as [b|] eqn:Hb.
  - destruct m as [|a m]; [done|].
    rewrite (trim_left_head _ a) by (done || by apply Hh).
    rewrite trim_right_spaces by done. apply (trim_right_last _ b); [done|by apply Hl].
  - apply last_None in Hb as ->. cbn.
    rewrite <- (app_nil_r q), trim_left_spaces by done. done.
Qed.

Lemma trim_idemp l : trim (trim l) = trim l.
Proof.
  destruct (trim_spec l) as (_ & _ & _ & _ & _ & Ht).
  by apply (trim_unique _ [] _ []); [rewrite app_nil_r|..].
Qed.

Lemma TrimSpace_idemp s : TrimSpace (TrimSpace s) = TrimSpace s.
Proof. unfold TrimSpace. by rewrite String.list_ascii_of_string_of_list_ascii, trim_idemp. Qed.

Lemma list_ascii_of_string_app (s t : string) :
  String.list_ascii_of_string (s +:+ t)
    = String.list_ascii_of_string s ++ String.list_ascii_of_string t.
Proof.
  induction s as [|a s IH]; [done|].
  change (String a s +:+ t) with (String a (s +:+ t)).
  cbn [String.list_ascii_of_string]. by rewrite IH.
Qed.

Lemma string_app_inv_tail (s1 s2 t : string) : s1 +:+ t = s2 +:+ t -> s1 = s2.
Proof.
  intros Heq%(f_equal String.list_ascii_of_string).
  rewrite !list_ascii_of_string_app in Heq. apply app_inv_tail in Heq.
  by rewrite <- (String.string_of_list_ascii_of_string s1), Heq,
    String.string_of_list_ascii_of_string.
Qed.
End Trim.

(** ** Properties *)

(** C40. The callback prints a message of the library without the white
    space around it, whatever the format string: a message padded with
    white space at both ends prints as the message itself, provided the
    message neither starts nor ends with white space. *)
Theorem log_callback_trims_message c l fmt fmt' p m q :
  Forall (fun a => asciiSpace a = true) p ->
  Forall (fun a => asciiSpace a = true) q -> trimmed m ->
  log_callback c l fmt (String.string_of_list_ascii (p ++ m ++ q))
    = log_callback c l fmt' (String.string_of_list_ascii m).
Proof.
  intros Hp Hq Hm. unfold log_callback, TrimSpace.
  rewrite !String.list_ascii_of_string_of_list_ascii.
  rewrite (trim_unique _ p m q) by done.
  by rewrite (trim_unique m [] m []) by (done || by rewrite app_nil_r).
Qed.

(** The level of a message can be read back from the line the
    callback prints: two lines for the same message and the same class
    are equal only when the levels are. *)
Lemma log_callback_level_inj c l l' fmt msg :
  log_callback c l fmt msg = log_callback c l' fmt msg -> l = l'.
Proof.
  unfold log_callback. intros Heq. do 4 apply String.app_inj in Heq.
  by apply string_app_inv_tail, pretty_Z_inj in Heq.
Qed.

(** ** Witnesses *)

Lemma log_callback_trims_message_witness :
  log_callback (Some (Some "h264"%string)) 48 "%s" (String.string_of_list_ascii (spaces ++ text ++ line_end))
    = log_callback (Some (Some "h264"%string)) 48 "%d" (String.string_of_list_ascii text).
Proof.
  apply (log_callback_trims_message _ 48 "%s" "%d" spaces text line_end);
    [by repeat constructor | by repeat constructor | split; by intros a [= <-]].
Defined.

Lemma log_callback_level_inj_witness : (48 : Z) = 48.
Proof.
  apply (log_callback_level_inj None 48 48 "%s" "x"). reflexivity.
Defined.
