(* ===== verification/Sampler.v ===== *)
(** * Sampler: [StartScreenCap]

    The sampler ([src/examples/screenrecorder/screencap.go], lines
    12-41): the period of the ticker, the bounds of the display, the
    ticker with its deferred [Stop], and the loop that at each tick
    captures the display and sends the image on the channel, until the
    context is cancelled or a capture fails.

    The sampler is one of two goroutines.  What its [select] takes, what
    the capture answers and whether the other side takes the image is
    the sequence of [Tick]s it is run on: [TickDone] for the
    cancellation, [TickCapture r received] for a tick of the ticker
    whose capture answers [r], the image then being received
    ([received = true]) or never ([false]: the send blocks).  A
    sequence that ends without [TickDone] leaves the sampler blocked in
    its [select]. *)

From stdpp Require Import list strings.
From S2P Require Import Prelude GoLang Rational Clock Astiav.

Local Open Scope Z_scope.
Local Open Scope go_scope.

(** ** Data *)

(** The ticker of the sampler. *)
Inductive Ticker : Type :=
| NoTicker
| Running (d : Z)
| Stopped (d : Z).

(** The world of the sampler: the bounds of display 0, the ticker, the
    lines printed, the rectangles given to [CaptureRect] and the images
    received by the other side of the channel. *)
Record Cap : Type := mkCap {
  bounds : Rectangle;
  ticker : Ticker;
  cap_out : list (Sink * string * option error);
  requested : list Rectangle;
  forwarded : list RGBA
}.

(** What the [select] of the sampler takes. *)
Inductive Tick : Type :=
| TickDone
| TickCapture (r : error + RGBA) (received : bool).

(** The call the sampler defers: [ticker.Stop()], line 22. *)
Inductive CapDeferred : Type := DTickerStop.

#[export] Instance Ticker_eq_dec : EqDecision Ticker.
Proof. solve_decision. Defined.

(** ** Operations on the world *)

Definition set_ticker (t : Ticker) (c : Cap) : Cap :=
  mkCap (bounds c) t (cap_out c) (requested c) (forwarded c).

Definition cap_Println (s : Sink) (msg : string) (e : option error) (c : Cap)
  : unit * Cap :=
  (tt, mkCap (bounds c) (ticker c) (cap_out c ++ [(s, msg, e)]) (requested c)
         (forwarded c)).

(** [screenshot.GetDisplayBounds(0)]. *)
Definition GetDisplayBounds (c : Cap) : Rectangle * Cap := (bounds c, c).

(** [screenshot.CaptureRect(res)]: the call is recorded, the answer is
    the one of the tick. *)
Definition CaptureRect (res : Rectangle) (r : error + RGBA) (c : Cap)
  : (error + RGBA) * Cap :=
  (r, mkCap (bounds c) (ticker c) (cap_out c) (requested c ++ [res]) (forwarded c)).

(** The image has been received on the channel. *)
Definition deliver (img : RGBA) (c : Cap) : unit * Cap :=
  (tt, mkCap (bounds c) (ticker c) (cap_out c) (requested c) (forwarded c ++ [img])).

(** [ticker.Stop()]. *)
Definition stop_ticker (c : Cap) : Cap :=
  match ticker c with
  | Running d => set_ticker (Stopped d) c
  | _ => c
  end.

Definition run_cap_deferred (d : CapDeferred) (c : Cap) : Cap :=
  match d with DTickerStop => stop_ticker c end.

(** ** The function *)

(** Line 15: the division panics for a frame rate of zero. *)
Definition tick_period (fps : Z) : Go Cap CapDeferred (option error) Z :=
  match waitTime fps with
  | Some d => ret d
  | None => panic "runtime error: integer divide by zero"
  end.

(** Line 21: [time.NewTicker] panics unless the period is positive. *)
Definition NewTicker (d : Z) : Go Cap CapDeferred (option error) unit :=
  if d <=? 0 then panic "non-positive interval for NewTicker"
  else lift (fun c => (tt, set_ticker (Running d) c)).

(** Line 38: [imgChan <- img] on the unbuffered channel. *)
Definition send (received : bool) (img : RGBA)
  : Go Cap CapDeferred (option error) unit :=
  if received then lift (deliver img) else pending.

(** Lines 25-40. *)
Fixpoint capture_loop (res : Rectangle) (ticks : list Tick)
  : Go Cap CapDeferred (option error) (option error) :=
  match ticks with
  | [] => pending
  | TickDone :: _ =>
      lift (cap_Println LogPrintln "Screenshot Stream Stopped" None) ;;
      return_ None
  | TickCapture r received :: ticks =>
      r <- lift (CaptureRect res r) ;;
      img <- if_failed r (fun err =>
        lift (cap_Println LogPrintln "Error capturing screenshot:" (Some err)) ;;
        return_ (Some err)) ;;
      send received img ;;
      capture_loop res ticks
  end.

(** Lines 13-41. *)
Definition StartScreenCap_body (fps : Z) (ticks : list Tick)
  : Go Cap CapDeferred (option error) (option error) :=
  waitTime <- tick_period fps ;;
  res <- lift GetDisplayBounds ;;
  NewTicker waitTime ;;
  defer_ DTickerStop ;;
  capture_loop res ticks.

Definition StartScreenCap (fps : Z) (ticks : list Tick) (c : Cap)
  : Exit (option error) * Cap :=
  func run_cap_deferred (StartScreenCap_body fps ticks) c.

(** Lines 137-142 of the recorder: the goroutine that runs the sampler
    and reports its error. *)
Definition capture_goroutine (fps : Z) (ticks : list Tick) (c : Cap)
  : Exit unit * Cap :=
  func run_cap_deferred
    (err <- call (StartScreenCap fps ticks) ;;
     if_err err (fun e =>
       lift (cap_Println FmtPrintln "Error capturing screen:" (Some e)) ;;
       return_ tt) ;;
     return_ tt) c.

(** ** The specification: what a sequence of ticks amounts to *)

(** How the loop ends. *)
Inductive Ending : Type :=
| Cancelled                 (* the context was cancelled *)
| Failed (e : error)        (* a capture failed *)
| Stuck                     (* blocked in the send *)
| Waiting.                  (* blocked in the [select] *)

(** The images received before the loop ends, and the ending. *)
Fixpoint history (ticks : list Tick) : list RGBA * Ending :=
  match ticks with
  | [] => ([], Waiting)
  | TickDone :: _ => ([], Cancelled)
  | TickCapture (inl e) _ :: _ => ([], Failed e)
  | TickCapture (inr img) false :: _ => ([], Stuck)
  | TickCapture (inr img) true :: ticks =>
      (img :: (history ticks).1, (history ticks).2)
  end.

(** The number of captures. *)
Definition captures (ticks : list Tick) : nat :=
  match (history ticks).2 with
  | Cancelled | Waiting => length (history ticks).1
  | Failed _ | Stuck => S (length (history ticks).1)
  end.

Definition ending_exit (e : Ending) : Exit (option error) :=
  match e with
  | Cancelled => Returned None
  | Failed e => Returned (Some e)
  | Stuck | Waiting => Blocked
  end.

Definition ending_lines (e : Ending) : list (Sink * string * option error) :=
  match e with
  | Cancelled => [(LogPrintln, "Screenshot Stream Stopped"%string, None)]
  | Failed e => [(LogPrintln, "Error capturing screenshot:"%string, Some e)]
  | Stuck | Waiting => []
  end.

Definition ending_ticker (d : Z) (e : Ending) : Ticker :=
  match e with
  | Cancelled | Failed _ => Stopped d
  | Stuck | Waiting => Running d
  end.

(** The world the sampler leaves, for a positive period [d]. *)
Definition sampled (d : Z) (ticks : list Tick) (c : Cap) : Cap :=
  mkCap (bounds c) (ending_ticker d (history ticks).2)
    (cap_out c ++ ending_lines (history ticks).2)
    (requested c ++ replicate (captures ticks) (bounds c))
    (forwarded c ++ (history ticks).1).

(** ** Inputs of the witnesses *)

Definition screen : Rectangle := mkRectangle 0 0 2 2.
Definition shot : RGBA := mkRGBA (replicate 16 255) 8 screen.
Definition cap0 : Cap := mkCap screen NoTicker [] [] [].
Definition capture_error : error := CaptureError 5.

(** ** Lemmas *)

Section Loop.
Implicit Types (c : Cap) (ticks : list Tick) (ds : list CapDeferred).

(** The loop, from a world with the ticker running. *)
Lemma capture_loop_spec ticks c ds :
  capture_loop (bounds c) ticks (c, ds) =
    (match (history ticks).2 with
     | Cancelled => Return None
     | Failed e => Return (Some e)
     | Stuck | Waiting => Pending
     end,
     (mkCap (bounds c) (ticker c) (cap_out c ++ ending_lines (history ticks).2)
        (requested c ++ replicate (captures ticks) (bounds c))
        (forwarded c ++ (history ticks).1), ds)).
Proof.
  revert c. induction ticks as [|[|[e|img] [|]] ticks IH]; intros [b t o rq fw];
    unfold captures in *; cbn [history fst snd length replicate ending_lines];
    rewrite ?app_nil_r; try done.
  cbn [capture_loop]. unfold bind at 1. cbn.
  specialize (IH (mkCap b t o (rq ++ [b]) (fw ++ [img]))). cbn [bounds] in IH.
  unfold bind. cbn. rewrite IH. cbn.
  rewrite <- !app_assoc. by destruct (history ticks).2.
Qed.

(** The function, for a frame rate with a positive period. *)
Lemma StartScreenCap_spec fps d ticks c :
  waitTime fps = Some d -> 0 < d ->
  StartScreenCap fps ticks c
    = (ending_exit (history ticks).2, sampled d ticks c).
Proof.
  intros Hd Hpos. unfold StartScreenCap, StartScreenCap_body, func, tick_period.
  rewrite Hd. unfold bind at 1. cbn [ret]. unfold bind at 1. cbn [lift GetDisplayBounds fst snd].
  unfold bind at 1, NewTicker. destruct (d <=? 0) eqn:Hle; [lia|].
  cbn [lift fst snd]. unfold bind at 1. cbn [defer_].
  pose proof (capture_loop_spec ticks (set_ticker (Running d) c) [DTickerStop]) as Hl.
  cbn [bounds set_ticker] in Hl. rewrite Hl. unfold sampled.
  destruct c as [b t o rq fw]. by destruct (history ticks).2.
Qed.
End Loop.

Section Exits.
Implicit Types (c : Cap) (ticks : list Tick).

(** The function, for a frame rate from 1 to [10^9]. *)
Lemma StartScreenCap_runs fps ticks c :
  0 < fps <= time_Second ->
  StartScreenCap fps ticks c
    = (ending_exit (history ticks).2, sampled (time_Second / fps) ticks c).
Proof.
  intros Hf. apply StartScreenCap_spec; [apply waitTime_pos; lia|].
  by apply waitTime_period.
Qed.

(** The function, for the other frame rates. *)
Lemma StartScreenCap_panics fps ticks c :
  fps <= 0 \/ time_Second < fps ->
  StartScreenCap fps ticks c
    = (Panicked (if decide (fps = 0) then "runtime error: integer divide by zero"
                 else "non-positive interval for NewTicker"), c).
Proof.
  intros Hf. unfold StartScreenCap, StartScreenCap_body, func, tick_period.
  destruct (decide (fps = 0)) as [->|Hne]; [done|].
  destruct (waitTime fps) as [d|] eqn:Hd.
  - apply waitTime_nonpos in Hd as Hle; [|lia].
    unfold bind at 1. cbn [ret]. unfold bind at 1. cbn [lift GetDisplayBounds fst snd].
    unfold bind at 1, NewTicker. destruct (d <=? 0) eqn:Hle'; [done|lia].
  - unfold waitTime in Hd. by rewrite int64_quot_nonzero in Hd.
Qed.

(** What the goroutine of the sampler leaves of the captures. *)
Lemma capture_goroutine_forwarded fps ticks c :
  0 < fps <= time_Second ->
  forwarded (capture_goroutine fps ticks c).2 = forwarded c ++ (history ticks).1 /\
  requested (capture_goroutine fps ticks c).2
    = requested c ++ replicate (captures ticks) (bounds c).
Proof.
  intros Hf. unfold capture_goroutine, func, call, bind.
  rewrite StartScreenCap_runs by done. unfold sampled.
  by destruct (history ticks).2; cbn.
Qed.
End Exits.

(** ** Properties *)

(** C15. For a frame rate from 1 to [10^9] the sampler does what the
    sequence of its ticks amounts to: it reads the bounds of the display
    once, starts a ticker of [10^9 / fps] nanoseconds, captures these
    bounds at every tick and hands each image over, in order and once,
    until the cancellation (it returns [nil]), a failed capture (it
    returns the error) or a send that nobody receives (it blocks). *)
Theorem sampler_refines_history fps ticks c :
  0 < fps <= time_Second ->
  StartScreenCap fps ticks c
    = (ending_exit (history ticks).2, sampled (time_Second / fps) ticks c).
Proof. apply StartScreenCap_runs. Qed.

(** C39. A frame rate of zero makes the sampler panic in the division of
    its period, and a negative one or one above [10^9] in
    [time.NewTicker], whose period would not be positive: no ticker is
    started and nothing is captured. *)
Theorem sampler_panics_without_ticker fps ticks c :
  fps <= 0 \/ time_Second < fps ->
  exists msg, StartScreenCap fps ticks c = (Panicked msg, c) /\
    (msg = "runtime error: integer divide by zero"%string <-> fps = 0).
Proof.
  intros Hf. eexists. split; [by apply StartScreenCap_panics|].
  by destruct (decide (fps = 0)).
Qed.

(** The ticker is stopped whenever the sampler returns, and it is
    still running when the sampler is blocked: the deferred
    [ticker.Stop()] runs on every return. *)
Theorem sampler_stops_ticker fps ticks c :
  0 < fps <= time_Second ->
  match (StartScreenCap fps ticks c).1 with
  | Returned _ => ticker (StartScreenCap fps ticks c).2 = Stopped (time_Second / fps)
  | Blocked => ticker (StartScreenCap fps ticks c).2 = Running (time_Second / fps)
  | Panicked _ => False
  end.
Proof.
  intros Hf. rewrite StartScreenCap_runs by done.
  cbn [fst snd sampled ticker]. by destruct (history ticks).2.
Qed.

(** The images the sampler hands over are the captures that
    succeeded, in their order; each capture is of the bounds read at the
    start; and there is at most one capture whose image was not handed
    over: the one that failed, or the one nobody received. *)
Lemma sampler_forwards_captures fps ticks c :
  0 < fps <= time_Second ->
  forwarded (StartScreenCap fps ticks c).2 = forwarded c ++ (history ticks).1 /\
  requested (StartScreenCap fps ticks c).2
    = requested c ++ replicate (captures ticks) (bounds c) /\
  (length (history ticks).1 <= captures ticks <= S (length (history ticks).1))%nat.
Proof.
  intros Hf. rewrite StartScreenCap_runs by done. cbn [snd sampled forwarded requested].
  repeat split; unfold captures; destruct (history ticks).2; lia.
Qed.

(** A failed capture ends the sampler: the error is logged, returned
    to the goroutine, and printed once more; nothing else happens, and
    the recording function is not told. *)
Theorem capture_failure_reported fps ticks c e :
  0 < fps <= time_Second -> (history ticks).2 = Failed e ->
  capture_goroutine fps ticks c =
    (Returned tt,
     mkCap (bounds c) (Stopped (time_Second / fps))
       (cap_out c ++ [(LogPrintln, "Error capturing screenshot:"%string, Some e);
                      (FmtPrintln, "Error capturing screen:"%string, Some e)])
       (requested c ++ replicate (captures ticks) (bounds c))
       (forwarded c ++ (history ticks).1)).
Proof.
  intros Hf He. unfold capture_goroutine, func, call, bind at 1.
  rewrite StartScreenCap_runs by done. unfold sampled. rewrite He. cbn.
  by rewrite <- app_assoc.
Qed.

(** ** Witnesses *)

Lemma sampler_refines_history_witness :
  StartScreenCap 30 [TickCapture (inr shot) true; TickDone] cap0
    = (Returned None,
       mkCap screen (Stopped 33333333)
         [(LogPrintln, "Screenshot Stream Stopped"%string, None)] [screen] [shot]).
Proof.
  apply (sampler_refines_history 30 [TickCapture (inr shot) true; TickDone] cap0).
  unfold time_Second. lia.
Defined.

Lemma sampler_panics_without_ticker_witness :
  exists msg, StartScreenCap 0 [TickDone] cap0 = (Panicked msg, cap0) /\
    (msg = "runtime error: integer divide by zero"%string <-> 0 = 0).
Proof. apply (sampler_panics_without_ticker 0 [TickDone] cap0). lia. Defined.

Lemma sampler_stops_ticker_witness :
  ticker (StartScreenCap 30 [TickCapture (inr shot) false] cap0).2 = Running 33333333.
Proof.
  apply (sampler_stops_ticker 30 [TickCapture (inr shot) false] cap0).
  unfold time_Second. lia.
Defined.

Lemma sampler_forwards_captures_witness :
  forwarded (StartScreenCap 30 [TickCapture (inr shot) true; TickCapture (inl capture_error) true] cap0).2
    = forwarded cap0 ++ [shot] /\
  requested (StartScreenCap 30 [TickCapture (inr shot) true; TickCapture (inl capture_error) true] cap0).2
    = requested cap0 ++ replicate 2 (bounds cap0) /\
  (1 <= 2 <= 2)%nat.
Proof.
  apply (sampler_forwards_captures 30
           [TickCapture (inr shot) true; TickCapture (inl capture_error) true] cap0).
  unfold time_Second. lia.
Defined.

Lemma capture_failure_reported_witness :
  capture_goroutine 30 [TickCapture (inl capture_error) true] cap0 =
    (Returned tt,
     mkCap screen (Stopped 33333333)
       [(LogPrintln, "Error capturing screenshot:"%string, Some capture_error);
        (FmtPrintln, "Error capturing screen:"%string, Some capture_error)]
       [screen] []).
Proof.
  apply (capture_failure_reported 30 [TickCapture (inl capture_error) true] cap0
           capture_error); [unfold time_Second; lia | reflexivity].
Defined.
