(* ===== verification/Converter.v ===== *)
(** * Converter: [ImageRGBAtoAVFrame]

    The conversion of a captured bitmap into the frame the encoder takes
    ([src/unnamed/part_000], lines 28-104), statement by statement: the
    source frame is allocated and released by a deferred call, the
    coloured frame is allocated and returned, the scaling context
    lives for one call.  Each of the six fallible calls is followed by
    the check of the source: log, and return [nil] with the error. *)

From stdpp Require Import gmap strings.
From S2P Require Import Prelude GoLang Rational Astiav.

Local Open Scope Z_scope.
Local Open Scope go_scope.

Section Converter.
Context {O : Type} `{AvLib O}.

(** The result of the function: a frame pointer and an error. *)
Definition FrameResult : Type := option Handle * option error.

(** A deferred call of this function is a release. *)
Definition run_release (o : Op) (w : World O) : World O := snd (exec o w).

(** Lines 30-55: the source frame receives the image. *)
Definition fill_source_frame (img : RGBA)
  : Go (World O) Op FrameResult Handle :=
  srcFrame <- lift (place AllocFrame) ;;
  defer_ (Free srcFrame) ;;
  lift (exec (FrameSetWidth srcFrame (Dx (Bounds img)))) ;;
  lift (exec (FrameSetHeight srcFrame (Dy (Bounds img)))) ;;
  lift (exec (FrameSetPixelFormat srcFrame PixelFormatRgba)) ;;
  err <- lift (attempt (FrameAllocBuffer srcFrame 1)) ;;
  if_err err (fun e =>
    lift (Println LogPrintln "Error allocating srcFrame frame buffer:" (Some e)) ;;
    return_ (None, Some e)) ;;
  err <- lift (attempt (FrameMakeWritable srcFrame)) ;;
  if_err err (fun e =>
    lift (Println LogPrintln "Error making srcFrame frame writable:" (Some e)) ;;
    return_ (None, Some e)) ;;
  err <- lift (attempt (FrameFromImage srcFrame img)) ;;
  if_err err (fun e =>
    lift (Println LogPrintln "Error copying image into frame:" (Some e)) ;;
    return_ (None, Some e)) ;;
  ret srcFrame.

(** Lines 57-73: the coloured frame, of the size of the source frame. *)
Definition alloc_colored_frame (srcFrame : Handle)
  : Go (World O) Op FrameResult Handle :=
  coloredFrame <- lift (place AllocFrame) ;;
  w <- lift (query (FrameWidth srcFrame)) ;;
  lift (exec (FrameSetWidth coloredFrame w)) ;;
  h <- lift (query (FrameHeight srcFrame)) ;;
  lift (exec (FrameSetHeight coloredFrame h)) ;;
  lift (exec (FrameSetPixelFormat coloredFrame PixelFormatYuv420P)) ;;
  err <- lift (attempt (FrameAllocBuffer coloredFrame 1)) ;;
  if_err err (fun e =>
    lift (Println LogPrintln "Error allocating colored frame buffer:" (Some e)) ;;
    return_ (None, Some e)) ;;
  ret coloredFrame.

(** Lines 75-101: the scaling context and the one conversion. *)
Definition scale_into (srcFrame coloredFrame : Handle)
  : Go (World O) Op FrameResult unit :=
  sw <- lift (query (FrameWidth srcFrame)) ;;
  sh <- lift (query (FrameHeight srcFrame)) ;;
  dw <- lift (query (FrameWidth coloredFrame)) ;;
  dh <- lift (query (FrameHeight coloredFrame)) ;;
  r <- lift (alloc (CreateSoftwareScaleContext sw sh PixelFormatRgba
                      dw dh PixelFormatYuv420P
                      (flags_Add 0 SoftwareScaleContextFlagBilinear))) ;;
  swsCtx <- if_failed r (fun e =>
    lift (Println LogPrintln "Error creating sws context:" (Some e)) ;;
    return_ (None, Some e)) ;;
  defer_ (Free swsCtx) ;;
  err <- lift (attempt (ScaleFrame swsCtx srcFrame coloredFrame)) ;;
  if_err err (fun e =>
    lift (Println LogPrintln "Error scaling frame:" (Some e)) ;;
    return_ (None, Some e)).

(** Lines 29-104: the body, and the function with its deferred calls. *)
Definition ImageRGBAtoAVFrame_body (img : RGBA)
  : Go (World O) Op FrameResult FrameResult :=
  srcFrame <- fill_source_frame img ;;
  coloredFrame <- alloc_colored_frame srcFrame ;;
  scale_into srcFrame coloredFrame ;;
  return_ (Some coloredFrame, None).

Definition ImageRGBAtoAVFrame (img : RGBA) (w : World O)
  : Exit FrameResult * World O :=
  func run_release (ImageRGBAtoAVFrame_body img) w.

(** The frame the conversion of [img] produces. *)
Definition converted_frame (img : RGBA) : Frame :=
  mkFrame (Dx (Bounds img)) (Dy (Bounds img)) PixelFormatYuv420P
    AV_NOPTS_VALUE true false
    (Scaled (Pixels img) (Dx (Bounds img)) (Dy (Bounds img)) PixelFormatYuv420P).


(** The diagnostics of the failures before and after the coloured frame
    is allocated. *)
Definition early_reports : list string :=
  ["Error allocating srcFrame frame buffer:";
   "Error making srcFrame frame writable:";
   "Error copying image into frame:"]%string.
Definition late_reports : list string :=
  ["Error allocating colored frame buffer:";
   "Error creating sws context:";
   "Error scaling frame:"]%string.

(** What a call of [ImageRGBAtoAVFrame] on [img] does to the world, on
    every branch: it returns; it records no fault; on success the only
    change is the new frame; a failure is logged once, and leaves the
    heap as it was (early) or with the coloured frame still live
    (late). *)
Definition convert_post (img : RGBA) (w : World O) (r : Exit FrameResult)
    (w' : World O) : Prop :=
  faults w' = faults w /\ env w' = env w /\ released w' = released w /\
  (next w < next w')%positive /\ wf w' /\
  match r with
  | Returned (Some c, None) =>
      c = Pos.succ (next w) /\ out w' = out w /\
      heap w' = <[c := OFrame (converted_frame img)]> (heap w)
  | Returned (None, Some e) =>
      (exists msg, In msg early_reports /\
         out w' = out w ++ [(LogPrintln, msg, Some e)] /\ heap w' = heap w) \/
      (exists msg f, In msg late_reports /\
         out w' = out w ++ [(LogPrintln, msg, Some e)] /\
         heap w' = <[Pos.succ (next w) := OFrame f]> (heap w))
  | _ => False
  end.

End Converter.

(** Inputs of the witnesses: a bitmap of two by two pixels, and worlds
    whose oracle is scripted. *)
Definition img_2x2 : RGBA := mkRGBA (replicate 16 255) 8 (mkRectangle 0 0 2 2).

Definition w_ok : World Script := init_world (mkScript [] [] None).
Definition w_scale_fails : World Script :=
  init_world (mkScript [None; None; None; None; None; Some EINVAL] [] None).
Definition w_copy_fails : World Script :=
  init_world (mkScript [None; None; Some EINVAL] [] None).

(** ** The specification *)

Section ConverterSpec.
Context {O : Type} `{AvLib O}.

Lemma convert_spec img w :
  wf w ->
  convert_post img w (ImageRGBAtoAVFrame img w).1 (ImageRGBAtoAVFrame img w).2.
Proof.
  intros Hwf. destruct w as [hp nx o fl ou rl ev].
  unfold wf in Hwf; cbn [heap next] in Hwf.
  unfold ImageRGBAtoAVFrame. apply wp_func.
  unfold ImageRGBAtoAVFrame_body, fill_source_frame, alloc_colored_frame,
    scale_into.
  go_run; go_defers @run_release.
  all: unfold convert_post, wf; cbn [faults env released next out heap].
  all: repeat split; try lia; try fresh_solve.
  all: first [ left; eexists; split; [|split; reflexivity]; simpl; tauto
             | right; do 2 eexists; split; [|split; reflexivity]; simpl; tauto ].
Qed.

(** The same, for a call whose result is known. *)
Lemma convert_spec_eq img w r w' :
  wf w -> ImageRGBAtoAVFrame img w = (r, w') -> convert_post img w r w'.
Proof. intros Hwf E. pose proof (convert_spec img w Hwf) as P. by rewrite E in P. Qed.

(** A report is early or late, not both. *)
Lemma reports_disjoint msg : In msg early_reports -> In msg late_reports -> False.
Proof. unfold early_reports, late_reports. simpl. intuition congruence. Qed.

Lemma last_out_snoc (l : list (Sink * string * option error)) x :
  list.last (l ++ [x]) = Some x.
Proof. apply last_snoc. Qed.

(** ** Properties *)

(** C12. Success: the returned handle is new, it holds a frame of the
    size of the bitmap in planar YUV 4:2:0 whose samples are the
    conversion of the bitmap's pixels, every other handle is as before
    (the source frame and the scaling context are released), nothing is
    logged and no contract of the library is violated. *)
Theorem convert_success img w c w' :
  wf w ->
  ImageRGBAtoAVFrame img w = (Returned (Some c, None), w') ->
  frame_at (heap w') c = Some (converted_frame img) /\
  heap w !! c = None /\
  (forall h, h <> c -> heap w' !! h = heap w !! h) /\
  out w' = out w /\ faults w' = faults w.
Proof.
  intros Hwf E. destruct (convert_spec_eq _ _ _ _ Hwf E)
    as (Hf & _ & _ & _ & _ & -> & Ho & Hh).
  rewrite Hh. repeat split; try done.
  - by rewrite obj_at_insert_eq.
  - apply Hwf. lia.
  - intros h Hne. by rewrite lookup_insert_ne.
Qed.


(** A failure before the coloured frame exists releases everything:
    the heap is the one the call started with. *)
Theorem convert_early_failure_releases img w e msg w' :
  wf w ->
  ImageRGBAtoAVFrame img w = (Returned (None, Some e), w') ->
  list.last (out w') = Some (LogPrintln, msg, Some e) ->
  In msg early_reports ->
  heap w' = heap w.
Proof.
  intros Hwf E Hlast Hin. destruct (convert_spec_eq _ _ _ _ Hwf E)
    as (_ & _ & _ & _ & _ & [(m & Hm & Ho & Hh) | (m & f & Hm & Ho & Hh)]);
    [done|].
  rewrite Ho, last_out_snoc in Hlast. injection Hlast as ->.
  destruct (reports_disjoint _ Hin Hm).
Qed.

(** C35. A failure after the coloured frame is allocated (its buffer, the
    scaling context, the conversion) returns nil but leaves that frame
    live: the caller has no handle to release it with. *)
Theorem convert_late_failure_leaks img w e msg w' :
  wf w ->
  ImageRGBAtoAVFrame img w = (Returned (None, Some e), w') ->
  list.last (out w') = Some (LogPrintln, msg, Some e) ->
  In msg late_reports ->
  exists f, heap w' = <[Pos.succ (next w) := OFrame f]> (heap w) /\
            heap w !! Pos.succ (next w) = None.
Proof.
  intros Hwf E Hlast Hin. destruct (convert_spec_eq _ _ _ _ Hwf E)
    as (_ & _ & _ & _ & _ & [(m & Hm & Ho & Hh) | (m & f & Hm & Ho & Hh)]).
  - rewrite Ho, last_out_snoc in Hlast. injection Hlast as ->.
    destruct (reports_disjoint _ Hm Hin).
  - exists f. split; [done|]. apply Hwf. lia.
Qed.

End ConverterSpec.

(** ** Witnesses, on the scripted oracle *)

Lemma convert_success_witness :
  frame_at (heap (ImageRGBAtoAVFrame img_2x2 w_ok).2) 2%positive
    = Some (converted_frame img_2x2) /\
  heap w_ok !! 2%positive = None /\
  (forall h, h <> 2%positive ->
     heap (ImageRGBAtoAVFrame img_2x2 w_ok).2 !! h = heap w_ok !! h) /\
  out (ImageRGBAtoAVFrame img_2x2 w_ok).2 = out w_ok /\
  faults (ImageRGBAtoAVFrame img_2x2 w_ok).2 = faults w_ok.
Proof.
  apply (convert_success img_2x2 w_ok 2%positive);
    [apply wf_init | vm_compute; reflexivity].
Defined.


Lemma convert_early_failure_releases_witness :
  heap (ImageRGBAtoAVFrame img_2x2 w_copy_fails).2 = heap w_copy_fails.
Proof.
  apply (convert_early_failure_releases img_2x2 w_copy_fails EINVAL
           "Error copying image into frame:");
    [apply wf_init | vm_compute; reflexivity | vm_compute; reflexivity
    | simpl; tauto].
Defined.

Lemma convert_late_failure_leaks_witness :
  exists f,
    heap (ImageRGBAtoAVFrame img_2x2 w_scale_fails).2
      = <[Pos.succ (next w_scale_fails) := OFrame f]> (heap w_scale_fails) /\
    heap w_scale_fails !! Pos.succ (next w_scale_fails) = None.
Proof.
  apply (convert_late_failure_leaks img_2x2 w_scale_fails EINVAL
           "Error scaling frame:");
    [apply wf_init | vm_compute; reflexivity | vm_compute; reflexivity
    | simpl; tauto].
Defined.
