(* ===== verification/Encoder.v ===== *)
(** * Encoder: [NewH264EncoderCodec]

    The construction of the encoder context ([src/unnamed/part_000],
    lines 106-142): look the H.264 encoder up, allocate a context for it,
    and set the parameters that are fixed for the session: size, frame
    rate [fps / 1], time base [1 / 90000], planar YUV 4:2:0, bit rate,
    and the global-header flag added to the flags the context has. *)

From stdpp Require Import gmap strings.
From S2P Require Import Prelude GoLang Rational Clock Astiav.

Local Open Scope Z_scope.
Local Open Scope go_scope.

Section Encoder.
Context {O : Type} `{AvLib O}.

(** The result of the function: the codec, the context and an error. *)
Definition EncoderResult : Type := option CodecID * option Handle * option error.

Definition error_finding : error := ErrorString "error finding h264 encoder".
Definition error_allocating : error := ErrorString "error allocating codec context".

(** The function has no deferred call. *)
Definition run_nothing (d : Empty_set) (w : World O) : World O := w.

(** Lines 107-142. *)
Definition NewH264EncoderCodec_body (width height fps bitrate : Z)
  : Go (World O) Empty_set EncoderResult EncoderResult :=
  p <- lift (find_encoder CodecIDH264) ;;
  codec <- if_nil p (
    lift (Println LogPrintln "Error finding h264 encoder" None) ;;
    return_ (None, None, Some error_finding)) ;;
  p <- lift (alloc_ptr (AllocCodecContext codec)) ;;
  codecCtx <- if_nil p (
    lift (Println LogPrintln "Error allocating codec context" None) ;;
    return_ (None, None, Some error_allocating)) ;;
  lift (exec (CodecSetWidth codecCtx width)) ;;
  lift (exec (CodecSetHeight codecCtx height)) ;;
  lift (exec (CodecSetFramerate codecCtx (NewRational fps 1))) ;;
  lift (exec (CodecSetTimeBase codecCtx (NewRational 1 (90 * 1000)))) ;;
  lift (exec (CodecSetPixelFormat codecCtx PixelFormatYuv420P)) ;;
  lift (exec (CodecSetBitRate codecCtx bitrate)) ;;
  flags <- lift (query (CodecFlags codecCtx)) ;;
  lift (exec (CodecSetFlags codecCtx (flags_Add flags CodecContextFlagGlobalHeader))) ;;
  return_ (Some codec, Some codecCtx, None).

Definition NewH264EncoderCodec (width height fps bitrate : Z) (w : World O)
  : Exit EncoderResult * World O :=
  func run_nothing (NewH264EncoderCodec_body width height fps bitrate) w.

(** The context a successful call leaves behind. *)
Definition configured_context (width height fps bitrate : Z) : CodecContext :=
  mkCodecContext CodecIDH264 width height (NewRational fps 1)
    (NewRational 1 timeBaseFrequency) PixelFormatYuv420P bitrate
    CodecContextFlagGlobalHeader false false [] [].

(** What a call does, on every branch. *)
Definition encoder_post (width height fps bitrate : Z) (w : World O)
    (r : Exit EncoderResult) (w' : World O) : Prop :=
  faults w' = faults w /\ env w' = env w /\ released w' = released w /\
  (next w <= next w')%positive /\ wf w' /\
  match r with
  | Returned (Some codec, Some cc, None) =>
      codec = CodecIDH264 /\ cc = next w /\ next w' = Pos.succ (next w) /\
      out w' = out w /\
      heap w' = <[cc := OCodecContext (configured_context width height fps bitrate)]> (heap w)
  | Returned (None, None, Some e) =>
      heap w' = heap w /\ next w' = next w /\
      ((e = error_finding /\
        out w' = out w ++ [(LogPrintln, "Error finding h264 encoder"%string, None)]) \/
       (e = error_allocating /\
        out w' = out w ++ [(LogPrintln, "Error allocating codec context"%string, None)]))
  | _ => False
  end.

End Encoder.

Definition w_no_codec : World Script := init_world (mkScript [Some EINVAL] [] None).
Definition w_plain : World Script := init_world (mkScript [] [] None).

(** ** The specification *)

Section EncoderSpec.
Context {O : Type} `{AvLib O}.

Lemma encoder_spec width height fps bitrate w :
  wf w ->
  encoder_post width height fps bitrate w
    (NewH264EncoderCodec width height fps bitrate w).1
    (NewH264EncoderCodec width height fps bitrate w).2.
Proof.
  intros Hwf. destruct w as [hp nx o fl ou rl ev].
  unfold wf in Hwf; cbn [heap next] in Hwf.
  unfold NewH264EncoderCodec. apply wp_func. unfold NewH264EncoderCodec_body.
  go_run; go_defers @run_nothing.
  all: unfold encoder_post, wf; cbn [faults env released next out heap].
  all: repeat split; try lia; try fresh_solve; try done.
  all: first [ by left | by right ].
Qed.

Lemma encoder_spec_eq width height fps bitrate w r w' :
  wf w -> NewH264EncoderCodec width height fps bitrate w = (r, w') ->
  encoder_post width height fps bitrate w r w'.
Proof.
  intros Hwf E. pose proof (encoder_spec width height fps bitrate w Hwf) as P.
  by rewrite E in P.
Qed.

(** The flag is bit 22. *)
Lemma global_header_bit : Z.testbit CodecContextFlagGlobalHeader 22 = true.
Proof. reflexivity. Qed.

(** Adding the flag keeps every other bit. *)
Lemma flags_Add_testbit flags f n :
  Z.testbit (flags_Add flags f) n = Z.testbit flags n || Z.testbit f n.
Proof. apply Z.lor_spec. Qed.

(** ** Properties *)

(** C18. Success: the context is new, bound to the H.264 encoder, and
    carries exactly the parameters of the call: the size, the frame rate
    [fps / 1], the time base [1 / 90000] of the frame clock, planar YUV
    4:2:0, the bit rate, and the global-header flag; it is not yet open
    and nothing else in the world has changed. *)
Theorem encoder_success width height fps bitrate w codec cc w' :
  wf w ->
  NewH264EncoderCodec width height fps bitrate w
    = (Returned (Some codec, Some cc, None), w') ->
  codec = CodecIDH264 /\
  codec_at (heap w') cc = Some (configured_context width height fps bitrate) /\
  heap w !! cc = None /\
  (forall h, h <> cc -> heap w' !! h = heap w !! h) /\
  out w' = out w /\ faults w' = faults w.
Proof.
  intros Hwf E. destruct (encoder_spec_eq _ _ _ _ _ _ _ Hwf E)
    as (Hf & _ & _ & _ & _ & -> & -> & _ & Ho & Hh).
  rewrite Hh. repeat split; try done.
  - by rewrite obj_at_insert_eq.
  - apply Hwf. lia.
  - intros h Hne. by rewrite lookup_insert_ne.
Qed.

(** Failure: when the encoder is not found or the context cannot be
    allocated, the call returns no codec, no context and the error of the
    step that failed, logs it, and leaves the heap untouched. *)
Theorem encoder_failure width height fps bitrate w codec cc e w' :
  wf w ->
  NewH264EncoderCodec width height fps bitrate w
    = (Returned (codec, cc, Some e), w') ->
  codec = None /\ cc = None /\ heap w' = heap w /\
  (e = error_finding \/ e = error_allocating) /\
  exists msg, out w' = out w ++ [(LogPrintln, msg, None)].
Proof.
  intros Hwf E. pose proof (encoder_spec_eq _ _ _ _ _ _ _ Hwf E) as P.
  destruct P as (_ & _ & _ & _ & _ & P).
  destruct codec, cc; try done.
  destruct P as (Hh & _ & [[-> Ho] | [-> Ho]]); repeat split; eauto.
Qed.

(** Totality: the call returns on every answer of the library, with
    a context exactly when there is no error, and violates no contract. *)
Theorem encoder_total width height fps bitrate w :
  wf w ->
  exists codec cc e w',
    NewH264EncoderCodec width height fps bitrate w = (Returned (codec, cc, e), w') /\
    (is_Some cc <-> e = None) /\ faults w' = faults w /\ wf w'.
Proof.
  intros Hwf. pose proof (encoder_spec width height fps bitrate w Hwf) as P.
  destruct (NewH264EncoderCodec width height fps bitrate w)
    as [[[[[c|] [cc|]] [e|]]|msg|] w'];
    destruct P as (Hf & _ & _ & _ & Hwf' & P); try done.
  - exists (Some c), (Some cc), None, w'. repeat split; eauto.
  - exists None, None, (Some e), w'. repeat split; try done; by intros [??].
Qed.

(** The configured flags have the global-header bit set, and the
    time base is the positive rational the frame clock counts in. *)
Lemma configured_context_flags width height fps bitrate :
  Z.testbit (cc_flags (configured_context width height fps bitrate)) 22 = true /\
  cc_time_base (configured_context width height fps bitrate)
    = NewRational 1 timeBaseFrequency /\
  positive_rational (cc_time_base (configured_context width height fps bitrate)).
Proof. repeat split; reflexivity. Qed.

End EncoderSpec.

(** ** Witnesses *)

Lemma encoder_success_witness :
  CodecIDH264 = CodecIDH264 /\
  codec_at (heap (NewH264EncoderCodec 1920 1080 30 0 w_plain).2) 1%positive
    = Some (configured_context 1920 1080 30 0) /\
  heap w_plain !! 1%positive = None /\
  (forall h, h <> 1%positive ->
     heap (NewH264EncoderCodec 1920 1080 30 0 w_plain).2 !! h = heap w_plain !! h) /\
  out (NewH264EncoderCodec 1920 1080 30 0 w_plain).2 = out w_plain /\
  faults (NewH264EncoderCodec 1920 1080 30 0 w_plain).2 = faults w_plain.
Proof.
  apply (encoder_success 1920 1080 30 0 w_plain CodecIDH264 1%positive);
    [apply wf_init | vm_compute; reflexivity].
Defined.

Lemma encoder_failure_witness :
  @None CodecID = None /\ @None Handle = None /\
  heap (NewH264EncoderCodec 1920 1080 30 0 w_no_codec).2 = heap w_no_codec /\
  (error_finding = error_finding \/ error_finding = error_allocating) /\
  exists msg,
    out (NewH264EncoderCodec 1920 1080 30 0 w_no_codec).2
      = out w_no_codec ++ [(LogPrintln, msg, None)].
Proof.
  apply (encoder_failure 1920 1080 30 0 w_no_codec None None error_finding);
    [apply wf_init | vm_compute; reflexivity].
Defined.

Lemma encoder_total_witness :
  exists codec cc e w',
    NewH264EncoderCodec 640 480 60 0 w_no_codec = (Returned (codec, cc, e), w') /\
    (is_Some cc <-> e = None) /\ faults w' = faults w_no_codec /\ wf w'.
Proof. apply (encoder_total 640 480 60 0 w_no_codec). apply wf_init. Defined.
