(* ===== verification/Recorder.v ===== *)
(** * Recorder: [StartScreenRecording]

    The recording function ([src/examples/screenrecorder/screencap.go],
    lines 63-209): the set-up of the container, the encoder, the stream
    and the output file, each failure reported and ended by [return]
    with the calls deferred so far; the clock; and the loop that takes
    an image, converts it, stamps it, submits it to the encoder and
    writes the packets the encoder has ready.

    The function is one of two goroutines.  What the other one (the
    sampler) and the signal handler do is seen here as the sequence of
    events the [select] of the loop takes: [EvImage img] for an image
    received on the channel, [EvDone] for the cancellation.  A sequence
    that ends without [EvDone] leaves the function blocked in [select]. *)

From stdpp Require Import gmap strings.
From S2P Require Import Prelude GoLang Rational Clock Astiav Logging Converter Encoder.

Local Open Scope Z_scope.
Local Open Scope go_scope.

(** ** Data *)

(** The calls the function defers. *)
Inductive Deferred : Type :=
| DFree (h : Handle)                 (* [x.Free()], lines 72, 80, 111, 184 *)
| DWriteTrailer (outputCtx : Handle) (* the closure of lines 120-127 *)
| DStop                              (* [stop()], line 131 *)
| DCtxDone.                          (* [ctx.Done()], lines 160 to 203 *)

(** The variables of the function that the loop uses. *)
Record Session : Type := mkSession {
  outputCtx : Handle;
  enc : CodecID;
  encCtx : Handle;
  videoStream : Handle;
  ioCtx : Handle
}.

(** What the [select] of the loop takes. *)
Inductive Event : Type :=
| EvDone
| EvImage (img : RGBA).

#[export] Instance Deferred_eq_dec : EqDecision Deferred.
Proof. solve_decision. Defined.

Section Recorder.
Context {O : Type} `{AvLib O}.

(** ** The deferred calls *)

(** Lines 120-127. *)
Definition write_trailer (fc : Handle) : Go (World O) Empty_set unit unit :=
  err <- lift (attempt (WriteTrailer fc)) ;;
  if_err err (fun e =>
    lift (Println FmtPrintln "Error writing trailer:" (Some e)) ;;
    return_ tt) ;;
  lift (Println FmtPrintln "Stopping Screen recording!" None).

Definition run_deferred (d : Deferred) (w : World O) : World O :=
  match d with
  | DFree h => (exec (Free h) w).2
  | DWriteTrailer fc => (func run_none (write_trailer fc) w).2
  | DStop => (stop_notify w).2
  | DCtxDone => w
  end.

(** ** Set-up: lines 64-131 *)

Definition setup (filename : string) (width height fps : Z)
  : Go (World O) Deferred unit Session :=
  call SetupFFmpeg ;;
  r <- lift (alloc (AllocOutputFormatContext filename)) ;;
  fc <- if_failed r (fun e =>
    lift (Println FmtPrintln "Error creating output format context:" (Some e)) ;;
    return_ tt) ;;
  defer_ (DFree fc) ;;
  bitrate <- lift (query (FormatBitRate fc)) ;;
  r <- call (NewH264EncoderCodec width height fps bitrate) ;;
  if_err r.2 (fun e =>
    lift (Println FmtPrintln "Error creating encoder codec context:" (Some e)) ;;
    return_ tt) ;;
  cc <- deref r.1.2 ;;
  defer_ (DFree cc) ;;
  codec <- deref r.1.1 ;;
  p <- lift (alloc_ptr (NewStream fc codec)) ;;
  st <- if_nil p (
    lift (Println FmtPrintln "Error creating new video stream" None) ;;
    return_ tt) ;;
  err <- lift (attempt (CodecOpen cc codec)) ;;
  if_err err (fun e =>
    lift (Println FmtPrintln "Error opening codec context:" (Some e)) ;;
    return_ tt) ;;
  err <- lift (attempt (FromCodecContext st cc)) ;;
  if_err err (fun e =>
    lift (Println FmtPrintln "Error updating video stream params:" (Some e)) ;;
    return_ tt) ;;
  tb <- lift (query_tb (CodecTimeBase cc)) ;;
  lift (exec (StreamSetTimeBase st tb)) ;;
  r <- lift (alloc (OpenIOContext filename (flags_Add 0 IOContextFlagWrite))) ;;
  io <- if_failed r (fun e =>
    lift (Println FmtPrintln "Error opening IO context:" (Some e)) ;;
    return_ tt) ;;
  defer_ (DFree io) ;;
  lift (exec (FormatSetPb fc io)) ;;
  err <- lift (attempt (WriteHeader fc)) ;;
  if_err err (fun e =>
    lift (Println FmtPrintln "Error writing header:" (Some e)) ;;
    return_ tt) ;;
  defer_ (DWriteTrailer fc) ;;
  lift NotifyContext ;;
  defer_ DStop ;;
  ret (mkSession fc codec cc st io).

(** ** The sampler: lines 133-142

    [imgChan := make(chan *image.RGBA)] and [go func() { ... }()]: the
    channel is made and the goroutine of the sampler is started.
    Nothing of the world of this function changes; what the goroutine
    sends on the channel is the events the loop takes. *)

Definition go_capture (w : World O) : unit * World O := (tt, w).

(** ** The clock: lines 147-148 *)

Definition start_clock (fps : Z) : Go (World O) Deferred unit Z :=
  match pts_increment fps with
  | Some pts => ret pts
  | None => panic "runtime error: integer divide by zero"
  end.

(** ** The loop: lines 151-208 *)

(** The report of a failure in the loop: the message, the no-op
    [defer ctx.Done()], and [return]. *)
Definition report_failure {A : Type} (msg : string) (e : option error)
  : Go (World O) Deferred unit A :=
  lift (Println FmtPrintln msg e) ;;
  defer_ DCtxDone ;;
  return_ tt.

(** [errors.Is(err, astiav.ErrEof) || errors.Is(err, astiav.ErrEagain)]. *)
Definition no_packet (err : option error) : bool :=
  match err with
  | Some e => errors_Is e ErrEof || errors_Is e ErrEagain
  | None => false
  end.

(** Lines 187-206: the packets the encoder has ready are written out.
    [fuel] bounds the number of iterations. *)
Fixpoint drain (fuel : nat) (s : Session) (packet : Handle)
  : Go (World O) Deferred unit unit :=
  match fuel with
  | 0%nat => pending
  | S fuel =>
      err <- lift (ReceivePacket (encCtx s) packet) ;;
      if no_packet err then ret tt
      else
        if_err err (fun e => report_failure "error encoding packet:" (Some e)) ;;
        src <- lift (query_tb (CodecTimeBase (encCtx s))) ;;
        dst <- lift (query_tb (StreamTimeBase (videoStream s))) ;;
        lift (exec (PacketRescaleTs packet src dst)) ;;
        err <- lift (attempt (WriteFrame (outputCtx s) packet)) ;;
        if_err err (fun e => report_failure "error writing packet:" (Some e)) ;;
        drain fuel s packet
  end.

(** Lines 164-206: the frame is stamped and submitted, and what the
    encoder has ready is written; the result is the next frame number. *)
Definition encode_frame (fuel : nat) (s : Session) (pts frameNumber : Z)
    (frame : Handle) : Go (World O) Deferred unit Z :=
  lift (exec (FrameSetPts frame (frame_pts frameNumber pts))) ;;
  err <- lift (attempt (SendFrame (encCtx s) (Some frame))) ;;
  if_err err (fun e => report_failure "error sending frame for encoding:" (Some e)) ;;
  frameNumber <- ret (next_frame frameNumber) ;;
  p <- lift (alloc_ptr AllocPacket) ;;
  packet <- if_nil p (report_failure "error allocating packet" None) ;;
  defer_ (DFree packet) ;;
  drain fuel s packet ;;
  ret frameNumber.

(** Lines 156-206: one image. *)
Definition handle_image (fuel : nat) (s : Session) (pts frameNumber : Z)
    (img : RGBA) : Go (World O) Deferred unit Z :=
  r <- call (ImageRGBAtoAVFrame img) ;;
  if_err r.2 (fun e => report_failure "error creating frame from image:" (Some e)) ;;
  frame <- deref r.1 ;;
  encode_frame fuel s pts frameNumber frame.

(** Lines 151-208. *)
Fixpoint encode_loop (fuel : nat) (s : Session) (pts : Z) (events : list Event)
    (frameNumber : Z) : Go (World O) Deferred unit unit :=
  match events with
  | [] => pending
  | EvDone :: _ => return_ tt
  | EvImage img :: events =>
      frameNumber <- handle_image fuel s pts frameNumber img ;;
      encode_loop fuel s pts events frameNumber
  end.

(** Lines 63-209. *)
Definition StartScreenRecording_body (fuel : nat) (events : list Event)
    (filename : string) (width height fps : Z) : Go (World O) Deferred unit unit :=
  s <- setup filename width height fps ;;
  lift go_capture ;;
  pts <- start_clock fps ;;
  encode_loop fuel s pts events frameNumber0.

Definition StartScreenRecording (fuel : nat) (events : list Event)
    (filename : string) (width height fps : Z) (w : World O)
  : Exit unit * World O :=
  func run_deferred (StartScreenRecording_body fuel events filename width height fps) w.

(** ** The state of a session

    After the set-up the container, the encoder context, the stream and
    the output file hold the four handles that follow the first free
    one, and the heap is the one the function started from, [hp], with
    these four objects added. *)

Definition session_at (n : Handle) : Session :=
  mkSession n CodecIDH264 (Pos.succ n) (Pos.succ (Pos.succ n))
    (Pos.succ (Pos.succ (Pos.succ n))).

(** The time base the encoder is given. *)
Definition encoder_tb : Rational := NewRational 1 timeBaseFrequency.

(** The encoder context once open, with the frames submitted and the
    packets handed out so far.  The bit rate is the one the fresh
    container reports: zero. *)
Definition opened_context (width height fps : Z) (sent : list Frame)
    (handed : list Packet) : CodecContext :=
  mkCodecContext CodecIDH264 width height (NewRational fps 1)
    encoder_tb PixelFormatYuv420P 0
    CodecContextFlagGlobalHeader true false sent handed.

Definition session_heap (filename : string) (width height fps : Z) (tb : Rational)
    (s : Session) (state : MuxState) (sent : list Frame) (handed written : list Packet)
    (hp : Heap) : Heap :=
  <[ioCtx s := OIOContext (mkIOContext filename true)]>
    (<[videoStream s :=
         OStream (mkStream tb (Some (params_of (opened_context width height fps [] []))))]>
       (<[encCtx s := OCodecContext (opened_context width height fps sent handed)]>
          (<[outputCtx s :=
               OFormatContext (mkFormatContext filename 0 (Some (ioCtx s))
                                 [videoStream s] state written)]> hp))).

(** The calls deferred by the set-up, in the order they will run. *)
Definition base_defers (s : Session) : list Deferred :=
  [DStop; DWriteTrailer (outputCtx s); DFree (ioCtx s); DFree (encCtx s);
   DFree (outputCtx s)].

Definition setup_reports : list string :=
  ["Error creating output format context:";
   "Error creating encoder codec context:";
   "Error creating new video stream";
   "Error opening codec context:";
   "Error updating video stream params:";
   "Error opening IO context:";
   "Error writing header:"]%string.

(** The process environment while the loop runs. *)
Definition recording_env : Env := mkEnv (Some LogLevelDebug) true false true.

(** What the set-up does.  Success: the session objects are added to the
    heap, the header is written, five calls are deferred.  Failure: the
    function returns, and once the calls deferred so far have run the
    heap is the one it started from, with the failure reported last. *)
Definition setup_post (filename : string) (width height fps : Z) (w : World O)
    (c : Ctl unit Session) (w' : World O) (ds : list Deferred) : Prop :=
  match c with
  | Next s =>
      s = session_at (next w) /\ ds = base_defers s /\
      faults w' = faults w /\ out w' = out w /\ released w' = released w /\
      env w' = recording_env /\
      next w' = Pos.succ (ioCtx s) /\
      exists tb,
        heap w' = session_heap filename width height fps tb s HeaderWritten [] [] [] (heap w)
  | Return tt =>
      let w'' := run_defers run_deferred ds w' in
      faults w'' = faults w /\ heap w'' = heap w /\ wf w'' /\
      exists l msg e, In msg setup_reports /\
        out w'' = out w ++ l ++ [(FmtPrintln, msg, e)]
  | _ => False
  end.

End Recorder.

(** ** The set-up *)

Section Setup.
Context {O : Type} `{AvLib O}.

Lemma setup_spec filename width height fps w :
  wf w ->
  wp (setup filename width height fps) w [] (setup_post filename width height fps w).
Proof.
  intros Hwf. destruct w as [hp nx o fl ou rl [ll lc cd nt]].
  unfold wf in Hwf; cbn [heap next] in Hwf. unfold setup.
  wp_seq. apply wp_call. rewrite SetupFFmpeg_spec. cbn [fst snd]. go_run.
  all: try (eapply wp_call_spec;
            [apply encoder_spec; unfold wf; cbn [heap next]; fresh_solve|]).
  all: try (intros [[[[codec|] [cc|]] [e|]]|msg|] [hp' nx' o' fl' ou' rl' ev'];
            unfold encoder_post; cbn [faults env released next out heap];
            intros P; destruct_pairs; try done; destruct_or?; destruct_pairs;
            simplify_eq; unfold configured_context).
  all: go_run; unfold setup_post; try go_defers @run_deferred.
  all: cbn [faults heap released out]; unfold wf; cbn [heap next].
  all: repeat split; try done; try fresh_solve; try by eexists.
  all: first [ eexists [], _, _; split; [|reflexivity]; simpl; tauto
             | eexists [_], _, _; split; [|by rewrite <- app_assoc]; simpl; tauto ].
Qed.

End Setup.
