(* ===== verification/Loop.v ===== *)
(** * Loop: the state of a recording session and one turn of the loop

    What holds each time the loop of [StartScreenRecording] is at its
    [select] ([at_loop]), and what one image does to it: the
    specification of [drain], [encode_frame] and [handle_image] on every
    branch.  The heap of a session is the heap the function started
    from, the four session objects ([session_heap]), and what the turns
    so far have left in it ([grown]): one frame per image, never
    released, and one packet per image, whose release is deferred to the
    end of the function.  The invariant also says where the packets
    are: the container holds the packets the encoder has handed out,
    each rescaled to the time base of the stream ([to_stream]), in
    order, all of them at the [select] and all but the last after a
    write that failed ([passed_on], [delivered]). *)

From stdpp Require Import gmap strings.
From S2P Require Import Prelude GoLang Rational Clock Astiav Logging Converter Encoder Recorder.

Local Open Scope Z_scope.
Local Open Scope go_scope.

(** ** The invariant *)

Section State.
Context {O : Type} `{AvLib O}.
(** The arguments of the function, the time base the container gave the
    stream, the first handle of the session, the heap the function
    started from and the increment of the clock. *)
Context (filename : string) (width height fps : Z) (tb : Rational) (n : Handle).
Context (hp0 : Heap) (pts : Z).

(** The heap [hp] and the frames that were never released. *)
Definition leaked (frames : list (Handle * Frame)) (hp : Heap) : Heap :=
  foldr (fun hf m => <[hf.1 := OFrame hf.2]> m) hp frames.

(** [grown n0 nx rest pkts frames]: from the heap [hp0] and the next
    handle [n0], allocations have led to the heap [rest] and the next
    handle [nx]; the frames [frames] and the packets at [pkts] are
    live, every other allocation has been released. *)
Inductive grown (n0 : Handle)
  : Handle -> Heap -> list Handle -> list (Handle * Frame) -> Prop :=
| grown_init : grown n0 n0 hp0 [] []
| grown_frame nx rest pkts frames h F :
    grown n0 nx rest pkts frames -> (nx <= h)%positive ->
    grown n0 (Pos.succ h) (<[h := OFrame F]> rest) pkts ((h, F) :: frames)
| grown_packet nx rest pkts frames h P :
    grown n0 nx rest pkts frames -> (nx <= h)%positive ->
    grown n0 (Pos.succ h) (<[h := OPacket P]> rest) (h :: pkts) frames
| grown_skip nx nx' rest pkts frames :
    grown n0 nx rest pkts frames -> (nx <= nx')%positive ->
    grown n0 nx' rest pkts frames.

(** The frame the encoder is given for the image [img] at the frame
    number [fn]: the conversion of the image, stamped. *)
Definition encoded (fn : Z) (img : RGBA) : Frame :=
  set_f_pts (frame_pts fn pts) (converted_frame img).

(** The frames for the images [imgs], from the frame number [fn]. *)
Fixpoint encoded_from (fn : Z) (imgs : list RGBA) : list Frame :=
  match imgs with
  | [] => []
  | img :: imgs => encoded fn img :: encoded_from (next_frame fn) imgs
  end.

(** The frames submitted carry the timestamps of the clock, and each
    of them is still live. *)
Definition sent_ok (sent : list Frame) (frames : list (Handle * Frame)) : Prop :=
  f_pts <$> sent = stamps_from pts frameNumber0 (length sent) /\
  reverse sent `sublist_of` frames.*2.

(** What the container is given for a packet of the encoder: the
    packet with its timestamps in the time base of the stream. *)
Definition to_stream (p : Packet) : Packet := rescale_packet encoder_tb tb p.

(** The packets [handed] out by the encoder, each stamped in the
    encoder's time base, have been passed on to the container in order:
    [written] is their rescaling, the last one excepted when its write
    failed. *)
Definition passed_on (handed written : list Packet) : Prop :=
  Forall (fun p => p_tb p = Some encoder_tb) handed /\
  exists done lost,
    handed = done ++ lost /\ written = to_stream <$> done /\ (length lost <= 1)%nat.

(** [passed_on], and nothing is lost while no turn has failed ([cd] is
    empty). *)
Definition delivered (cd : list Deferred) (handed written : list Packet) : Prop :=
  passed_on handed written /\ (cd = [] -> written = to_stream <$> handed).

(** The loop is at its [select]: the container accepts packets and has
    been given the packets [written], which are the packets [handed] out
    by the encoder as far as they were written, all of them unless a
    turn failed; the encoder is open and has been given the frames
    [sent], stamped by the clock; the deferred calls are [cd], the
    release of the packets, and the calls the set-up deferred. *)
Definition at_loop (cd : list Deferred) (sent : list Frame)
    (handed written : list Packet) (frames : list (Handle * Frame)) (w : World O)
    (ds : list Deferred) : Prop :=
  exists state rest pkts,
    heap w = session_heap filename width height fps tb (session_at n)
               state sent handed written rest /\
    mux_accepts state = true /\
    grown (Pos.succ (ioCtx (session_at n))) (next w) rest pkts frames /\
    ds = cd ++ (DFree <$> pkts) ++ base_defers (session_at n) /\
    sent_ok sent frames /\
    delivered cd handed written /\
    env w = recording_env.

(** The image has the size the encoder is configured with. *)
Definition sized (img : RGBA) : Prop :=
  Dx (Bounds img) = width /\ Dy (Bounds img) = height.

(** The encoder refuses the frame [F]: its timestamp is not above the
    one of the last frame of [sent], or its size or its pixel format
    is not the one of the encoder. *)
Definition refused (sent : list Frame) (F : Frame) : Prop :=
  accepts (opened_context width height fps sent []) F = false.

Definition drain_reports : list string :=
  ["error encoding packet:"; "error writing packet:"]%string.

Definition image_reports : list string :=
  ["error creating frame from image:"; "error sending frame for encoding:";
   "error allocating packet"; "error encoding packet:"; "error writing packet:"]%string.

(** What [drain] does from a heap with the packet [pkt] on top of the
    session: the encoder hands out the packets [more], which are
    written, and then [lost]; it either finds the encoder empty, or
    fails and returns, with a packet lost when the failure is its
    write, or runs out of fuel, having written [fuel] packets. *)
Definition drain_post (fuel : nat) (w : World O) (ds : list Deferred)
    (pkt : Handle) (sent : list Frame) (handed written : list Packet) (rest : Heap)
    (c : Ctl unit unit) (w' : World O) (ds' : list Deferred) : Prop :=
  faults w' = faults w /\ next w' = next w /\ released w' = released w /\
  env w' = env w /\
  exists state' more lost P',
    mux_accepts state' = true /\
    Forall (fun p => p_tb p = Some encoder_tb) (more ++ lost) /\
    heap w' = <[pkt := OPacket P']>
                (session_heap filename width height fps tb (session_at n)
                   state' sent (handed ++ more ++ lost)
                   (written ++ (to_stream <$> more)) rest) /\
    match c with
    | Next tt => ds' = ds /\ out w' = out w /\ lost = []
    | Pending => ds' = ds /\ out w' = out w /\ lost = [] /\ length more = fuel
    | Return tt =>
        ds' = DCtxDone :: ds /\
        exists msg e, In msg drain_reports /\
          out w' = out w ++ [(FmtPrintln, msg, Some e)] /\
          (lost = [] \/ msg = "error writing packet:"%string /\ length lost = 1%nat)
    | Panic _ => False
    end.

(** The line that reports a failed write of a packet was printed last. *)
Definition write_failed (w w' : World O) : Prop :=
  exists l e, out w' = out w ++ l ++ [(FmtPrintln, "error writing packet:"%string, e)].

(** What one image does from [at_loop [] sent handed written frames]: it
    ends at the [select] again with one more frame submitted and leaked,
    or it reports a failure and returns, or its [drain] runs out of
    fuel.  A fault is recorded only when the encoder refuses the frame
    (its timestamp or its size), a turn that goes on had its frame
    accepted, and a packet is handed out and not written only when its
    write fails. *)
Definition image_post (fuel : nat) (img : RGBA) (sent : list Frame)
    (handed written : list Packet)
    (frames : list (Handle * Frame)) (fn : Z) (w : World O) (c : Ctl unit Z)
    (w' : World O) (ds' : list Deferred) : Prop :=
  released w' = released w /\
  match c with
  | Next fn' =>
      fn' = next_frame fn /\ faults w' = faults w /\ out w' = out w /\
      exists F fr handed' written', (F = encoded fn img /\ ~ refused sent F) /\
        written `prefix_of` written' /\
        at_loop [] (sent ++ [F]) handed' written' ((fr, F) :: frames) w' ds'
  | Pending =>
      faults w' = faults w /\ out w' = out w /\
      exists F fr handed' written', (F = encoded fn img /\ ~ refused sent F) /\
        written `prefix_of` written' /\
        (length written + fuel <= length written')%nat /\
        at_loop [] (sent ++ [F]) handed' written' ((fr, F) :: frames) w' ds'
  | Return tt =>
      (exists sent' handed' written' frames',
         at_loop [DCtxDone] sent' handed' written' frames' w' ds' /\
         written `prefix_of` written' /\
         (sent' = sent \/ sent' = sent ++ [encoded fn img]) /\
         (written' = to_stream <$> handed' \/ write_failed w w')) /\
      (faults w' = faults w \/
       exists c F, refused sent F /\ F = encoded fn img /\
                   faults w' = faults w ++ [BadCall c]) /\
      exists l msg e, In msg image_reports /\
        out w' = out w ++ l ++ [(FmtPrintln, msg, e)]
  | Panic _ => False
  end.

(** The images the loop takes before the cancellation. *)
Fixpoint images_of (events : list Event) : list RGBA :=
  match events with
  | EvImage img :: events => img :: images_of events
  | _ => []
  end.

Fixpoint images_taken (events : list Event) : nat :=
  match events with
  | EvImage _ :: events => S (images_taken events)
  | _ => 0
  end.

(** The cancellation is taken after the images. *)
Fixpoint cancelled (events : list Event) : bool :=
  match events with
  | [] => false
  | EvDone :: _ => true
  | EvImage _ :: events => cancelled events
  end.

(** The encoder refused the frame of one of the images [imgs], after
    the frames [sent] had been accepted with the timestamps of the
    clock. *)
Definition send_fault (imgs : list RGBA) (bound : nat) (w w' : World O) : Prop :=
  exists sent c img,
    (length sent < bound)%nat /\
    f_pts <$> sent = stamps_from pts frameNumber0 (length sent) /\
    img ∈ imgs /\
    refused sent (encoded (Nat.iter (length sent) next_frame frameNumber0) img) /\
    faults w' = faults w ++ [BadCall c].

Definition loop_post (fuel : nat) (sent : list Frame) (written : list Packet)
    (events : list Event) (w : World O) (c : Ctl unit unit) (w' : World O)
    (ds' : list Deferred) : Prop :=
  released w' = released w /\
  exists cd sent' handed' written' frames',
    at_loop cd sent' handed' written' frames' w' ds' /\
    (written `prefix_of` written' /\
     (written' = to_stream <$> handed' \/ write_failed w w')) /\
    (exists k, (k <= images_taken events)%nat /\
       sent' = sent ++ encoded_from (Nat.iter (length sent) next_frame frameNumber0)
                         (take k (images_of events))) /\
    match c with
    | Return tt =>
        (cd = [] /\ cancelled events = true /\
         length sent' = (length sent + images_taken events)%nat /\
         faults w' = faults w /\ out w' = out w) \/
        (cd = [DCtxDone] /\
         (faults w' = faults w \/
          send_fault (images_of events) (length sent + images_taken events) w w') /\
         exists l msg e, In msg image_reports /\
           out w' = out w ++ l ++ [(FmtPrintln, msg, e)])
    | Pending =>
        cd = [] /\ faults w' = faults w /\ out w' = out w /\
        ((cancelled events = false /\
          length sent' = (length sent + images_taken events)%nat) \/
         (length written + fuel <= length written')%nat)
    | _ => False
    end.
End State.

(** ** The frames of a sequence of images *)

Section Encoded.
Context (pts : Z).

Lemma encoded_from_length fn imgs : length (encoded_from pts fn imgs) = length imgs.
Proof. revert fn. induction imgs as [|img imgs IH]; intros fn; cbn; [done|]. by rewrite IH. Qed.

Lemma encoded_from_pts fn imgs :
  f_pts <$> encoded_from pts fn imgs = stamps_from pts fn (length imgs).
Proof. revert fn. induction imgs as [|img imgs IH]; intros fn; cbn; [done|]. by rewrite IH. Qed.

(** The frame of an image of the size of the encoder fits it; the
    frame of an image of another size is refused. *)
Lemma encoded_fits width height fps sent handed fn img :
  sized width height img ->
  frame_fits (opened_context width height fps sent handed) (encoded pts fn img) = true.
Proof. intros [Hw Hh]. unfold frame_fits. cbn. by rewrite !bool_decide_true. Qed.

Lemma unsized_refused width height fps sent fn img :
  ~ sized width height img -> refused width height fps sent (encoded pts fn img).
Proof.
  intros Hn. apply andb_false_intro2, andb_false_intro1, not_true_iff_false.
  intros [Hw Hh]%andb_true_iff. apply Hn. split; by eapply bool_decide_eq_true_1.
Qed.

Lemma accepted_sized width height fps sent fn img :
  ~ refused width height fps sent (encoded pts fn img) -> sized width height img.
Proof.
  intros Hr. destruct (decide (Dx (Bounds img) = width)) as [Hw|Hw],
    (decide (Dy (Bounds img) = height)) as [Hh|Hh]; [done|..];
    destruct Hr; apply unsized_refused; by intros [? ?].
Qed.

Lemma images_of_length events : length (images_of events) = images_taken events.
Proof. induction events as [|[|img] events IH]; cbn; [done..|]. by rewrite IH. Qed.

(** The first [k] images give [k] frames. *)
Lemma encoded_from_take fn k events sent :
  (k <= images_taken events)%nat ->
  sent = encoded_from pts fn (take k (images_of events)) -> length sent = k.
Proof.
  intros Hk ->. rewrite encoded_from_length, length_take, images_of_length. lia.
Qed.
End Encoded.

(** ** The packets passed on *)

Section Passed.
Context (tb : Rational).
Implicit Types (handed written more lost : list Packet) (cd : list Deferred).

Local Abbreviation stamped p := (p_tb p = Some encoder_tb).

Lemma to_stream_tb p : stamped p -> p_tb (to_stream tb p) = Some tb.
Proof. intros Hp. unfold to_stream, rescale_packet. cbn. by rewrite decide_True. Qed.

(** What was written is in the time base of the stream. *)
Lemma passed_on_tb handed written :
  passed_on tb handed written -> Forall (fun p => p_tb p = Some tb) written.
Proof.
  intros (Hs & done & lost & -> & -> & _). apply list.Forall_app in Hs as [Hs _].
  apply list.Forall_fmap. eapply list.Forall_impl; [done|]. intros p. apply to_stream_tb.
Qed.

Lemma delivered_nil cd : delivered tb cd [] [].
Proof. split; [|done]. split; [done|]. exists [], []. repeat split. cbn. lia. Qed.

(** A turn that fails before it asks for a packet. *)
Lemma delivered_failed cd handed written :
  delivered tb [] handed written -> delivered tb cd handed written.
Proof. intros [? Hc]. split; [done|]. intros _. by apply Hc. Qed.

(** The packets [more] are handed out and written, then [lost] is
    handed out. *)
Lemma delivered_more cd handed written more lost :
  delivered tb [] handed written -> Forall (fun p => stamped p) (more ++ lost) ->
  (length lost <= 1)%nat -> (cd = [] -> lost = []) ->
  delivered tb cd (handed ++ more ++ lost) (written ++ (to_stream tb <$> more)).
Proof.
  intros [[Hs _] Hc] Hm Hl Hcd. rewrite (Hc eq_refl). split; [split|].
  - by apply list.Forall_app.
  - exists (handed ++ more), lost. by rewrite fmap_app, app_assoc.
  - intros ->%Hcd. by rewrite app_nil_r, fmap_app.
Qed.

Lemma delivered_complete handed written :
  delivered tb [] handed written -> written = to_stream tb <$> handed.
Proof. intros [_ Hc]. by apply Hc. Qed.

(** What was written is what was handed out first. *)
Lemma passed_on_take handed written :
  passed_on tb handed written ->
  written = to_stream tb <$> take (length written) handed /\
  (length written <= length handed <= S (length written))%nat.
Proof.
  intros (_ & done & lost & -> & -> & Hl).
  rewrite length_fmap, take_app_length, length_app. split; [done|lia].
Qed.

(** When the stream's time base refines the encoder's, the packets
    written, rescaled back, are the packets the encoder handed out. *)
Lemma passed_on_roundtrip k handed written :
  refines tb encoder_tb k -> passed_on tb handed written ->
  Forall (packet_fits k) handed ->
  rescale_packet tb encoder_tb <$> written = take (length written) handed.
Proof.
  intros Hr (Hs & done & lost & -> & -> & _) [Hf _]%list.Forall_app.
  apply list.Forall_app in Hs as [Hs _].
  rewrite length_fmap, take_app_length, <- list_fmap_compose.
  rewrite <- (list_fmap_id done) at 2. apply list.Forall_fmap_ext, list.Forall_forall.
  intros p Hp. rewrite list.Forall_forall in Hs, Hf.
  by apply (rescale_packet_roundtrip encoder_tb tb k); auto.
Qed.

(** The ghost time base of a written packet is the one of the stream. *)
Lemma passed_on_tb_unique tb' handed written :
  passed_on tb handed written -> Forall (fun q => p_tb q = Some tb') written ->
  written = [] \/ tb' = tb.
Proof.
  intros Hp%passed_on_tb Hq. destruct written as [|q written]; [by left|right].
  apply list.Forall_cons in Hp as [Hp _], Hq as [Hq _]. congruence.
Qed.

(** The packets are written in the order of the encoder's decoding
    timestamps, as far as these have an image in the stream's time
    base. *)
Lemma passed_on_ordered handed written :
  positive_rational tb -> passed_on tb handed written ->
  Forall (fun p => rescalable encoder_tb tb (p_dts p)) handed ->
  StronglySorted dts_le handed -> StronglySorted dts_le written.
Proof.
  intros Htb (_ & done & lost & -> & -> & _) [Hf _]%list.Forall_app
    Hso%StronglySorted_app_1_l.
  eapply StronglySorted_fmap_Forall; [|exact Hf|exact Hso].
  intros p q Hp Hq Hle. by apply rescale_ts_mono.
Qed.
End Passed.

(** ** The heap of a session *)

Section SessionHeap.
Context (filename : string) (width height fps : Z) (tb : Rational) (n : Handle).
Context (hp0 : Heap).

Local Abbreviation sheap :=
  (session_heap filename width height fps tb (session_at n)).
Local Abbreviation io := (Pos.succ (Pos.succ (Pos.succ n))).

(** An object above the session's handles is an object of the rest. *)
Lemma sheap_insert state sent handed written rest h o :
  (io < h)%positive ->
  <[h := o]> (sheap state sent handed written rest)
    = sheap state sent handed written (<[h := o]> rest).
Proof.
  intros Hlt. unfold session_heap, session_at.
  cbn [encCtx videoStream outputCtx ioCtx].
  by rewrite !(insert_insert_ne _ h) by lia.
Qed.

Lemma sheap_fresh state sent handed written rest nx :
  (io < nx)%positive -> fresh_from rest nx ->
  fresh_from (sheap state sent handed written rest) nx.
Proof.
  intros Hlt Hf. unfold session_heap, session_at.
  cbn [encCtx videoStream outputCtx ioCtx]. fresh_solve.
Qed.

Lemma fresh_from_lt (hp : Heap) nx h o :
  fresh_from hp nx -> hp !! h = Some o -> (h < nx)%positive.
Proof.
  intros Hf Hh. destruct (decide (h < nx)%positive) as [|Hge]; [done|].
  rewrite Hf in Hh by lia. done.
Qed.

(** Allocation only moves the next handle up, and keeps it free. *)
Lemma grown_fresh n0 nx rest pkts frames :
  fresh_from hp0 n0 -> grown hp0 n0 nx rest pkts frames ->
  (n0 <= nx)%positive /\ fresh_from rest nx.
Proof.
  intros Hf0. induction 1 as [|???????[]|???????[]|??????[]].
  - split; [lia|done].
  - split; [lia|]. apply fresh_from_insert; [|lia].
    eapply fresh_from_weaken; [done|lia].
  - split; [lia|]. apply fresh_from_insert; [|lia].
    eapply fresh_from_weaken; [done|lia].
  - split; [lia|]. eapply fresh_from_weaken; [done|lia].
Qed.

End SessionHeap.

#[export] Hint Constructors grown : go.

(** [grown] after the allocations of a turn. *)
Ltac grown_solve :=
  first [ eassumption
        | eapply grown_packet; [grown_solve | lia]
        | eapply grown_frame; [grown_solve | lia]
        | eapply grown_skip;
          [ first [ eassumption
                  | eapply grown_packet; [grown_solve | lia]
                  | eapply grown_frame; [grown_solve | lia] ]
          | lia ] ].

(** The session's handles and objects in the form the symbolic
    execution works on. *)
Ltac session_unfold :=
  unfold session_heap, session_at, opened_context, encoder_tb, report_failure in *;
  cbn [encCtx videoStream outputCtx ioCtx] in *.

(** ** One turn of the loop *)

Section Turn.
Context {O : Type} `{AvLib O}.
Context (filename : string) (width height fps : Z) (tb : Rational) (n : Handle).
Context (hp0 : Heap) (pts : Z).
Context (Hfresh0 : fresh_from hp0 n).

Local Abbreviation s := (session_at n).
Local Abbreviation sheap := (session_heap filename width height fps tb (session_at n)).
Local Abbreviation io := (Pos.succ (Pos.succ (Pos.succ n))).
Local Abbreviation at_loop := (at_loop filename width height fps tb n hp0 pts).
Local Abbreviation image_post := (image_post filename width height fps tb n hp0 pts).
Local Abbreviation delivered := (delivered tb).
Local Abbreviation to_stream := (to_stream tb).
Local Abbreviation sent_ok := (sent_ok pts).
Local Abbreviation clock k := (Nat.iter k next_frame frameNumber0).

Lemma session_grown_fresh nx rest pkts frames :
  grown hp0 (Pos.succ io) nx rest pkts frames ->
  (io < nx)%positive /\ fresh_from rest nx.
Proof.
  intros Hg. eapply grown_fresh in Hg as [? ?]; [split; [lia|done]|].
  eapply fresh_from_weaken; [done|lia].
Qed.

Lemma sent_ok_snoc sent frames fr F :
  sent_ok sent frames -> f_pts F = frame_pts (clock (length sent)) pts ->
  sent_ok (sent ++ [F]) ((fr, F) :: frames).
Proof.
  intros [Hs Hsub] HF. split.
  - rewrite fmap_app, length_app, Nat.add_1_r, stamps_from_snoc, Hs.
    cbn [fmap list_fmap]. by rewrite HF.
  - rewrite reverse_snoc. by apply sublist_skip.
Qed.

Lemma sent_ok_skip sent frames fr F :
  sent_ok sent frames -> sent_ok sent ((fr, F) :: frames).
Proof. intros [Hs Hsub]. split; [done|]. by apply sublist_cons. Qed.

(** The four session objects on top of [rest], folded back. *)
Ltac session_fold :=
  repeat match goal with
  | |- context [<[?i := ?a]> (<[?st := ?b]>
         (<[?c := OCodecContext (mkCodecContext _ _ _ _ _ _ _ _ _ _ ?sent ?handed)]>
            (<[?f := OFormatContext (mkFormatContext _ _ _ _ ?state ?written)]>
               ?rest)))] =>
      change (<[i := a]> (<[st := b]>
               (<[c := OCodecContext (mkCodecContext _ _ _ _ _ _ _ _ _ _ sent handed)]>
                  (<[f := OFormatContext (mkFormatContext _ _ _ _ state written)]>
                     rest))))
        with (sheap state sent handed written rest)
  end;
  rewrite ?sheap_insert by lia.

(** [delivered] after a turn. *)
Ltac delivered_close :=
  first [ eassumption
        | by apply delivered_failed
        | eapply delivered_more; [eassumption | eassumption | cbn; lia | done] ].

(** Nothing is lost, or the write of a packet failed. *)
Ltac complete_close :=
  first [ left; eapply delivered_complete; delivered_close
        | right; eexists [], _; reflexivity
        | right; eexists [_], _; by rewrite <- app_assoc ].

(** [at_loop] of an explicit world. *)
Ltac at_loop_close :=
  session_fold; eexists _, _, _;
  split; [reflexivity|]; split; [first [eassumption | reflexivity]|];
  split; [cbn [next]; grown_solve|]; split; [reflexivity|];
  split; [first [ eassumption | by eapply sent_ok_snoc | by eapply sent_ok_skip ]|];
  split; [delivered_close|]; reflexivity.

Ltac prefix_close := first [ done | by apply prefix_app_r ].

(** The frame of a turn that goes on was accepted by the encoder. *)
Ltac accepted_close :=
  split; [done|]; intros Hr;
  match goal with Ha : accepts _ _ = true |- _ => exact (eq_true_false_abs _ Ha Hr) end.

(** The [Return] case of [image_post] on explicit worlds. *)
Ltac image_return_close :=
  split; [done|]; split;
  [ eexists _, _, _, _; split; [at_loop_close|];
    split; [prefix_close|]; split; [first [by left | by right] | complete_close]
  | split;
    [ first [ by left | right; eexists _, _; split; [eassumption|by split] ]
    | first [ eexists [], _, _; split; [|reflexivity]
            | eexists [_], _, _; split; [|by rewrite <- app_assoc] ];
      unfold image_reports, drain_reports in *; cbn [In] in *; tauto ] ].

Lemma drain_spec fuel pkt P state sent handed written rest w ds :
  heap w = <[pkt := OPacket P]> (sheap state sent handed written rest) ->
  mux_accepts state = true -> (io < pkt)%positive ->
  wp (drain fuel s pkt) w ds
    (drain_post filename width height fps tb n fuel w ds pkt sent handed written rest).
Proof.
  revert P state handed written w.
  induction fuel as [|fuel IH]; intros P state handed written w Hh Hst Hlt;
    destruct w as [hp nx o fl ou rl ev]; cbn [heap] in Hh; subst hp;
    cbn [drain].
  - apply wp_pending. unfold drain_post. cbn [faults next released env heap out].
    repeat split. exists state, [], [], P. by rewrite !app_nil_r.
  - session_unfold. go_run.
    4: { eapply wp_mono; [eapply IH; [reflexivity | done | done]|].
         intros c w' ds'. unfold drain_post. cbn [faults next released env out].
         intros (-> & -> & -> & -> & state' & more & lost & P' & Hst' & Hm & -> & Hc).
         repeat split. eexists state', (_ :: more), lost, P'.
         split; [done|]. split; [|split; [by rewrite <- !app_assoc|]].
         - by constructor.
         - destruct c as [[]|[]|?|]; try done. destruct_hyps.
           repeat split; try done. cbn [length]. congruence. }
    all: unfold drain_post; cbn [faults next released env heap out]; repeat split.
    all: first [ eexists state, [], [], _; rewrite ?app_nil_r;
                 split; [done|]; split; [done|]; split; [reflexivity|]
               | eexists state, [], [_], _; cbn [app fmap list_fmap]; rewrite ?app_nil_r;
                 split; [done|]; split; [|split; [reflexivity|]];
                 [by repeat constructor|] ].
    all: try done.
    all: split; [done|]; eexists _, _; split; [|split; [reflexivity|]];
      [unfold drain_reports; cbn [In]; tauto | first [by left | by right]].
Qed.

Lemma encode_frame_spec fuel img fr sent handed written frames (w0 w : World O) ds :
  at_loop [] sent handed written frames w0 ds ->
  heap w = <[fr := OFrame (converted_frame img)]> (heap w0) ->
  (next w0 <= fr < next w)%positive -> env w = env w0 ->
  wp (encode_frame fuel s pts (clock (length sent)) fr) w ds
    (image_post fuel img sent handed written frames (clock (length sent)) w).
Proof.
  intros (state & rest & pkts & Hh & Hst & Hg & -> & Hsent & Hwr & Hev)
    Hw [Hle Hlt] Hev'.
  destruct (session_grown_fresh _ _ _ _ Hg) as [Hio Hf].
  destruct w as [hp nx o fl ou rl ev], w0 as [hp1 nx1 o1 fl1 ou1 rl1 ev1].
  cbn [heap next env] in *. subst hp hp1 ev ev1.
  unfold encode_frame. session_unfold. go_run.
  3: { eapply wp_mono.
       - eapply drain_spec with (rest := <[fr := OFrame _]> rest); [|exact Hst|lia].
         cbn [heap]. rewrite <- sheap_insert by lia. reflexivity.
       - intros c [hp' nx' o' fl' ou' rl' ev'] ds'. unfold drain_post.
         cbn [faults next released env out heap].
         intros (-> & -> & -> & -> & state' & more & lost & P' & Hst' & Hm & -> & Hc).
         destruct c as [[]|[]|?|]; [| | done |]; destruct Hc as [-> Hc];
           wp_continue; go_run; unfold image_post, write_failed;
           cbn [faults next released env out heap]; destruct_hyps; subst.
         + do 4 (split; [done|]). eexists _, fr, _, _.
           split; [|split; [|at_loop_close]]; [accepted_close|prefix_close].
         + image_return_close.
         + image_return_close.
         + do 3 (split; [done|]). eexists _, fr, _, _.
           split; [|split; [|split; [|at_loop_close]]]; [accepted_close|prefix_close|].
           rewrite length_app, length_fmap. lia. }
  all: unfold image_post, write_failed; cbn [faults next released env out heap].
  all: image_return_close.
Qed.

Lemma image_post_from fuel img sent handed written frames fn (w1 w2 : World O) c w' ds :
  faults w1 = faults w2 -> out w1 = out w2 -> released w1 = released w2 ->
  image_post fuel img sent handed written frames fn w1 c w' ds ->
  image_post fuel img sent handed written frames fn w2 c w' ds.
Proof. unfold Loop.image_post, write_failed. by intros -> -> ->. Qed.

Lemma handle_image_spec fuel img sent handed written frames (w : World O) ds :
  at_loop [] sent handed written frames w ds ->
  wp (handle_image fuel s pts (clock (length sent)) img) w ds
    (image_post fuel img sent handed written frames (clock (length sent)) w).
Proof.
  intros Hat.
  pose proof Hat as (state & rest & pkts & Hh & Hst & Hg & -> & Hsent & Hwr & Hev).
  destruct (session_grown_fresh _ _ _ _ Hg) as [Hio Hf].
  unfold handle_image, report_failure.
  wp_seq. eapply wp_call_spec;
    [apply convert_spec; unfold wf; rewrite Hh; apply sheap_fresh; [lia|done]|].
  destruct w as [hp nx o fl ou rl ev].
  intros [[[c|] [e|]]|msg|] [hp' nx' o' fl' ou' rl' ev']; unfold convert_post, wf;
    cbn [heap next env faults out released] in *;
    intros P; destruct_hyps; try done; simplify_eq; wp_continue; cbn [fst snd];
    go_run.
  all: try match goal with
       | Hfr : fresh_from (<[?h := ?o]> _) ?m |- _ =>
           pose proof (fresh_from_lt _ _ h o Hfr (lookup_insert_eq _ _ _))
       end.
  - eapply wp_mono;
      [eapply encode_frame_spec; [exact Hat|done|cbn [next]; lia|done]|].
    intros c' w'' ds'. by apply image_post_from.
  - unfold image_post, write_failed; cbn [faults next released env out heap].
    image_return_close.
  - unfold image_post, write_failed; cbn [faults next released env out heap].
    image_return_close.
Qed.

End Turn.

(** ** The loop *)

Section LoopSpec.
Context {O : Type} `{AvLib O}.
Context (filename : string) (width height fps : Z) (tb : Rational) (n : Handle).
Context (hp0 : Heap) (pts : Z).
Context (Hfresh0 : fresh_from hp0 n).

Local Abbreviation s := (session_at n).
Local Abbreviation at_loop := (at_loop filename width height fps tb n hp0 pts).
Local Abbreviation loop_post := (loop_post filename width height fps tb n hp0 pts).
Local Abbreviation image_post := (image_post filename width height fps tb n hp0 pts).
Local Abbreviation clock k := (Nat.iter k next_frame frameNumber0).

Lemma at_loop_sent cd sent handed written frames (w : World O) ds :
  at_loop cd sent handed written frames w ds ->
  f_pts <$> sent = stamps_from pts frameNumber0 (length sent).
Proof. by intros (? & ? & ? & _ & _ & _ & _ & [? _] & _). Qed.

(** A world at the [select] of the loop is well formed. *)
Lemma at_loop_wf cd sent handed written frames (w : World O) ds :
  at_loop cd sent handed written frames w ds -> wf w.
Proof.
  intros (state & rest & pkts & Hh & _ & Hg & _).
  eapply session_grown_fresh in Hg as [Hio Hf]; [|done].
  unfold wf. rewrite Hh. apply sheap_fresh; [lia|done].
Qed.

Lemma clock_snoc (sent : list Frame) (F : Frame) :
  clock (length (sent ++ [F])) = next_frame (clock (length sent)).
Proof. by rewrite length_app, Nat.add_1_r. Qed.

Lemma send_fault_further img imgs b b' (w1 w2 w' : World O) :
  send_fault width height fps pts imgs b w1 w' -> faults w1 = faults w2 -> (b <= b')%nat ->
  send_fault width height fps pts (img :: imgs) b' w2 w'.
Proof.
  intros (sent & c & i & Hl & Hs & Hi & Hr & Hf) Hw Hb. exists sent, c, i.
  repeat split; try done; [lia|by apply list_elem_of_further|congruence].
Qed.

(** The rest of the loop, seen from before the image. *)
Lemma loop_post_step fuel sent written written' img events
    (w w' : World O) c w'' ds :
  released w' = released w -> faults w' = faults w -> out w' = out w ->
  written `prefix_of` written' ->
  loop_post fuel (sent ++ [encoded pts (clock (length sent)) img]) written' events w' c w'' ds ->
  loop_post fuel sent written (EvImage img :: events) w c w'' ds.
Proof.
  intros Hrl Hfl Hout Hpre
    [Hrl' (cd & sent' & handed' & written'' & frames' & Hat & [Hpre' Hw] &
           (k & Hk & Hs) & Hc)].
  set (F := encoded pts (clock (length sent)) img) in *.
  assert (length (sent ++ [F]) = S (length sent)) as HL
    by (rewrite length_app; cbn [length]; lia).
  unfold write_failed in *. rewrite HL, Hfl, Hout in Hc.
  rewrite Hout in Hw.
  split; [congruence|]. exists cd, sent', handed', written'', frames'.
  cbn [images_taken cancelled images_of]. rewrite Nat.add_succ_r.
  split; [done|]. split; [split; [by etrans|done]|]. split.
  - exists (S k). split; [lia|]. cbn [take encoded_from].
    by rewrite Hs, clock_snoc, <- app_assoc.
  - apply prefix_length in Hpre.
    destruct c as [|[]| |]; try done; [|intuition (try done; lia)].
    destruct Hc as [Hc|(? & [?|Hsf] & ?)]; [left; intuition (try done; lia)|..];
      (right; split; [done|]; split; [|done]); [by left|right].
    eapply send_fault_further; [done|done|lia].
Qed.

(** A turn that fails ends the loop. *)
Lemma loop_post_failed fuel img events sent handed written frames
    (w w' : World O) ds ds' :
  at_loop [] sent handed written frames w ds ->
  image_post fuel img sent handed written frames (clock (length sent)) w (Return tt) w' ds' ->
  loop_post fuel sent written (EvImage img :: events) w (Return tt) w' ds'.
Proof.
  intros Hat (Hrl & (sent' & handed' & written' & frames' & Hat' & Hpre & Hs & Hw) &
              Hfl & Hout).
  split; [done|]. exists [DCtxDone], sent', handed', written', frames'.
  cbn [images_taken images_of]. do 2 (split; [done|]). split.
  - destruct Hs as [->| ->]; [exists 0%nat|exists 1%nat];
      (split; [lia|]); by rewrite ?app_nil_r.
  - right. split; [done|]. split; [|done].
    destruct Hfl as [?|(c & F & ? & -> & ?)]; [by left|].
    right. exists sent, c, img. repeat split; try done; [lia| |apply list_elem_of_here].
    by eapply at_loop_sent.
Qed.

(** At the [select] before any failure nothing is lost. *)
Lemma at_loop_complete sent handed written frames (w : World O) ds :
  at_loop [] sent handed written frames w ds -> written = to_stream tb <$> handed.
Proof. intros (? & ? & ? & _ & _ & _ & _ & _ & Hd & _). by eapply delivered_complete. Qed.

Lemma loop_spec fuel events sent handed written frames (w : World O) ds :
  at_loop [] sent handed written frames w ds ->
  wp (encode_loop fuel s pts events (clock (length sent))) w ds
    (loop_post fuel sent written events w).
Proof.
  revert sent handed written frames w ds.
  induction events as [|[|img] events IH]; intros sent handed written frames w ds Hat;
    cbn [encode_loop]; pose proof (at_loop_complete _ _ _ _ _ _ Hat) as Hw.
  - apply wp_pending. split; [done|]. exists [], sent, handed, written, frames.
    cbn [images_taken cancelled]. rewrite Nat.add_0_r.
    repeat split; try done; [by left|by exists 0%nat; rewrite app_nil_r|by left].
  - apply wp_return. split; [done|]. exists [], sent, handed, written, frames.
    cbn [images_taken cancelled]. rewrite Nat.add_0_r.
    repeat split; try done; [by left|by exists 0%nat; rewrite app_nil_r|by left].
  - apply wp_bind. eapply wp_mono; [by apply handle_image_spec|].
    intros c w' ds' [Hrl Hc]. destruct c as [fn'|[]|?|]; [| | done |].
    + destruct Hc as (-> & Hfl & Hout & F & fr & handed' & written' & [-> _] & Hpre & Hat').
      eapply wp_mono;
        [rewrite <- (clock_snoc sent (encoded pts (clock (length sent)) img)); by eapply IH|].
      intros c w'' ds''. by apply loop_post_step.
    + by eapply loop_post_failed.
    + destruct Hc as (Hfl & Hout & F & fr & handed' & written' & [-> _] & Hpre & Hlen & Hat').
      split; [done|]. eexists [], _, handed', written', ((fr, _) :: frames).
      cbn [images_taken images_of]. rewrite length_app. cbn [length].
      split; [done|]. split; [split; [done|left; by eapply at_loop_complete]|].
      split; [by exists 1%nat; split; [lia|]|].
      repeat split; try done. by right.
Qed.

End LoopSpec.
