(* ===== verification/Pipeline.v ===== *)
(** * Pipeline: the two goroutines, the channel and the context

    The sampler and the recording function as transition systems, and
    their composition: the steps of the two goroutines interleave, the
    send of one and the receive of the other are one step (the channel
    is unbuffered), and both see the cancellation of the context ([ctx_closed]).  A
    [select] with two ready cases may take either: a tick is enabled
    whether or not the context is cancelled.

    [sampler_step] is the loop of [StartScreenCap]
    ([src/examples/screenrecorder/screencap.go], lines 25-40) and
    [recorder_step] the loop of [StartScreenRecording] (lines 151-208),
    each reduced to where the goroutine is; a turn of the recording
    function is one step, which comes back to the [select] or fails.
    The traces of the composition are related to the functions of
    [Sampler] and [Recorder] by the sequences they run on
    ([ticks_of], [events_of_trace]). *)

From stdpp Require Import list.
From S2P Require Import Prelude GoLang Rational Clock Astiav Logging Sampler Converter Encoder Recorder Loop.

Local Open Scope Z_scope.

(** ** The sampler *)

(** Where the sampler is. *)
Inductive SamplerPc : Type :=
| AtSelect                       (* line 26 *)
| Sending (img : RGBA)           (* line 38 *)
| Ended (err : option error).    (* lines 29 and 34 *)

Inductive SamplerLabel : Type :=
| STick (r : error + RGBA)   (* [case <-ticker.C], and what the capture answers *)
| SDone                      (* [case <-ctx.Done()] *)
| SSend (img : RGBA).        (* [imgChan <- img] is received *)

Inductive sampler_step (closed : bool)
  : SamplerPc -> SamplerLabel -> SamplerPc -> Prop :=
| sampler_done :
    closed = true -> sampler_step closed AtSelect SDone (Ended None)
| sampler_tick img :
    sampler_step closed AtSelect (STick (inr img)) (Sending img)
| sampler_fail e :
    sampler_step closed AtSelect (STick (inl e)) (Ended (Some e))
| sampler_send img :
    sampler_step closed (Sending img) (SSend img) AtSelect.

(** ** The recording function *)

Inductive RecorderPc : Type :=
| Receiving      (* line 152 *)
| Left.          (* returned: lines 154, 161, 171, 182, 194, 204 *)

Inductive RecorderLabel : Type :=
| RRecv (img : RGBA) (ok : bool)  (* [case img := <-imgChan], and whether the turn comes back *)
| RDone.                          (* [case <-ctx.Done()] *)

Inductive recorder_step (closed : bool)
  : RecorderPc -> RecorderLabel -> RecorderPc -> Prop :=
| recorder_done :
    closed = true -> recorder_step closed Receiving RDone Left
| recorder_turn img :
    recorder_step closed Receiving (RRecv img true) Receiving
| recorder_fails img :
    recorder_step closed Receiving (RRecv img false) Left.

(** ** The composition *)

(** The context, the two goroutines, the images captured and the
    images received. *)
Record Pipe : Type := mkPipe {
  ctx_closed : bool;
  sampler : SamplerPc;
  recorder : RecorderPc;
  captured : list RGBA;
  received : list RGBA
}.

Inductive Label : Type :=
| Sigint                          (* the operator interrupts *)
| Capture (r : error + RGBA)
| SamplerDone
| Handoff (img : RGBA) (ok : bool)
| RecorderDone.

(** The image of a capture. *)
Definition shot_of (r : error + RGBA) : list RGBA :=
  match r with inr img => [img] | inl _ => [] end.

(** The recording function cancels the context when it returns: the
    deferred [stop()] of line 131. *)
Inductive step : Pipe -> Label -> Pipe -> Prop :=
| step_sigint p :
    step p Sigint (mkPipe true (sampler p) (recorder p) (captured p) (received p))
| step_tick p r s' :
    sampler_step (ctx_closed p) (sampler p) (STick r) s' ->
    step p (Capture r)
      (mkPipe (ctx_closed p) s' (recorder p) (captured p ++ shot_of r) (received p))
| step_sampler_done p s' :
    sampler_step (ctx_closed p) (sampler p) SDone s' ->
    step p SamplerDone
      (mkPipe (ctx_closed p) s' (recorder p) (captured p) (received p))
| step_handoff p img ok s' r' :
    sampler_step (ctx_closed p) (sampler p) (SSend img) s' ->
    recorder_step (ctx_closed p) (recorder p) (RRecv img ok) r' ->
    step p (Handoff img ok)
      (mkPipe (ctx_closed p || negb ok) s' r' (captured p) (received p ++ [img]))
| step_recorder_done p r' :
    recorder_step (ctx_closed p) (recorder p) RDone r' ->
    step p RecorderDone
      (mkPipe true (sampler p) r' (captured p) (received p)).

(** A sequence of steps, with its labels. *)
Inductive steps : Pipe -> list Label -> Pipe -> Prop :=
| steps_nil p : steps p [] p
| steps_snoc p ls q l r : steps p ls q -> step q l r -> steps p (ls ++ [l]) r.

Definition start : Pipe := mkPipe false AtSelect Receiving [] [].

(** ** The composition, executable *)

#[export] Instance Rectangle_eq_dec : EqDecision Rectangle.
Proof. solve_decision. Defined.

#[export] Instance RGBA_eq_dec : EqDecision RGBA.
Proof. solve_decision. Defined.

Definition fire (l : Label) (p : Pipe) : option Pipe :=
  match l, sampler p, recorder p with
  | Sigint, _, _ =>
      Some (mkPipe true (sampler p) (recorder p) (captured p) (received p))
  | Capture (inr img), AtSelect, _ =>
      Some (mkPipe (ctx_closed p) (Sending img) (recorder p) (captured p ++ [img])
              (received p))
  | Capture (inl e), AtSelect, _ =>
      Some (mkPipe (ctx_closed p) (Ended (Some e)) (recorder p) (captured p ++ [])
              (received p))
  | SamplerDone, AtSelect, _ =>
      if ctx_closed p
      then Some (mkPipe true (Ended None) (recorder p) (captured p) (received p))
      else None
  | Handoff img ok, Sending img', Receiving =>
      if decide (img' = img)
      then Some (mkPipe (ctx_closed p || negb ok) AtSelect
                   (if ok then Receiving else Left) (captured p) (received p ++ [img]))
      else None
  | RecorderDone, _, Receiving =>
      if ctx_closed p
      then Some (mkPipe true (sampler p) Left (captured p) (received p))
      else None
  | _, _, _ => None
  end.

Fixpoint run (ls : list Label) (p : Pipe) : option Pipe :=
  match ls with
  | [] => Some p
  | l :: ls => match fire l p with Some q => run ls q | None => None end
  end.

(** ** What the goroutines run on *)

(** The image the sampler is sending. *)
Definition in_flight (s : SamplerPc) : list RGBA :=
  match s with Sending img => [img] | _ => [] end.

(** The events the recording function takes along a trace. *)
Fixpoint events_of_trace (ls : list Label) : list Event :=
  match ls with
  | [] => []
  | Handoff img _ :: ls => EvImage img :: events_of_trace ls
  | RecorderDone :: ls => EvDone :: events_of_trace ls
  | _ :: ls => events_of_trace ls
  end.

(** The ticks the sampler takes along a trace: a capture whose image is
    received is one tick, taken at the hand-off. *)
Fixpoint ticks_of_trace (ls : list Label) : list Tick :=
  match ls with
  | [] => []
  | Handoff img _ :: ls => TickCapture (inr img) true :: ticks_of_trace ls
  | Capture (inl e) :: ls => TickCapture (inl e) true :: ticks_of_trace ls
  | SamplerDone :: ls => TickDone :: ticks_of_trace ls
  | _ :: ls => ticks_of_trace ls
  end.

(** The same, with the send that is still waiting. *)
Definition ticks_of (ls : list Label) (p : Pipe) : list Tick :=
  ticks_of_trace ls ++
  match sampler p with
  | Sending img => [TickCapture (inr img) false]
  | _ => []
  end.

(** How the sampler ends, from where it is. *)
Definition ending_of (s : SamplerPc) : Ending :=
  match s with
  | AtSelect => Waiting
  | Sending _ => Stuck
  | Ended None => Cancelled
  | Ended (Some e) => Failed e
  end.

(** The last tick of a sampler that has ended. *)
Definition last_tick (s : SamplerPc) : list Tick :=
  match s with
  | Ended None => [TickDone]
  | Ended (Some e) => [TickCapture (inl e) true]
  | _ => []
  end.

(** A tick whose image is received. *)
Definition taken (img : RGBA) : Tick := TickCapture (inr img) true.

(** The trace [ls] to [p], seen by each goroutine: the recording
    function has taken the images received, and then the cancellation
    if it left by it; the sampler has had each of these images taken,
    and then its last tick. *)
Definition trace_inv (ls : list Label) (p : Pipe) : Prop :=
  (exists tl, events_of_trace ls = (EvImage <$> received p) ++ tl /\
     (tl = [] \/ tl = [EvDone] /\ recorder p = Left)) /\
  ticks_of_trace ls = (taken <$> received p) ++ last_tick (sampler p).

(** ** The invariant *)

(** Every image captured has been received, but the one being sent;
    and the context is cancelled once the recording function has
    returned. *)
Definition pipe_inv (p : Pipe) : Prop :=
  captured p = received p ++ in_flight (sampler p) /\
  (recorder p = Left -> ctx_closed p = true).

(** ** Inputs of the witnesses *)

Definition race : list Label :=
  [Sigint; Capture (inr shot); Handoff shot true; RecorderDone; SamplerDone].

Definition failed_capture : list Label :=
  [Capture (inr shot); Handoff shot true; Capture (inl capture_error)].

Definition abandoned : list Label :=
  [Capture (inr shot); Handoff shot false; Capture (inr shot)].

(** ** Lemmas *)

Ltac step_inv :=
  repeat match goal with
         | H : step _ _ _ |- _ => inversion H; clear H; subst
         | H : sampler_step _ _ _ _ |- _ => inversion H; clear H; subst
         | H : recorder_step _ _ _ _ |- _ => inversion H; clear H; subst
         end.

#[export] Hint Constructors sampler_step recorder_step step steps : go.

Section Steps.
Implicit Types (p q r : Pipe) (l : Label) (ls : list Label).

Lemma steps_one p l q : step p l q -> steps p [l] q.
Proof. intros Hs. apply (steps_snoc p [] p l q); [constructor|done]. Qed.

Lemma steps_app p ls q ls' r : steps p ls q -> steps q ls' r -> steps p (ls ++ ls') r.
Proof.
  intros Hp Hq. induction Hq as [|q ls' q' l r _ IH Hst]; [by rewrite app_nil_r|].
  rewrite app_assoc. by eapply steps_snoc; [apply IH|].
Qed.

(** The relation and the function agree. *)
Lemma step_fire p l q : step p l q -> fire l p = Some q.
Proof.
  intros Hs. destruct p as [c s r cap rec]. step_inv; cbn in *; subst; cbn;
    rewrite ?decide_True by done; try done.
  all: match goal with H : _ = SDone |- _ => discriminate H | _ => idtac end.
Qed.

Lemma fire_step p l q : fire l p = Some q -> step p l q.
Proof.
  destruct p as [c s r cap rec]. unfold fire. cbn [sampler recorder ctx_closed captured received].
  destruct l as [|[e|img]| |img ok|], s as [|img'|err], r; try discriminate;
    repeat case_match; try discriminate; intros [= <-]; subst.
  all: try (by apply (step_sigint (mkPipe _ _ _ _ _))).
  all: try (by apply (step_tick (mkPipe _ _ _ _ _)); constructor).
  all: try (by apply (step_sampler_done (mkPipe _ _ _ _ _)); constructor).
  all: try (by apply (step_recorder_done (mkPipe _ _ _ _ _)); constructor).
  all: by apply (step_handoff (mkPipe _ _ _ _ _)); constructor.
Qed.

Lemma run_snoc ls l p :
  run (ls ++ [l]) p = match run ls p with Some q => fire l q | None => None end.
Proof.
  revert p. induction ls as [|l' ls IH]; intros p; cbn; [by destruct (fire l p)|].
  by destruct (fire l' p).
Qed.

Lemma steps_run p ls q : steps p ls q <-> run ls p = Some q.
Proof.
  split.
  - induction 1 as [|p ls q l r _ IH Hst]; [done|].
    rewrite run_snoc, IH. by apply step_fire.
  - revert q. induction ls as [|l ls IH] using rev_ind; intros q.
    + intros [= <-]. constructor.
    + rewrite run_snoc. destruct (run ls p) as [q'|] eqn:Hr; [|done].
      intros Hf%fire_step. eapply steps_snoc; [by apply IH|done].
Qed.

(** One step keeps the invariant. *)
Lemma step_pipe_inv p l q : pipe_inv p -> step p l q -> pipe_inv q.
Proof.
  intros [Hc Hl] Hs. destruct p as [c s r cap rec]. unfold pipe_inv in *.
  step_inv; cbn in *; subst; rewrite ?app_nil_r in *; split; try done.
  all: try (by rewrite <- app_assoc).
  all: try (intros ?; by rewrite ?orb_true_r; auto).
Qed.

Lemma steps_pipe_inv p ls q : pipe_inv p -> steps p ls q -> pipe_inv q.
Proof.
  intros Hp Hs. induction Hs as [|p ls q l r Hs IH Hst]; [done|].
  eapply step_pipe_inv; [by apply IH|done].
Qed.

Lemma start_pipe_inv : pipe_inv start.
Proof. by split. Qed.
End Steps.

Section Traces.
Implicit Types (p q r : Pipe) (l : Label) (ls : list Label).

Lemma events_of_trace_app ls ls' :
  events_of_trace (ls ++ ls') = events_of_trace ls ++ events_of_trace ls'.
Proof. induction ls as [|[] ls IH]; cbn; by rewrite ?IH. Qed.

Lemma ticks_of_trace_app ls ls' :
  ticks_of_trace (ls ++ ls') = ticks_of_trace ls ++ ticks_of_trace ls'.
Proof. induction ls as [|[|[]| | |] ls IH]; cbn; by rewrite ?IH. Qed.

Lemma images_of_taken imgs tl :
  tl = [] \/ tl = [EvDone] -> images_of ((EvImage <$> imgs) ++ tl) = imgs.
Proof. intros Htl. induction imgs as [|img imgs IH]; cbn; [by destruct Htl as [->| ->]|by f_equal]. Qed.

Lemma history_taken imgs ticks :
  history ((taken <$> imgs) ++ ticks) = (imgs ++ (history ticks).1, (history ticks).2).
Proof. induction imgs as [|img imgs IH]; cbn; [by destruct (history ticks)|by rewrite IH]. Qed.

(** One step keeps what each goroutine has seen of the trace. *)
Lemma step_trace_inv ls p l q : trace_inv ls p -> step p l q -> trace_inv (ls ++ [l]) q.
Proof.
  intros [(tl & He & Htl) Ht] Hs. unfold trace_inv.
  rewrite events_of_trace_app, ticks_of_trace_app, He, Ht.
  destruct p as [c s r cap rec]. step_inv; cbn in *; subst; rewrite ?app_nil_r.
  all: try (split; [by exists tl|done]).
  all: destruct Htl as [->|[-> [=]]]; rewrite ?app_nil_r, ?fmap_app.
  - split; [by exists []; rewrite app_nil_r; auto|done].
  - split; [by exists []; rewrite app_nil_r; auto|done].
  - split; [|done]. exists [EvDone]. auto.
Qed.

Lemma steps_trace_inv ls p : steps start ls p -> trace_inv ls p.
Proof.
  remember start as p0 eqn:Hp0. intros Hs.
  induction Hs as [|p ls q l r Hs IH Hst]; subst.
  - split; [by exists []; auto|done].
  - eapply step_trace_inv; [by apply IH|done].
Qed.

(** The trace, as the sequences the two functions run on. *)
Lemma trace_inv_history ls p :
  trace_inv ls p ->
  images_of (events_of_trace ls) = received p /\
  history (ticks_of ls p) = (received p, ending_of (sampler p)).
Proof.
  intros [(tl & -> & Htl) Ht]. split.
  - apply images_of_taken. destruct Htl as [?|[? _]]; auto.
  - unfold ticks_of. rewrite Ht, <- app_assoc, history_taken.
    destruct (sampler p) as [|img|[e|]]; cbn; by rewrite app_nil_r.
Qed.
End Traces.

(** ** Properties *)

(** C22. No image is lost or duplicated between the goroutines: in
    every state the composition can reach, the images captured are the
    images the recording function has received, in the same order, and
    the one the sampler is sending; and once the recording function has
    returned the context is cancelled. *)
Theorem no_image_lost ls p :
  steps start ls p ->
  captured p = received p ++ in_flight (sampler p) /\
  (recorder p = Left -> ctx_closed p = true).
Proof. intros Hs. by apply (steps_pipe_inv start ls p start_pipe_inv). Qed.


(** C24. The cancellation does not win the race with a tick: with the
    context cancelled and both goroutines at their [select], the
    sampler can still take a tick and the recording function can still
    take the image. *)
Theorem image_after_cancellation p img :
  sampler p = AtSelect -> recorder p = Receiving -> ctx_closed p = true ->
  exists q, steps p [Capture (inr img); Handoff img true] q /\
    received q = received p ++ [img] /\ ctx_closed q = true.
Proof.
  destruct p as [c s r cap rec]. cbn. intros -> -> ->. eexists. split.
  - apply steps_run. cbn. rewrite decide_True by done. reflexivity.
  - done.
Qed.

(** A failed capture strands the recording function: the sampler
    has ended, the context is not cancelled, and nothing can happen
    but the operator's interrupt. *)
Theorem capture_error_strands_recorder p e l q :
  sampler p = Ended (Some e) -> recorder p = Receiving -> ctx_closed p = false ->
  step p l q -> l = Sigint.
Proof.
  destruct p as [c s r cap rec]. cbn. intros -> -> -> Hs.
  by step_inv.
Qed.

(** C25. A sampler that is sending when the recording function has
    returned stays there: no step of the composition completes its
    send. *)
Theorem abandoned_sampler_blocked p img l q :
  sampler p = Sending img -> recorder p = Left ->
  step p l q -> sampler q = Sending img /\ recorder q = Left.
Proof.
  destruct p as [c s r cap rec]. cbn. intros -> -> Hs.
  by step_inv.
Qed.

(** ** Witnesses *)

Lemma no_image_lost_witness :
  [shot; shot] = [shot] ++ in_flight (Sending shot) /\
  (Left = Left -> true = true).
Proof.
  apply (no_image_lost abandoned (mkPipe true (Sending shot) Left [shot; shot] [shot])).
  apply steps_run. vm_compute. reflexivity.
Defined.


Lemma image_after_cancellation_witness :
  exists q, steps (mkPipe true AtSelect Receiving [] [])
              [Capture (inr shot); Handoff shot true] q /\
    received q = [] ++ [shot] /\ ctx_closed q = true.
Proof.
  apply (image_after_cancellation (mkPipe true AtSelect Receiving [] []) shot);
    reflexivity.
Defined.

Lemma capture_error_strands_recorder_witness : Sigint = Sigint.
Proof.
  apply (capture_error_strands_recorder
           (mkPipe false (Ended (Some capture_error)) Receiving [shot] [shot])
           capture_error Sigint
           (mkPipe true (Ended (Some capture_error)) Receiving [shot] [shot]));
    [reflexivity | reflexivity | reflexivity |].
  apply (step_sigint (mkPipe false (Ended (Some capture_error)) Receiving [shot] [shot])).
Defined.

Lemma abandoned_sampler_blocked_witness :
  Sending shot = Sending shot /\ Left = Left.
Proof.
  apply (abandoned_sampler_blocked
           (mkPipe true (Sending shot) Left [shot; shot] [shot]) shot Sigint
           (mkPipe true (Sending shot) Left [shot; shot] [shot]));
    [reflexivity | reflexivity |].
  apply (step_sigint (mkPipe true (Sending shot) Left [shot; shot] [shot])).
Defined.
