(* ===== verification/Teardown.v ===== *)
(** * Teardown: the deferred calls of a session

    What the deferred calls of [StartScreenRecording] do when the
    function leaves its loop: the packets are released, the signal
    context is stopped, the trailer is attempted once, and the output
    file, the encoder context and the container are released, in that
    order.  What is left in the heap is what the function started with
    and the frames of the images it took ([leaked]); the packets in the
    container are the ones the loop has written. *)

From stdpp Require Import gmap strings.
From S2P Require Import Prelude GoLang Rational Clock Astiav Logging Converter Encoder Recorder Loop.

Local Open Scope Z_scope.
Local Open Scope go_scope.

(** ** Definitions *)

(** The heap without the objects at [hs]. *)
Definition drop (hs : list Handle) (hp : Heap) : Heap :=
  fold_left (fun m h => delete h m) hs hp.

(** The handle holds a packet, or nothing. *)
Definition packet_or_none (hp : Heap) (h : Handle) : Prop :=
  match hp !! h with
  | Some (OPacket _) | None => True
  | Some _ => False
  end.

Section Facts.
Context (hp0 : Heap) (n0 : Handle).

(** What the allocations of the loop have left. *)
Record grown_facts (nx : Handle) (rest : Heap) (pkts : list Handle)
    (frames : list (Handle * Frame)) : Prop := {
  gf_le : (n0 <= nx)%positive;
  gf_fresh : fresh_from rest nx;
  gf_fresh_leaked : fresh_from (leaked frames hp0) nx;
  gf_packets : forall p : Handle, p ∈ pkts ->
    (exists P, rest !! p = Some (OPacket P)) /\ leaked frames hp0 !! p = None /\
    (n0 <= p)%positive;
  gf_kept : forall h : Handle, h ∉ pkts -> rest !! h = leaked frames hp0 !! h;
  gf_old : forall h : Handle, (h < n0)%positive -> leaked frames hp0 !! h = hp0 !! h;
  gf_frames : forall h : Handle, h ∈ frames.*1 -> (n0 <= h < nx)%positive;
  gf_nodup : NoDup frames.*1
}.
End Facts.

Section Finish.
Context {O : Type} `{AvLib O}.
Context (filename : string) (width height fps : Z) (tb : Rational) (n : Handle).
Context (hp0 : Heap) (pts : Z).

(** The container once the deferred closure has run. *)
Definition closed_container (ok : bool) (written : list Packet) : FormatContext :=
  mkFormatContext filename 0 (Some (ioCtx (session_at n))) [videoStream (session_at n)]
    (if ok then TrailerWritten else Aborted) written.

(** The last line of the output. *)
Definition trailer_line (r : option error) : Sink * string * option error :=
  match r with
  | None => (FmtPrintln, "Stopping Screen recording!"%string, None)
  | Some e => (FmtPrintln, "Error writing trailer:"%string, Some e)
  end.

Definition stopped_env : Env := mkEnv (Some LogLevelDebug) true true false.

(** The world [w'] after the deferred calls of a session have run from
    [w]: only the frames are left of what the session allocated; the
    encoder context and the container have been released, the
    container with its trailer written or aborted, holding the packets
    of the encoder that were passed on to it. *)
Definition finished (sent : list Frame) (handed written : list Packet)
    (frames : list (Handle * Frame)) (w w' : World O) : Prop :=
  exists r,
    heap w' = leaked frames hp0 /\
    released w' = released w ++
      [OCodecContext (opened_context width height fps sent handed);
       OFormatContext (closed_container (bool_decide (r = None)) written)] /\
    out w' = out w ++ [trailer_line r] /\
    env w' = stopped_env /\ faults w' = faults w /\ next w' = next w /\
    sent_ok pts sent frames /\ passed_on tb handed written /\
    NoDup frames.*1 /\ (forall h : Handle, h ∈ frames.*1 -> hp0 !! h = None) /\
    wf w'.
End Finish.

(** ** Lemmas *)

Section Drop.
Implicit Types (hp : Heap) (h : Handle) (hs : list Handle).

Lemma lookup_drop hs hp h :
  drop hs hp !! h = if decide (h ∈ hs) then None else hp !! h.
Proof.
  revert hp. induction hs as [|g hs IH]; intros hp; cbn [drop fold_left].
  - by rewrite decide_False by apply not_elem_of_nil.
  - fold (drop hs (delete g hp)). rewrite IH.
    destruct (decide (h = g)) as [->|Hne].
    + rewrite lookup_delete_eq, (decide_True (P := g ∈ g :: hs)) by (apply elem_of_cons; by left).
      by destruct (decide (g ∈ hs)).
    + rewrite lookup_delete_ne by done.
      destruct (decide (h ∈ hs)); [by rewrite decide_True by (apply elem_of_cons; by right)|].
      by rewrite decide_False by (by intros [?|?]%elem_of_cons).
Qed.

Lemma packet_or_none_delete hp g h :
  packet_or_none hp h -> packet_or_none (delete g hp) h.
Proof.
  unfold packet_or_none. destruct (decide (h = g)) as [->|Hne].
  - by rewrite lookup_delete_eq.
  - by rewrite lookup_delete_ne.
Qed.
End Drop.

Section Release.
Context {O : Type} `{AvLib O}.

Lemma exec_free_packet h (w : World O) :
  packet_or_none (heap w) h ->
  exec (Free h) w = (tt, set_heap (delete h (heap w)) w).
Proof.
  unfold packet_or_none. intros Hh. destruct w as [hp nx o fl ou rl ev].
  cbn [heap] in *. unfold exec, pre_op, effect_op, buried, obj_at. cbn [heap].
  destruct (hp !! h) as [[]|]; try done; cbn; by rewrite app_nil_r.
Qed.

Lemma free_packets pkts (w : World O) :
  Forall (packet_or_none (heap w)) pkts ->
  run_defers run_deferred (DFree <$> pkts) w = set_heap (drop pkts (heap w)) w.
Proof.
  revert w. induction pkts as [|p pkts IH]; intros w Hall.
  - by destruct w.
  - apply Forall_cons_1 in Hall as [Hp Hall']. cbn [fmap list_fmap].
    rewrite run_defers_cons. cbn [run_deferred]. rewrite exec_free_packet by done.
    cbn [snd]. destruct w as [hp nx o fl ou rl ev]. rewrite IH; [done|].
    cbn [heap set_heap]. eapply Forall_impl; [|exact Hall'].
    intros h Hh. by apply packet_or_none_delete.
Qed.

Lemma write_trailer_run fc (w : World O) :
  (func run_none (write_trailer fc) w).2 =
    match attempt (WriteTrailer fc) w with
    | (Some e, w1) => (Println FmtPrintln "Error writing trailer:" (Some e) w1).2
    | (None, w1) => (Println FmtPrintln "Stopping Screen recording!" None w1).2
    end.
Proof.
  unfold func, write_trailer, bind, lift, if_err, return_, ret.
  destruct (attempt (WriteTrailer fc) w) as [[e|] w1]; reflexivity.
Qed.
End Release.

Section Grown.
Context (hp0 : Heap) (n0 : Handle) (Hfresh : fresh_from hp0 n0).

Local Abbreviation grown_facts := (grown_facts hp0 n0).

Lemma grown_facts_frame nx rest pkts frames h F :
  grown_facts nx rest pkts frames -> (nx <= h)%positive ->
  grown_facts (Pos.succ h) (<[h := OFrame F]> rest) pkts ((h, F) :: frames).
Proof.
  intros [Hn Hf Hfl Hp Hk Ho Hfr Hnd] Hle.
  assert (forall p, p ∈ pkts -> p <> h) as Hne.
  { intros p (? & Hnone & _)%Hp ->. rewrite Hf in H; [by destruct H|lia]. }
  split; cbn [leaked foldr fst snd fmap list_fmap].
  - lia.
  - apply fresh_from_insert; [|lia]. eapply fresh_from_weaken; [done|lia].
  - apply fresh_from_insert; [|lia]. eapply fresh_from_weaken; [done|lia].
  - intros p Hin. rewrite !lookup_insert_ne by (by apply not_eq_sym, Hne). by apply Hp.
  - intros g Hg. destruct (decide (g = h)) as [->|].
    + by rewrite !lookup_insert_eq.
    + rewrite !lookup_insert_ne by done. by apply Hk.
  - intros g Hg. rewrite lookup_insert_ne by lia. by apply Ho.
  - intros g [->|Hg%Hfr]%elem_of_cons; lia.
  - apply list.NoDup_cons. split; [|done]. intros ?%Hfr. lia.
Qed.

Lemma grown_facts_packet nx rest pkts frames h P :
  grown_facts nx rest pkts frames -> (nx <= h)%positive ->
  grown_facts (Pos.succ h) (<[h := OPacket P]> rest) (h :: pkts) frames.
Proof.
  intros [Hn Hf Hfl Hp Hk Ho Hfr Hnd] Hle.
  split; [| | | | | | |done].
  - lia.
  - apply fresh_from_insert; [|lia]. eapply fresh_from_weaken; [done|lia].
  - eapply fresh_from_weaken; [done|lia].
  - intros p [->|Hin]%elem_of_cons.
    + rewrite lookup_insert_eq. split; [by eexists|]. split; [apply Hfl|]; lia.
    + destruct (Hp p Hin) as ([P' HP'] & ? & ?).
      rewrite lookup_insert_ne; [by eauto|]. intros ->. rewrite Hf in HP'; [done|lia].
  - intros g Hg. apply not_elem_of_cons in Hg as [? ?].
    rewrite lookup_insert_ne by done. by apply Hk.
  - done.
  - intros g Hg%Hfr. lia.
Qed.

Lemma grown_inv nx rest pkts frames :
  grown hp0 n0 nx rest pkts frames -> grown_facts nx rest pkts frames.
Proof.
  induction 1 as [|??????? IH ?|??????? IH ?|?????? IH ?].
  - split; try done; try lia; try by intros p ?%elem_of_nil. constructor.
  - by eapply grown_facts_frame.
  - by eapply grown_facts_packet.
  - destruct IH as [Hn Hf Hfl Hp Hk Ho Hfr Hnd].
    split; [lia | | | done | done | done | | done].
    + eapply fresh_from_weaken; [done|lia].
    + eapply fresh_from_weaken; [done|lia].
    + intros g Hg%Hfr. lia.
Qed.
End Grown.

Section Session.
Context {O : Type} `{AvLib O}.
Context (filename : string) (width height fps : Z) (tb : Rational) (n : Handle).
Context (hp0 : Heap) (pts : Z).
Context (Hfresh0 : fresh_from hp0 n).

Local Abbreviation s := (session_at n).
Local Abbreviation sheap := (session_heap filename width height fps tb (session_at n)).
Local Abbreviation io := (Pos.succ (Pos.succ (Pos.succ n))).
Local Abbreviation at_loop := (at_loop filename width height fps tb n hp0 pts).

Lemma session_drop state sent handed written nx rest pkts frames :
  grown hp0 (Pos.succ io) nx rest pkts frames ->
  Forall (packet_or_none (sheap state sent handed written rest)) pkts /\
  drop pkts (sheap state sent handed written rest)
    = sheap state sent handed written (leaked frames hp0).
Proof.
  intros Hg. apply (grown_inv hp0 (Pos.succ io)) in Hg as [Hn Hf Hfl Hp Hk Ho _ _];
    [|eapply fresh_from_weaken; [done|lia]].
  unfold session_heap, session_at; cbn [encCtx videoStream outputCtx ioCtx]. split.
  - apply list.Forall_forall. intros p Hin. destruct (Hp p Hin) as ([P HP] & _ & ?).
    unfold packet_or_none. rewrite !lookup_insert_ne by lia. by rewrite HP.
  - apply map_eq. intros h. rewrite lookup_drop. destruct (decide (h ∈ pkts)) as [Hin|Hin].
    + destruct (Hp h Hin) as (_ & ? & ?). by rewrite !lookup_insert_ne by lia.
    + rewrite !lookup_insert. repeat case_decide; try done. by apply Hk.
Qed.

Lemma teardown_spec cd sent handed written frames (w : World O) ds :
  at_loop cd sent handed written frames w ds -> cd = [] \/ cd = [DCtxDone] ->
  finished filename width height fps tb n hp0 pts sent handed written frames w
    (run_defers run_deferred ds w).
Proof.
  intros (state & rest & pkts & Hh & Hst & Hg & -> & Hsent & [Hwr _] & Hev) Hcd.
  assert (run_defers run_deferred cd w = w) as Hcdw by (by destruct Hcd as [-> | ->]).
  destruct (session_drop state sent handed written _ _ _ _ Hg) as [Hall Hdrop].
  pose proof (grown_inv hp0 (Pos.succ io) ltac:(eapply fresh_from_weaken; [done|lia]) _ _ _ _ Hg)
    as [_ _ Hfl _ _ Ho Hfr Hnd].
  assert (forall h : Handle, h ∈ frames.*1 -> hp0 !! h = None) as Hnew
    by (intros h ?%Hfr; apply Hfresh0; lia).
  rewrite !run_defers_app, Hcdw, free_packets by (by rewrite Hh).
  destruct w as [hp nx o fl ou rl ev]. cbn [heap env] in *. subst hp ev.
  cbn [set_heap heap next lib faults out released env]. rewrite Hdrop.
  set (kept := leaked frames hp0) in *.
  assert (forall h : Handle, (n <= h < Pos.succ io)%positive -> kept !! h = None) as Hk
    by (intros h ?; rewrite Ho by lia; apply Hfresh0; lia).
  pose proof (Hk n ltac:(lia)). pose proof (Hk (Pos.succ n) ltac:(lia)).
  pose proof (Hk (Pos.succ (Pos.succ n)) ltac:(lia)). pose proof (Hk io ltac:(lia)).
  unfold base_defers, recording_env. session_unfold.
  cbn [run_defers fold_left run_deferred set_heap heap next lib faults out released env].
  rewrite write_trailer_run. repeat go_lift.
  - exists (Some e). cbn [heap released out env faults next].
    repeat split; try done; try apply Hsent; try apply Hwr. by rewrite <- app_assoc.
  - exists None. cbn [heap released out env faults next].
    repeat split; try done; try apply Hsent; try apply Hwr. by rewrite <- app_assoc.
Qed.
End Session.
