(* ===== verification/Recording.v ===== *)
(** * Recording: what [StartScreenRecording] does, from call to exit

    The specification of the whole function, composed of the set-up
    ([Recorder.setup_spec]), the loop ([Loop.loop_spec]) and the deferred
    calls ([Teardown.teardown_spec]).  The function leaves in one of
    four ways: the set-up failed ([setup_failed]); the clock panicked on
    a frame rate of zero ([panicked]); the loop was left by the
    cancellation or by a failure, and the deferred calls ran
    ([recorded]); or it is blocked in its loop ([blocked]).  A
    recording stores what the encoder handed out ([stored]): every
    packet, or every packet but the last when its write failed and was
    reported.  The lemmas at the end of the file are what follows for
    every outcome ([recording_post_wf], [recording_post_faults]) and
    for a clean stop ([clean_stop]). *)

From stdpp Require Import gmap strings.
From S2P Require Import Prelude GoLang Rational Clock Astiav Logging Converter Encoder Recorder Loop Teardown.

Local Open Scope Z_scope.
Local Open Scope go_scope.

(** ** The postcondition *)

Section Post.
Context {O : Type} `{AvLib O}.
Context (fuel : nat) (events : list Event) (filename : string) (width height fps : Z).

(** The set-up failed: the failure is reported and everything the
    function allocated is released. *)
Definition setup_failed (w w' : World O) : Prop :=
  faults w' = faults w /\ heap w' = heap w /\ wf w' /\
  exists l msg e, In msg setup_reports /\
    out w' = out w ++ l ++ [(FmtPrintln, msg, e)].

(** [sent] is what the encoder is given for the first images of the
    events: the conversion of each, stamped by the clock. *)
Definition submitted (pts : Z) (sent : list Frame) : Prop :=
  (length sent <= images_taken events)%nat /\
  sent = encoded_from pts frameNumber0 (take (length sent) (images_of events)).

(** The container holds the packets the encoder handed out, rescaled,
    as far as they were written: all of them, unless the last line of
    the loop reports the failed write of a packet. *)
Definition stored (tb : Rational) (l : list (Sink * string * option error))
    (handed written : list Packet) : Prop :=
  passed_on tb handed written /\
  (written = to_stream tb <$> handed \/
   exists l0 e, l = l0 ++ [(FmtPrintln, "error writing packet:"%string, e)]).

(** The function left its loop and ran its deferred calls. *)
Definition recorded (w w' : World O) : Prop :=
  exists tb pts sent handed written frames r l,
    pts_increment fps = Some pts /\
    (heap w' = leaked frames (heap w) /\ wf w') /\
    sent_ok pts sent frames /\
    NoDup frames.*1 /\ (forall h : Handle, h ∈ frames.*1 -> heap w !! h = None) /\
    stored tb l handed written /\
    submitted pts sent /\
    released w' = released w ++
      [OCodecContext (opened_context width height fps sent handed);
       OFormatContext (closed_container filename (next w) (bool_decide (r = None)) written)] /\
    env w' = stopped_env /\
    out w' = out w ++ l ++ [trailer_line r] /\
    ((cancelled events = true /\ length sent = images_taken events /\ l = [] /\
      faults w' = faults w) \/
     ((faults w' = faults w \/
       send_fault width height fps pts (images_of events) (images_taken events) w w') /\
      exists l0 msg e, In msg image_reports /\ l = l0 ++ [(FmtPrintln, msg, e)])).

(** The division of the clock panicked: the file has a header and a
    trailer and nothing in between. *)
Definition panicked (w w' : World O) : Prop :=
  pts_increment fps = None /\
  exists r,
    heap w' = heap w /\
    released w' = released w ++
      [OCodecContext (opened_context width height fps [] []);
       OFormatContext (closed_container filename (next w) (bool_decide (r = None)) [])] /\
    env w' = stopped_env /\ out w' = out w ++ [trailer_line r] /\
    faults w' = faults w /\ wf w'.

(** The function is blocked in its loop: nothing is released. *)
Definition blocked (w w' : World O) : Prop :=
  exists tb pts sent handed written frames ds,
    pts_increment fps = Some pts /\
    at_loop filename width height fps tb (next w) (heap w) pts [] sent handed written frames w' ds /\
    released w' = released w /\ faults w' = faults w /\ out w' = out w /\
    ((cancelled events = false /\ length sent = images_taken events) \/
     (fuel <= length written)%nat).

(** The last line of the output is the one of the deferred closure:
    the trailer was attempted. *)
Definition finalised (w' : World O) : Prop :=
  exists r, list.last (out w') = Some (trailer_line r).

Definition recording_post (w : World O) (r : Exit unit) (w' : World O) : Prop :=
  match r with
  | Returned tt => setup_failed w w' \/ recorded w w'
  | Panicked msg =>
      msg = "runtime error: integer divide by zero"%string /\ panicked w w'
  | Blocked => blocked w w'
  end.
End Post.

(** ** Inputs of the witnesses

    A world whose encoder has a packet ready after the first image and
    one after the second; a world whose container cannot be allocated;
    a world whose encoder has three packets ready at once; and sequences
    of events with and without the cancellation. *)

Definition pk (n : Z) : Packet := mkPacket n n 1 100 None.

Definition w_rec : World Script :=
  init_world (mkScript [] [inr (pk 0); inl ErrEagain; inr (pk 3000)] None).

Definition w_no_container : World Script :=
  init_world (mkScript [Some (AvError (-12))] [] None).

Definition w_eager : World Script :=
  init_world (mkScript [] [inr (pk 0); inr (pk 3000); inr (pk 6000)] None).

(** A world whose muxer gives the stream a time base twice as fine as
    the encoder's, and one where the first write of a packet fails. *)
Definition tb_180k : Rational := NewRational 1 180000.

Definition w_fine : World Script :=
  init_world (mkScript [] [inr (pk 0); inl ErrEagain; inr (pk 3000)] (Some tb_180k)).

Definition w_write_fails : World Script :=
  init_world (mkScript (replicate 16 None ++ [Some (AvError (-5))])
                [inr (pk 0); inr (pk 3000)] None).

Definition three_images : list Event :=
  [EvImage img_2x2; EvImage img_2x2; EvImage img_2x2; EvDone].

Definition two_images : list Event := [EvImage img_2x2; EvImage img_2x2].

(** The converted image with a timestamp. *)
Definition stamped (pts : Z) : Frame :=
  mkFrame 2 2 PixelFormatYuv420P pts true false (f_data (converted_frame img_2x2)).

(** The runs of the witnesses: a recording of three images ended by the
    cancellation; one at a frame rate of zero; one whose set-up fails;
    one at a frame rate above the time base, never cancelled; and one
    whose inner loop has fuel for two packets where three are ready. *)
Definition run_three : Exit unit * World Script :=
  StartScreenRecording 5 three_images "out.mp4" 2 2 30 w_rec.
Definition run_zero : Exit unit * World Script :=
  StartScreenRecording 5 three_images "out.mp4" 2 2 0 w_rec.
Definition run_no_container : Exit unit * World Script :=
  StartScreenRecording 5 three_images "out.mp4" 2 2 30 w_no_container.
Definition run_fast : Exit unit * World Script :=
  StartScreenRecording 5 two_images "out.mp4" 2 2 90001 w_rec.
Definition run_eager : Exit unit * World Script :=
  StartScreenRecording 2 three_images "out.mp4" 2 2 30 w_eager.

(** A recording into the finer time base, with the encoder context and
    the container it releases; and one whose first packet is lost. *)
Definition run_fine : Exit unit * World Script :=
  StartScreenRecording 5 three_images "out.mp4" 2 2 30 w_fine.

Definition fine_encoder : CodecContext :=
  opened_context 2 2 30 [stamped 0; stamped 3000; stamped 6000]
    [stamped_in encoder_tb (pk 0); stamped_in encoder_tb (pk 3000)].

Definition fine_container : FormatContext :=
  closed_container "out.mp4" 1%positive true
    [mkPacket 0 0 2 100 (Some tb_180k); mkPacket 6000 6000 2 100 (Some tb_180k)].

Definition run_write_fails : Exit unit * World Script :=
  StartScreenRecording 5 three_images "out.mp4" 2 2 30 w_write_fails.

(** ** The specification *)

Section RecordingSpec.
Context {O : Type} `{AvLib O}.
Context (fuel : nat) (events : list Event) (filename : string) (width height fps : Z).

(** The loop starts at [at_loop]. *)
Lemma at_loop_start tb pts (w w1 : World O) :
  heap w1 = session_heap filename width height fps tb (session_at (next w))
              HeaderWritten [] [] [] (heap w) ->
  next w1 = Pos.succ (ioCtx (session_at (next w))) -> env w1 = recording_env ->
  at_loop filename width height fps tb (next w) (heap w) pts [] [] [] [] [] w1
    (base_defers (session_at (next w))).
Proof.
  intros Hh Hn Hev. exists HeaderWritten, (heap w), [].
  rewrite Hn. split; [done|]. split; [done|]. split; [by constructor|].
  split; [done|]. split; [by split|]. split; [apply delivered_nil|done].
Qed.

Lemma loop_post_from tb n hp0 pts sent written (w1 w2 : World O) c w' ds :
  faults w1 = faults w2 -> out w1 = out w2 -> released w1 = released w2 ->
  loop_post filename width height fps tb n hp0 pts fuel sent written events w1 c w' ds ->
  loop_post filename width height fps tb n hp0 pts fuel sent written events w2 c w' ds.
Proof. unfold loop_post, send_fault, write_failed. by intros -> -> ->. Qed.

Lemma recorded_of tb pts (w w2 w' : World O) ds :
  wf w -> pts_increment fps = Some pts ->
  loop_post filename width height fps tb (next w) (heap w) pts fuel [] [] events w
    (Return tt) w2 ds ->
  w' = run_defers run_deferred ds w2 ->
  recorded events filename width height fps w w'.
Proof.
  intros Hwf Hpts
    [Hrl (cd' & sent' & handed' & written' & frames' & Hat & [_ Hw] & (k & Hk & Hs) & Hc)] ->.
  assert (cd' = [] \/ cd' = [DCtxDone]) as Hcd by (destruct Hc as [[-> _]|[-> _]]; auto).
  destruct (teardown_spec _ _ _ _ _ _ _ _ Hwf _ _ _ _ _ _ _ Hat Hcd)
    as (r & Hh & Hrel & Hout & Hev & Hfl & Hnx & Hsent & Hwr & Hnd & Hnew & Hwf').
  rewrite Hrl in Hrel. cbn [length Nat.add app Nat.iter] in *.
  assert (submitted events pts sent') as Hsub.
  { pose proof (encoded_from_take _ _ _ _ _ Hk Hs) as Hlen.
    split; [lia|by rewrite Hlen]. }
  assert (stored tb (skipn (length (out w)) (out w2)) handed' written') as Hst.
  { split; [done|]. destruct Hw as [?|(l1 & e1 & Ho)]; [by left|right].
    exists l1, e1. by rewrite Ho, drop_app_length. }
  unfold recorded, send_fault in *.
  destruct Hc as [(-> & Hca & Hl & Hf2 & Ho2)|(-> & Hf2 & l0 & msg & e & Hin & Ho2)];
    rewrite Ho2 in Hout, Hst; rewrite <- Hfl in Hf2.
  - exists tb, pts, sent', handed', written', frames', r, [].
    rewrite drop_all in Hst.
    repeat split; try done; try apply Hsent; try apply Hst.
    all: try apply Hsub. all: left; by repeat split.
  - exists tb, pts, sent', handed', written', frames', r, (l0 ++ [(FmtPrintln, msg, e)]).
    rewrite drop_app_length in Hst.
    repeat split; try done; try apply Hsent; try apply Hst. all: try apply Hsub.
    all: try (by rewrite Hout, <- !app_assoc).
    all: right; split; [done|]; by exists l0, msg, e.
Qed.

Lemma recording_spec (w : World O) :
  wf w ->
  recording_post fuel events filename width height fps w
    (StartScreenRecording fuel events filename width height fps w).1
    (StartScreenRecording fuel events filename width height fps w).2.
Proof.
  intros Hwf. unfold StartScreenRecording. apply wp_func.
  unfold StartScreenRecording_body. apply wp_bind.
  eapply wp_mono; [by apply setup_spec|].
  intros c w1 ds Hc. destruct c as [s|[]|?|]; try done.
  - destruct Hc as (-> & -> & Hfl & Hout & Hrl & Hev & Hnx & tb & Hh).
    pose proof (at_loop_start tb 0 w w1 Hh Hnx Hev) as Hat0.
    apply wp_bind, wp_lift. cbn [go_capture fst snd].
    apply wp_bind. unfold start_clock. destruct (pts_increment fps) as [pts|] eqn:Hpts.
    + apply wp_ret.
      pose proof (at_loop_start tb pts w w1 Hh Hnx Hev) as Hat.
      eapply wp_mono; [by eapply (loop_spec _ _ _ _ _ _ _ _ Hwf fuel events [])|].
      intros c w2 ds2 Hpost%(loop_post_from _ _ _ _ _ _ _ w); [|done..].
      destruct Hpost as (Hrl2 & cd & sent & handed & written & frames & Hat2 & Hpre & Hlen & Hc).
      destruct c as [?|[]|?|]; try done.
      * right. eapply recorded_of; [done..| |done]. split; [done|]. by eauto 10.
      * destruct Hc as (-> & ? & ? & Hb).
        exists tb, pts, sent, handed, written, frames, ds2. by repeat split.
    + apply wp_panic. cbn [exit_of]. split; [done|]. split; [done|].
      destruct (teardown_spec _ _ _ _ _ _ _ _ Hwf _ _ _ _ _ _ _ Hat0 (or_introl eq_refl))
        as (r & ? & Hrel & Ho & ? & ? & ? & _ & _ & _ & _ & ?).
      exists r. cbn [leaked foldr] in *. rewrite Hrl in Hrel. rewrite Hout in Ho.
      repeat split; try done. congruence.
  - destruct Hc as (Hfl & Hh & Hwf' & Hout). left. by repeat split.
Qed.
End RecordingSpec.

(** ** Consequences of the specification *)

Section Leaked.
Implicit Types (hp : Heap) (frames : list (Handle * Frame)).

(** What is in the heap with the leaked frames: what was in the heap,
    or one of the frames. *)
Lemma leaked_lookup frames hp h o :
  leaked frames hp !! h = Some o ->
  hp !! h = Some o \/ exists F, (h, F) ∈ frames /\ o = OFrame F.
Proof.
  induction frames as [|[g F] frames IH]; cbn [leaked foldr fst snd]; [by left|].
  destruct (decide (g = h)) as [->|Hne].
  - rewrite lookup_insert_eq. intros [= <-]. right. exists F.
    split; [|done]. apply elem_of_cons; by left.
  - rewrite lookup_insert_ne by done. intros [?|(F' & ? & ?)]%IH; [by left|].
    right. exists F'. split; [|done]. apply elem_of_cons; by right.
Qed.

(** Each of the frames is in the heap, at its handle. *)
Lemma leaked_frame frames hp h F :
  NoDup frames.*1 -> (h, F) ∈ frames -> leaked frames hp !! h = Some (OFrame F).
Proof.
  induction frames as [|[g G] frames IH]; cbn [leaked foldr fst snd fmap list_fmap].
  - by intros _ ?%elem_of_nil.
  - intros [Hg Hnd]%list.NoDup_cons [[= -> ->]|Hin]%elem_of_cons.
    + by rewrite lookup_insert_eq.
    + rewrite lookup_insert_ne; [by apply IH|]. intros ->. apply Hg.
      apply list_elem_of_fmap. by exists (h, F).
Qed.
End Leaked.

Section Accepted.
Context {O : Type} `{AvLib O}.
Context (width height fps pts : Z).
Context (Hfps : 0 < fps <= timeBaseFrequency) (Hpts : pts_increment fps = Some pts).

(** With a positive increment the encoder accepts the timestamp of
    every frame: it is above the one before. *)
Lemma stamps_accepted sent F :
  Z.of_nat (length sent) <= max_exact_frame ->
  f_pts <$> sent = stamps_from pts frameNumber0 (length sent) ->
  f_pts F = frame_pts (Nat.iter (length sent) next_frame frameNumber0) pts ->
  pts_increases (opened_context width height fps sent []) F = true.
Proof.
  intros Hlen Hst HF. unfold pts_increases. cbn [cc_sent opened_context].
  destruct (list.last sent) as [prev|] eqn:Hlast; [|done].
  apply last_Some in Hlast as [l ->].
  rewrite length_app, Nat.add_1_r in *. rewrite stamps_from_snoc, fmap_app in Hst.
  apply app_inj_tail in Hst as [_ Hprev].
  assert (max_exact_frame <= int64_max) by (by vm_compute).
  rewrite iter_next_frame in Hprev, HF by lia.
  rewrite Hprev, HF. apply Z.ltb_lt.
  eapply frame_pts_lt; [done..|lia|lia|lia].
Qed.

(** The encoder accepts the frame of an image of its size, stamped by
    the clock. *)
Lemma frame_accepted sent img :
  Z.of_nat (length sent) <= max_exact_frame ->
  f_pts <$> sent = stamps_from pts frameNumber0 (length sent) ->
  sized width height img ->
  ~ refused width height fps sent
      (encoded pts (Nat.iter (length sent) next_frame frameNumber0) img).
Proof.
  intros Hlen Hst Hsz. unfold refused, accepts.
  rewrite stamps_accepted, encoded_fits; done.
Qed.

Lemma no_send_fault imgs bound (w w' : World O) :
  Forall (sized width height) imgs -> Z.of_nat bound <= max_exact_frame ->
  ~ send_fault width height fps pts imgs bound w w'.
Proof.
  intros Hsz Hb (sent & c & img & Hlt & Hst & Hin & Href & _).
  eapply frame_accepted; [| | |done]; [lia|done|].
  by eapply list.Forall_forall in Hsz.
Qed.
End Accepted.

Section Exits.
Context {O : Type} `{AvLib O}.
Context (fuel : nat) (events : list Event) (filename : string) (width height fps : Z).

Lemma recording_exit (w : World O) r w' :
  wf w -> StartScreenRecording fuel events filename width height fps w = (r, w') ->
  recording_post fuel events filename width height fps w r w'.
Proof.
  intros Hwf Hrun.
  pose proof (recording_spec fuel events filename width height fps w Hwf) as Hs.
  by rewrite Hrun in Hs.
Qed.

(** No outcome of the function leaves a world that is not well formed. *)
Lemma recording_post_wf (w : World O) r w' :
  wf w -> recording_post fuel events filename width height fps w r w' -> wf w'.
Proof.
  intros Hwf. destruct r as [[]|msg|]; cbn [recording_post]; intros Hp.
  - destruct Hp as [Hs|(tb & pts & sent & handed & written & frames & r & l & _ & [_ Hw] & _)];
      [apply Hs|done].
  - by destruct Hp as (_ & _ & r & ? & ? & ? & ? & ? & ?).
  - destruct Hp as (tb & pts & sent & handed & written & frames & ds & _ & Hat & _).
    by eapply at_loop_wf.
Qed.

(** No outcome of the function has a call that violated the contract,
    at a frame rate the time base expresses and while the frame numbers
    are exact. *)
Lemma recording_post_faults (w : World O) r w' :
  0 < fps <= timeBaseFrequency -> Z.of_nat (images_taken events) <= max_exact_frame ->
  Forall (sized width height) (images_of events) ->
  recording_post fuel events filename width height fps w r w' -> faults w' = faults w.
Proof.
  intros Hfps Hn Hsz. destruct r as [[]|msg|]; cbn [recording_post]; intros Hp.
  - destruct Hp as [Hs|(tb & pts & sent & handed & written & frames & r & l & Hpts & Hr)];
      [apply Hs|].
    destruct_hyps; try done. exfalso.
    eapply (no_send_fault width height fps pts); [..|eassumption]; [lia|done|done|done].
  - by destruct Hp as (_ & _ & r & ? & ? & ? & ? & ? & ?).
  - by destruct Hp as (tb & pts & sent & handed & written & frames & ds & ? & ? & ? & ? & _).
Qed.

(** A report of the set-up is not the line of the deferred closure. *)
Lemma setup_report_not_trailer msg e r :
  In msg setup_reports -> (FmtPrintln, msg, e) <> trailer_line r.
Proof. intros Hin Heq. destruct r; injection Heq as -> _; cbn in Hin; by destruct_hyps. Qed.

Lemma setup_failed_last (w w' : World O) :
  setup_failed w w' ->
  exists msg e, In msg setup_reports /\ list.last (out w') = Some (FmtPrintln, msg, e).
Proof.
  intros (_ & _ & _ & l & msg & e & Hin & ->). exists msg, e.
  by rewrite app_assoc, last_snoc.
Qed.

Lemma recorded_last (w w' : World O) :
  recorded events filename width height fps w w' -> finalised w'.
Proof.
  intros (tb & pts & sent & handed & written & frames & r & l & Hr). destruct_hyps.
  all: exists r; match goal with Ho : out _ = _ |- _ => rewrite Ho end.
  all: by rewrite app_assoc, last_snoc.
Qed.

(** A return with the line of the deferred closure last is a return
    from the loop. *)
Lemma returned_finalised (w : World O) w' :
  wf w ->
  StartScreenRecording fuel events filename width height fps w = (Returned tt, w') ->
  finalised w' -> recorded events filename width height fps w w'.
Proof.
  intros Hwf Hrun [r Hr]. destruct (recording_exit w _ _ Hwf Hrun) as [Hs|Hrec]; [|done].
  apply setup_failed_last in Hs as (msg & e & Hin & Hl).
  rewrite Hr in Hl. injection Hl as Hl. by destruct (setup_report_not_trailer msg e r).
Qed.
End Exits.

Section AtLoop.
Context {O : Type} `{AvLib O}.

(** The container of a session holds the packets written so far. *)
Lemma at_loop_written filename width height fps tb n hp0 pts cd sent handed written
    frames (w : World O) ds :
  at_loop filename width height fps tb n hp0 pts cd sent handed written frames w ds ->
  exists fc, format_at (heap w) n = Some fc /\ fc_written fc = written.
Proof.
  intros (state & rest & pkts & Hh & _). rewrite Hh.
  unfold session_heap, session_at, format_at, obj_at.
  cbn [ioCtx videoStream encCtx outputCtx].
  rewrite !lookup_insert_ne by lia. rewrite lookup_insert_eq. by eexists.
Qed.

(** What was in the heap is still there under the leaked frames. *)
Lemma leaked_kept frames (hp : Heap) h o :
  (forall g : Handle, g ∈ frames.*1 -> hp !! g = None) ->
  hp !! h = Some o -> leaked frames hp !! h = Some o.
Proof.
  intros Hnew Hh. induction frames as [|[g F] frames IH];
    cbn [leaked foldr fst snd fmap list_fmap] in *; [done|].
  rewrite lookup_insert_ne.
  - apply IH. intros g' Hg'. apply Hnew, elem_of_cons. by right.
  - intros ->. rewrite Hnew in Hh; [done|]. apply elem_of_cons. by left.
Qed.
End AtLoop.

Section Lines.
Lemma trailer_line_inj r r' : trailer_line r = trailer_line r' -> r = r'.
Proof. destruct r, r'; cbn; congruence. Qed.

Lemma last_line {A} (l k : list A) x y : l ++ k ++ [x] = l ++ [y] -> k = [] /\ x = y.
Proof. intros Heq%app_inv_head. by apply (app_inj_tail k [] x y) in Heq. Qed.

(** Above 90000 frames per second every timestamp is zero. *)
Lemma stamps_from_zero N k : stamps_from 0 N k = replicate k 0.
Proof.
  revert N. induction k as [|k IH]; intros N; [done|].
  cbn [stamps_from replicate]. by rewrite IH, frame_pts_zero.
Qed.
End Lines.

Section CleanStop.
Context {O : Type} `{AvLib O}.
Context (fuel : nat) (events : list Event) (filename : string) (width height fps : Z).

(** Without a report of the loop every packet handed out is stored. *)
Lemma stored_all tb handed written :
  stored tb [] handed written -> written = to_stream tb <$> handed.
Proof. intros [_ [?|(l0 & ? & ?)]]; [done|by destruct l0]. Qed.

(** The encoder context and the container a recording has released:
    what the one handed out is stored in the other. *)
Lemma recorded_packets (w w' : World O) cc fc :
  recorded events filename width height fps w w' ->
  released w' = released w ++ [OCodecContext cc; OFormatContext fc] ->
  exists tb l r,
    stored tb l (cc_handed cc) (fc_written fc) /\
    out w' = out w ++ l ++ [trailer_line r].
Proof.
  intros (tb & pts & sent & handed & written & frames & r & l & _ & _ & _ & _ & _ & Hst &
          _ & Hrl & _ & Hout & _) Hrl'.
  rewrite Hrl in Hrl'. apply app_inv_head in Hrl'. injection Hrl' as <- <-.
  by exists tb, l, r.
Qed.

(** In a recording that has lost a packet the lengths differ by one. *)
Lemma stored_lengths tb l handed written :
  stored tb l handed written ->
  length written = length handed \/
  (length handed = S (length written) /\
   exists l0 e, l = l0 ++ [(FmtPrintln, "error writing packet:"%string, e)]).
Proof.
  intros [Hp [->|Hl]]; [left; by rewrite length_fmap|].
  destruct (passed_on_take _ _ _ Hp) as [_ Hlen].
  destruct (decide (length written = length handed)); [by left|right].
  split; [lia|done].
Qed.

(** A recording that prints nothing but the line of a written trailer
    was ended by the cancellation, after every image was submitted and
    every packet of the encoder written. *)
Lemma clean_stop (w : World O) w' :
  wf w ->
  StartScreenRecording fuel events filename width height fps w = (Returned tt, w') ->
  out w' = out w ++ [(FmtPrintln, "Stopping Screen recording!"%string, None)] ->
  exists tb pts handed,
    pts_increment fps = Some pts /\ cancelled events = true /\ faults w' = faults w /\
    Forall (fun p => p_tb p = Some encoder_tb) handed /\
    released w' = released w ++
      [OCodecContext (opened_context width height fps
                        (encoded_from pts frameNumber0 (images_of events)) handed);
       OFormatContext (closed_container filename (next w) true (to_stream tb <$> handed))].
Proof.
  intros Hwf Hrun Hout.
  assert (finalised w') as Hfin by (exists None; by rewrite Hout, last_snoc).
  destruct (returned_finalised _ _ _ _ _ _ w w' Hwf Hrun Hfin)
    as (tb & pts & sent & handed & written & frames & r & l & Hpts & _ & _ & _ & _ & Hst &
        [_ Hs] & Hrl & _ & Hout' & Hc).
  rewrite Hout' in Hout. apply last_line in Hout as [-> Hr].
  destruct r; [done|]. pose proof (stored_all _ _ _ Hst) as ->.
  destruct Hc as [(? & Hlen & _ & ?)|(_ & l0 & ? & ? & _ & ?)]; [|by destruct l0].
  rewrite Hlen, <- images_of_length, firstn_all in Hs. subst sent.
  exists tb, pts, handed. repeat split; try done. apply Hst.
Qed.
End CleanStop.
