(* ===== verification/Guarantees.v ===== *)
(** * Guarantees: what a recording guarantees, and what it does not

    The properties of [StartScreenRecording] that follow from its
    specification ([Recording.recording_spec]): the contract of the
    library is respected, the world stays well formed, memory is
    released but for the frames, the frames are the conversions of the
    images, stamped by the clock, the container is closed after the
    trailer; the packets the encoder hands out are the packets of the
    file, rescaled, in order, and back in the time base of the encoder
    they are the same packets; the encoder is never flushed; a frame
    rate of zero panics and one above 90000 is refused by the encoder;
    and when the function returns, or does not. *)

From stdpp Require Import gmap strings.
From S2P Require Import Prelude GoLang Rational Clock Astiav Logging Converter Encoder Recorder Loop Teardown Recording.

Local Open Scope Z_scope.
Local Open Scope go_scope.

(** ** Properties *)

Section Properties.
Context {O : Type} `{AvLib O}.
Context (fuel : nat) (events : list Event) (filename : string) (width height fps : Z).

(** C1. For a frame rate from 1 to 90000, up to [max_exact_frame]
    images, each of the size the encoder was configured with,
    [StartScreenRecording] makes no call that violates the contract of
    the library, on any exit and whatever the library answers: every
    handle it uses is live, the header precedes the packets, nothing
    follows the trailer, every packet is written in the time base of
    the stream, and each frame is submitted with the size of the
    encoder and a timestamp above the one before. *)
Theorem recording_respects_contract (w : World O) :
  wf w -> 0 < fps <= timeBaseFrequency ->
  Z.of_nat (images_taken events) <= max_exact_frame ->
  Forall (sized width height) (images_of events) ->
  faults (StartScreenRecording fuel events filename width height fps w).2 = faults w.
Proof.
  intros Hwf Hfps Hn Hsz. eapply recording_post_faults; [done..|].
  by apply recording_spec.
Qed.


(** C3. When [StartScreenRecording] returns, what it found in memory is
    still there, and all it has added is frames: the container, the
    encoder context, the output file, the packets and the intermediate
    objects of the conversions have been released. *)
Theorem recording_releases_all_but_frames (w w' : World O) :
  wf w ->
  StartScreenRecording fuel events filename width height fps w = (Returned tt, w') ->
  (forall h o, heap w !! h = Some o -> heap w' !! h = Some o) /\
  (forall h o, heap w' !! h = Some o ->
     heap w !! h = Some o \/ (heap w !! h = None /\ exists F, o = OFrame F)).
Proof.
  intros Hwf Hrun. destruct (recording_exit _ _ _ _ _ _ w _ _ Hwf Hrun) as [Hs|Hr].
  - destruct Hs as (_ & -> & _). by split; [|left].
  - destruct Hr as (tb & pts & sent & handed & written & frames & r & l & _ & [-> _] & _ & _ & Hnew & _).
    split; [intros h o; by apply leaked_kept|].
    intros h o [?|(F & Hin & ->)]%leaked_lookup; [by left|right].
    split; [|by exists F]. apply Hnew, list_elem_of_fmap. by exists (h, F).
Qed.

(** C19. Every frame the encoder accepted is still allocated when the
    function returns: the frame [ImageRGBAtoAVFrame] hands over is
    never released by [StartScreenRecording], one frame of the size of
    the screen is lost for each image. *)
Theorem submitted_frames_never_released (w w' : World O) :
  wf w ->
  StartScreenRecording fuel events filename width height fps w = (Returned tt, w') ->
  finalised w' ->
  exists sent handed fc,
    released w' = released w ++
      [OCodecContext (opened_context width height fps sent handed); OFormatContext fc] /\
    Forall (fun F => exists h, heap w !! h = None /\ heap w' !! h = Some (OFrame F)) sent.
Proof.
  intros Hwf Hrun Hfin.
  destruct (returned_finalised _ _ _ _ _ _ w w' Hwf Hrun Hfin)
    as (tb & pts & sent & handed & written & frames & r & l & _ & [-> _] & [_ Hsub] & Hnd & Hnew & _ & _ & Hrl & _).
  eexists sent, handed, _. split; [done|]. apply list.Forall_forall. intros F HF.
  apply elem_of_reverse in HF. eapply elem_of_sublist in HF; [|done].
  apply list_elem_of_fmap in HF as ([h F'] & -> & Hin). exists h. split.
  - apply Hnew, list_elem_of_fmap. by exists (h, F').
  - by apply leaked_frame.
Qed.

(** C13. The frames the encoder was given are the conversions of the
    images received, in the order they were received, one frame for
    each of the first images, and they carry the timestamps of the
    clock: [0], [pts], [2 * pts], ... *)
Theorem submitted_frames_are_conversions (w w' : World O) :
  wf w ->
  StartScreenRecording fuel events filename width height fps w = (Returned tt, w') ->
  finalised w' ->
  exists pts sent handed fc,
    pts_increment fps = Some pts /\
    released w' = released w ++
      [OCodecContext (opened_context width height fps sent handed); OFormatContext fc] /\
    (length sent <= images_taken events)%nat /\
    sent = encoded_from pts frameNumber0 (take (length sent) (images_of events)) /\
    f_pts <$> sent = stamps_from pts frameNumber0 (length sent).
Proof.
  intros Hwf Hrun Hfin.
  destruct (returned_finalised _ _ _ _ _ _ w w' Hwf Hrun Hfin)
    as (tb & pts & sent & handed & written & frames & r & l & Hpts & _ & [Hst _] & _ & _ & _ &
        [Hlen Hs] & Hrl & _).
  by eexists pts, sent, handed, _.
Qed.

(** C28. The encoder is released without having been flushed: the
    function never submits the end of the stream, so the packets the
    encoder still holds when the loop is left are not written. *)
Theorem encoder_released_unflushed (w w' : World O) :
  wf w ->
  StartScreenRecording fuel events filename width height fps w = (Returned tt, w') ->
  finalised w' ->
  exists cc fc,
    released w' = released w ++ [OCodecContext cc; OFormatContext fc] /\
    cc_open cc = true /\ cc_flushed cc = false.
Proof.
  intros Hwf Hrun Hfin.
  destruct (returned_finalised _ _ _ _ _ _ w w' Hwf Hrun Hfin)
    as (tb & pts & sent & handed & written & frames & r & l & _ & _ & _ & _ & _ & _ & _ & Hrl & _).
  by eexists _, _.
Qed.
(** C14. On return from the loop the trailer has been attempted once,
    after the last packet, and the container is released in the state
    the attempt left: [TrailerWritten] when the last line of the output
    is "Stopping Screen recording!", [Aborted] when it is the failure of
    the trailer.  Every packet that was written is in the time base of
    the stream, and the signal handler is stopped. *)
Theorem container_closed_after_trailer (w w' : World O) r :
  wf w ->
  StartScreenRecording fuel events filename width height fps w = (Returned tt, w') ->
  list.last (out w') = Some (trailer_line r) ->
  exists cc tb written,
    released w' = released w ++
      [OCodecContext cc;
       OFormatContext (closed_container filename (next w) (bool_decide (r = None)) written)] /\
    Forall (fun p => p_tb p = Some tb) written /\ env w' = stopped_env.
Proof.
  intros Hwf Hrun Hlast.
  destruct (returned_finalised _ _ _ _ _ _ w w' Hwf Hrun (ex_intro _ r Hlast))
    as (tb & pts & sent & handed & written & frames & r' & l & _ & _ & _ & _ & _ &
        [Hall%passed_on_tb _] & _ & Hrl & Hev & Hout & _).
  rewrite Hout, app_assoc, last_snoc in Hlast. injection Hlast as ->%trailer_line_inj.
  by eexists _, tb, written.
Qed.

(** A recording that reports nothing but "Stopping Screen
    recording!" was ended by the cancellation: the encoder was given
    the conversion of every image received before it, in order, the
    trailer is written and no call violated the contract of the
    library. *)
Theorem clean_stop_submits_every_image (w w' : World O) :
  wf w ->
  StartScreenRecording fuel events filename width height fps w = (Returned tt, w') ->
  out w' = out w ++ [(FmtPrintln, "Stopping Screen recording!"%string, None)] ->
  cancelled events = true /\ faults w' = faults w /\
  exists pts handed fc,
    pts_increment fps = Some pts /\
    released w' = released w ++
      [OCodecContext (opened_context width height fps
                        (encoded_from pts frameNumber0 (images_of events)) handed);
       OFormatContext fc] /\
    fc_state fc = TrailerWritten.
Proof.
  intros Hwf Hrun Hout.
  destruct (clean_stop _ _ _ _ _ _ w w' Hwf Hrun Hout)
    as (tb & pts & handed & ? & ? & ? & ? & ?).
  do 2 (split; [done|]). by eexists pts, handed, _.
Qed.

(** C29. A frame rate of zero makes the division of the clock panic
    after the set-up: the header is written, the deferred calls write
    the trailer and release the session, and the file holds no packet.
    The panic then leaves the function. *)
Theorem recording_panics_on_zero_rate (w : World O) r w' :
  wf w ->
  StartScreenRecording fuel events filename width height 0 w = (r, w') ->
  (r = Returned tt /\ setup_failed w w') \/
  (r = Panicked "runtime error: integer divide by zero" /\
   panicked filename width height 0 w w').
Proof.
  intros Hwf Hrun. pose proof (recording_exit _ _ _ _ _ _ w r w' Hwf Hrun) as Hp.
  destruct r as [[]|msg|]; cbn [recording_post] in Hp.
  - destruct Hp as [?|(tb & pts & sent & handed & written & frames & r & l & Hpts & _)];
      [by left|by rewrite pts_increment_zero in Hpts].
  - destruct Hp as [-> ?]. by right.
  - destruct Hp as (tb & pts & sent & handed & written & frames & ds & Hpts & _).
    by rewrite pts_increment_zero in Hpts.
Qed.

(** C30. When the set-up fails, the function reports the failure and
    returns with everything it had allocated released: the memory is as
    it found it, and no call violated the contract of the library. *)
Theorem setup_failure_releases (w w' : World O) msg e :
  wf w ->
  StartScreenRecording fuel events filename width height fps w = (Returned tt, w') ->
  list.last (out w') = Some (FmtPrintln, msg, e) -> In msg setup_reports ->
  heap w' = heap w /\ faults w' = faults w /\ wf w'.
Proof.
  intros Hwf Hrun Hlast Hin.
  destruct (recording_exit _ _ _ _ _ _ w _ _ Hwf Hrun) as [Hs|Hr].
  - by destruct Hs as (? & ? & ? & _).
  - apply recorded_last in Hr as [r Hr]. rewrite Hr in Hlast.
    injection Hlast as Hl. by destruct (setup_report_not_trailer msg e r).
Qed.

(** Without the cancellation the function returns only after a
    failure, which it has reported: a failure of the set-up, or a
    failure in the loop, followed by the line of the trailer. *)
Theorem return_without_cancel_reports (w w' : World O) :
  wf w -> cancelled events = false ->
  StartScreenRecording fuel events filename width height fps w = (Returned tt, w') ->
  exists l msg e, In msg (setup_reports ++ image_reports) /\
    (out w' = out w ++ l ++ [(FmtPrintln, msg, e)] \/
     exists r, out w' = out w ++ l ++ [(FmtPrintln, msg, e); trailer_line r]).
Proof.
  intros Hwf Hc Hrun.
  destruct (recording_exit _ _ _ _ _ _ w _ _ Hwf Hrun) as [Hs|Hr].
  - destruct Hs as (_ & _ & _ & l & msg & e & Hin & Hout).
    exists l, msg, e. split; [apply in_or_app|]; by left.
  - destruct Hr as (tb & pts & sent & handed & written & frames & r & l & _ & _ & _ & _ & _ & _ & _ & _ & _ & Hout & Hd).
    destruct Hd as [(Hc' & _)|(_ & l0 & msg & e & Hin & ->)]; [congruence|].
    exists l0, msg, e. split; [apply in_or_app; by right|]. right. exists r.
    by rewrite Hout, <- app_assoc.
Qed.


(** C38. Above 90000 frames per second the increment of the clock is
    zero, and the encoder refuses the second frame: its timestamp is
    not above the one of the first. *)
Theorem fast_rate_refused pts (sent : list Frame) F :
  timeBaseFrequency < fps -> pts_increment fps = Some pts -> sent <> [] ->
  f_pts <$> sent = stamps_from pts frameNumber0 (length sent) ->
  f_pts F = frame_pts (Nat.iter (length sent) next_frame frameNumber0) pts ->
  refused width height fps sent F.
Proof.
  intros Hfps Hpts Hne Hst HF.
  rewrite pts_increment_fast in Hpts by done.
  injection Hpts as <-. rewrite stamps_from_zero in Hst. rewrite frame_pts_zero in HF.
  apply andb_false_intro1. unfold pts_increases. cbn [cc_sent opened_context].
  destruct (list.last sent) as [prev|] eqn:Hlast; [|by apply last_None in Hlast].
  apply last_Some in Hlast as [l ->].
  rewrite length_app, Nat.add_1_r, replicate_S_end, fmap_app in Hst.
  apply app_inj_tail in Hst as [_ Hprev]. cbn in Hprev.
  by rewrite Hprev, HF.
Qed.
(** C4. Every packet the encoder hands out is written to the container,
    in the order handed out and rescaled from the encoder's time base
    to the stream's.  Only the last one can be missing, and only when
    its write failed, which the line before the trailer's reports. *)
Theorem encoder_packets_reach_container (w w' : World O) :
  wf w ->
  StartScreenRecording fuel events filename width height fps w = (Returned tt, w') ->
  finalised w' ->
  exists tb cc fc,
    released w' = released w ++ [OCodecContext cc; OFormatContext fc] /\
    Forall (fun p => p_tb p = Some encoder_tb) (cc_handed cc) /\
    fc_written fc = to_stream tb <$> take (length (fc_written fc)) (cc_handed cc) /\
    (length (fc_written fc) = length (cc_handed cc) \/
     (length (cc_handed cc) = S (length (fc_written fc)) /\
      exists l e r, out w' = out w ++ l ++
        [(FmtPrintln, "error writing packet:"%string, e); trailer_line r])).
Proof.
  intros Hwf Hrun Hfin.
  destruct (returned_finalised _ _ _ _ _ _ w w' Hwf Hrun Hfin)
    as (tb & pts & sent & handed & written & frames & r & l & _ & _ & _ & _ & _ & Hst &
        _ & Hrl & _ & Hout & _).
  eexists tb, _, _. split; [exact Hrl|]. cbn [cc_handed opened_context fc_written closed_container].
  split; [apply Hst|]. split; [apply passed_on_take, Hst|].
  destruct (stored_lengths _ _ _ _ Hst) as [?|[? (l0 & e & ->)]]; [by left|right].
  split; [done|]. exists l0, e, r. by rewrite Hout, <- app_assoc.
Qed.

(** C17. The timestamps written to the file lose nothing when the
    stream's time base refines the encoder's by a factor [k]: the
    packets of the container, rescaled back to the encoder's time base,
    are the packets the encoder handed out, timestamps, duration and
    size, as long as these fit an [int64] once multiplied by [k]. *)
Theorem written_timestamps_roundtrip tb k cc fc (w w' : World O) :
  wf w ->
  StartScreenRecording fuel events filename width height fps w = (Returned tt, w') ->
  finalised w' ->
  released w' = released w ++ [OCodecContext cc; OFormatContext fc] ->
  Forall (fun q => p_tb q = Some tb) (fc_written fc) ->
  refines tb encoder_tb k -> Forall (packet_fits k) (cc_handed cc) ->
  rescale_packet tb encoder_tb <$> fc_written fc
    = take (length (fc_written fc)) (cc_handed cc).
Proof.
  intros Hwf Hrun Hfin Hrl Htb Hk Hfit.
  pose proof (returned_finalised _ _ _ _ _ _ w w' Hwf Hrun Hfin) as Hrec.
  destruct (recorded_packets _ _ _ _ _ _ _ _ _ Hrec Hrl) as (tb0 & l & r & [Hp _] & _).
  destruct (passed_on_tb_unique _ _ _ _ Hp Htb) as [->| ->]; [done|].
  by eapply passed_on_roundtrip.
Qed.

(** C21. The packets are written in the order of their decoding
    timestamps whenever the encoder hands them out in this order,
    however many packets a frame yields: rescaling to the time base of
    the stream keeps the order of the timestamps it can represent. *)
Theorem written_packets_ordered tb cc fc (w w' : World O) :
  wf w ->
  StartScreenRecording fuel events filename width height fps w = (Returned tt, w') ->
  finalised w' ->
  released w' = released w ++ [OCodecContext cc; OFormatContext fc] ->
  Forall (fun q => p_tb q = Some tb) (fc_written fc) -> positive_rational tb ->
  Forall (fun p => rescalable encoder_tb tb (p_dts p)) (cc_handed cc) ->
  StronglySorted dts_le (cc_handed cc) -> StronglySorted dts_le (fc_written fc).
Proof.
  intros Hwf Hrun Hfin Hrl Htb Hpos Hok Hso.
  pose proof (returned_finalised _ _ _ _ _ _ w w' Hwf Hrun Hfin) as Hrec.
  destruct (recorded_packets _ _ _ _ _ _ _ _ _ Hrec Hrl) as (tb0 & l & r & [Hp _] & _).
  destruct (passed_on_tb_unique _ _ _ _ Hp Htb) as [->| ->]; [constructor|].
  by eapply passed_on_ordered.
Qed.
End Properties.

(** ** Witnesses *)

Lemma recording_respects_contract_witness : faults run_three.2 = faults w_rec.
Proof.
  apply (recording_respects_contract 5 three_images "out.mp4" 2 2 30 w_rec);
    [apply wf_init | unfold timeBaseFrequency; lia
    | cbn; unfold max_exact_frame; lia | by repeat constructor].
Defined.

Lemma recording_releases_all_but_frames_witness :
  (forall h o, heap w_rec !! h = Some o -> heap run_three.2 !! h = Some o) /\
  (forall h o, heap run_three.2 !! h = Some o ->
     heap w_rec !! h = Some o \/ (heap w_rec !! h = None /\ exists F, o = OFrame F)).
Proof.
  apply (recording_releases_all_but_frames 5 three_images "out.mp4" 2 2 30 w_rec);
    [apply wf_init | vm_compute; reflexivity].
Defined.

Lemma submitted_frames_never_released_witness :
  exists sent handed fc,
    released run_three.2 = released w_rec ++
      [OCodecContext (opened_context 2 2 30 sent handed); OFormatContext fc] /\
    Forall (fun F => exists h, heap w_rec !! h = None /\
                               heap run_three.2 !! h = Some (OFrame F)) sent.
Proof.
  apply (submitted_frames_never_released 5 three_images "out.mp4" 2 2 30 w_rec);
    [apply wf_init | vm_compute; reflexivity | exists None; vm_compute; reflexivity].
Defined.

Lemma submitted_frames_are_conversions_witness :
  exists pts sent handed fc,
    pts_increment 30 = Some pts /\
    released run_three.2 = released w_rec ++
      [OCodecContext (opened_context 2 2 30 sent handed); OFormatContext fc] /\
    (length sent <= images_taken three_images)%nat /\
    sent = encoded_from pts frameNumber0 (take (length sent) (images_of three_images)) /\
    f_pts <$> sent = stamps_from pts frameNumber0 (length sent).
Proof.
  apply (submitted_frames_are_conversions 5 three_images "out.mp4" 2 2 30 w_rec);
    [apply wf_init | vm_compute; reflexivity | exists None; vm_compute; reflexivity].
Defined.

Lemma encoder_released_unflushed_witness :
  exists cc fc,
    released run_three.2 = released w_rec ++ [OCodecContext cc; OFormatContext fc] /\
    cc_open cc = true /\ cc_flushed cc = false.
Proof.
  apply (encoder_released_unflushed 5 three_images "out.mp4" 2 2 30 w_rec);
    [apply wf_init | vm_compute; reflexivity | exists None; vm_compute; reflexivity].
Defined.

Lemma container_closed_after_trailer_witness :
  exists cc tb written,
    released run_three.2 = released w_rec ++
      [OCodecContext cc;
       OFormatContext (closed_container "out.mp4" (next w_rec)
                         (bool_decide (@None error = None)) written)] /\
    Forall (fun p => p_tb p = Some tb) written /\ env run_three.2 = stopped_env.
Proof.
  apply (container_closed_after_trailer 5 three_images "out.mp4" 2 2 30 w_rec);
    [apply wf_init | vm_compute; reflexivity | vm_compute; reflexivity].
Defined.

Lemma clean_stop_submits_every_image_witness :
  cancelled three_images = true /\ faults run_three.2 = faults w_rec /\
  exists pts handed fc,
    pts_increment 30 = Some pts /\
    released run_three.2 = released w_rec ++
      [OCodecContext (opened_context 2 2 30
                        (encoded_from pts frameNumber0 (images_of three_images)) handed);
       OFormatContext fc] /\
    fc_state fc = TrailerWritten.
Proof.
  apply (clean_stop_submits_every_image 5 three_images "out.mp4" 2 2 30 w_rec);
    [apply wf_init | vm_compute; reflexivity | vm_compute; reflexivity].
Defined.

Lemma recording_panics_on_zero_rate_witness :
  (run_zero.1 = Returned tt /\ setup_failed w_rec run_zero.2) \/
  (run_zero.1 = Panicked "runtime error: integer divide by zero" /\
   panicked "out.mp4" 2 2 0 w_rec run_zero.2).
Proof.
  apply (recording_panics_on_zero_rate 5 three_images "out.mp4" 2 2 w_rec);
    [apply wf_init | vm_compute; reflexivity].
Defined.

Lemma setup_failure_releases_witness :
  heap run_no_container.2 = heap w_no_container /\
  faults run_no_container.2 = faults w_no_container /\ wf run_no_container.2.
Proof.
  apply (setup_failure_releases 5 three_images "out.mp4" 2 2 30 w_no_container
           run_no_container.2 "Error creating output format context:"
           (Some (AvError (-12))));
    [apply wf_init | vm_compute; reflexivity | vm_compute; reflexivity
    | simpl; tauto].
Defined.

Lemma return_without_cancel_reports_witness :
  exists l msg e, In msg (setup_reports ++ image_reports) /\
    (out run_fast.2 = out w_rec ++ l ++ [(FmtPrintln, msg, e)] \/
     exists r, out run_fast.2 = out w_rec ++ l ++ [(FmtPrintln, msg, e); trailer_line r]).
Proof.
  apply (return_without_cancel_reports 5 two_images "out.mp4" 2 2 90001 w_rec);
    [apply wf_init | reflexivity | vm_compute; reflexivity].
Defined.


Lemma fast_rate_refused_witness : refused 2 2 90001 [stamped 0] (stamped 0).
Proof.
  apply (fast_rate_refused 2 2 90001 0 [stamped 0] (stamped 0));
    [unfold timeBaseFrequency; lia | reflexivity | discriminate
    | reflexivity | reflexivity].
Defined.

(** At 90001 frames per second, on a library that never fails, the
    second of two images is refused by the encoder: the function has
    violated the contract of [SendFrame], reports the failure and stops
    the recording after one frame. *)
Lemma fast_rate_breaks_contract :
  run_fast.1 = Returned tt /\
  faults run_fast.2 = [BadCall (SendFrame 2%positive (Some 10%positive))] /\
  out run_fast.2 =
    [(FmtPrintln, "error sending frame for encoding:"%string, Some (AvError (-22)));
     (FmtPrintln, "Stopping Screen recording!"%string, None)].
Proof. by vm_compute. Qed.


Lemma encoder_packets_reach_container_witness :
  exists tb cc fc,
    released run_write_fails.2
      = released w_write_fails ++ [OCodecContext cc; OFormatContext fc] /\
    Forall (fun p => p_tb p = Some encoder_tb) (cc_handed cc) /\
    fc_written fc = to_stream tb <$> take (length (fc_written fc)) (cc_handed cc) /\
    (length (fc_written fc) = length (cc_handed cc) \/
     (length (cc_handed cc) = S (length (fc_written fc)) /\
      exists l e r, out run_write_fails.2 = out w_write_fails ++ l ++
        [(FmtPrintln, "error writing packet:"%string, e); trailer_line r])).
Proof.
  apply (encoder_packets_reach_container 5 three_images "out.mp4" 2 2 30 w_write_fails);
    [apply wf_init | vm_compute; reflexivity | exists None; vm_compute; reflexivity].
Defined.

Lemma written_timestamps_roundtrip_witness :
  rescale_packet tb_180k encoder_tb <$> fc_written fine_container
    = take (length (fc_written fine_container)) (cc_handed fine_encoder).
Proof.
  apply (written_timestamps_roundtrip 5 three_images "out.mp4" 2 2 30 tb_180k 2
           fine_encoder fine_container w_fine run_fine.2);
    [apply wf_init | vm_compute; reflexivity | exists None; vm_compute; reflexivity
    | vm_compute; reflexivity | by repeat constructor
    | by vm_compute | repeat constructor; by vm_compute].
Defined.

Lemma written_packets_ordered_witness : StronglySorted dts_le (fc_written fine_container).
Proof.
  apply (written_packets_ordered 5 three_images "out.mp4" 2 2 30 tb_180k
           fine_encoder fine_container w_fine run_fine.2);
    [apply wf_init | vm_compute; reflexivity | exists None; vm_compute; reflexivity
    | vm_compute; reflexivity | by repeat constructor | by vm_compute
    | repeat constructor; by vm_compute | repeat constructor; by vm_compute].
Defined.
