(* ===== verification/Steps.v ===== *)
(** * Steps: the set-up, one image and the deferred calls, each by itself

    The properties of the parts of [StartScreenRecording] taken one at
    a time, as they follow from the specifications of [Recorder],
    [Loop] and [Teardown]: what the set-up builds, what one turn of the
    loop does to a session, when a turn does not come back, what an
    image of another size than the encoder's does, and what the
    deferred calls leave. *)

From stdpp Require Import gmap strings.
From S2P Require Import Prelude GoLang Rational Clock Astiav Logging Converter Encoder Recorder Loop Teardown Recording.

Local Open Scope Z_scope.
Local Open Scope go_scope.

(** ** Inputs of the witnesses

    The session the set-up builds from [w_rec], and its first image. *)

Definition after_setup : Ctl unit Session * (World Script * list Deferred) :=
  setup "out.mp4" 2 2 30 (w_rec, []).

Definition w_session : World Script := after_setup.2.1.

Definition tb_90k : Rational := NewRational 1 timeBaseFrequency.

Definition first_image : Ctl unit Z * (World Script * list Deferred) :=
  handle_image 5 (session_at 1%positive) 3000 frameNumber0 img_2x2
    (w_session, base_defers (session_at 1%positive)).

(** The same with an image of four by four pixels, when the encoder is
    configured for two by two. *)
Definition img_4x4 : RGBA := mkRGBA (replicate 64 255) 16 (mkRectangle 0 0 4 4).

Definition first_image_other_size : Ctl unit Z * (World Script * list Deferred) :=
  handle_image 5 (session_at 1%positive) 3000 frameNumber0 img_4x4
    (w_session, base_defers (session_at 1%positive)).

(** The same with fuel for one packet where three are ready. *)
Definition w_session_eager : World Script := (setup "out.mp4" 2 2 30 (w_eager, [])).2.1.

Definition first_image_eager : Ctl unit Z * (World Script * list Deferred) :=
  handle_image 1 (session_at 1%positive) 3000 frameNumber0 img_2x2
    (w_session_eager, base_defers (session_at 1%positive)).

(** A session whose encoder fails on the first frame. *)
Definition w_send_fails : World Script :=
  init_world (mkScript (replicate 14 None ++ [Some (AvError (-22))]) [] None).

Definition w_session_send_fails : World Script :=
  (setup "out.mp4" 2 2 30 (w_send_fails, [])).2.1.

Definition first_image_send_fails : Ctl unit Z * (World Script * list Deferred) :=
  handle_image 5 (session_at 1%positive) 3000 frameNumber0 img_2x2
    (w_session_send_fails, base_defers (session_at 1%positive)).

(** ** Lemmas *)

Section Start.
(** The session of the witnesses is at the [select] of the loop. *)
Lemma w_session_at_loop :
  at_loop "out.mp4" 2 2 30 tb_90k 1%positive ∅ 3000 [] [] [] [] [] w_session
    (base_defers (session_at 1%positive)).
Proof. apply (at_loop_start "out.mp4" 2 2 30 tb_90k 3000 w_rec); by vm_compute. Qed.

Lemma w_session_eager_at_loop :
  at_loop "out.mp4" 2 2 30 tb_90k 1%positive ∅ 3000 [] [] [] [] [] w_session_eager
    (base_defers (session_at 1%positive)).
Proof. apply (at_loop_start "out.mp4" 2 2 30 tb_90k 3000 w_eager); by vm_compute. Qed.

Lemma w_session_send_fails_at_loop :
  at_loop "out.mp4" 2 2 30 tb_90k 1%positive ∅ 3000 [] [] [] [] [] w_session_send_fails
    (base_defers (session_at 1%positive)).
Proof. apply (at_loop_start "out.mp4" 2 2 30 tb_90k 3000 w_send_fails); by vm_compute. Qed.

Lemma fresh_empty : fresh_from (∅ : Heap) 1%positive.
Proof. apply (wf_init (mkScript [] [] None)). Qed.
End Start.

(** ** Properties *)

Section Properties.
Context {O : Type} `{AvLib O}.
Context (filename : string) (width height fps : Z) (tb : Rational) (n : Handle).
Context (hp0 : Heap) (pts : Z).

(** C33. When the set-up succeeds, the session is the container, the
    encoder context, the stream and the output file at the four
    handles that follow the first free one, the header is written,
    nothing is printed, and the deferred calls are, in the order they
    will run: stop, trailer, release of the file, of the encoder and of
    the container. *)
Theorem setup_builds_session (w : World O) s w' ds :
  wf w -> setup filename width height fps (w, []) = (Next s, (w', ds)) ->
  s = session_at (next w) /\ ds = base_defers s /\
  out w' = out w /\ faults w' = faults w /\ env w' = recording_env /\
  exists tb, heap w' = session_heap filename width height fps tb s HeaderWritten [] [] [] (heap w).
Proof.
  intros Hwf Hrun. pose proof (setup_spec filename width height fps w Hwf) as Hs.
  unfold wp in Hs. rewrite Hrun in Hs. cbn [fst snd setup_post] in Hs.
  destruct Hs as (? & ? & ? & ? & ? & ? & ? & ?). by repeat split.
Qed.

(** C26. One image keeps the session: when the turn comes back to the
    [select], the image had the size of the encoder, the encoder has
    one more frame, the conversion of the image stamped by the clock,
    the frame is in memory, the container may have more packets and
    has lost none, the frame number is the next one, and nothing was
    printed. *)
Theorem image_preserves_session fuel img sent handed written frames
    (w : World O) ds fn' w' ds' :
  fresh_from hp0 n ->
  at_loop filename width height fps tb n hp0 pts [] sent handed written frames w ds ->
  handle_image fuel (session_at n) pts
    (Nat.iter (length sent) next_frame frameNumber0) img (w, ds) = (Next fn', (w', ds')) ->
  fn' = next_frame (Nat.iter (length sent) next_frame frameNumber0) /\
  faults w' = faults w /\ out w' = out w /\
  exists F fr handed' written',
    F = encoded pts (Nat.iter (length sent) next_frame frameNumber0) img /\
    sized width height img /\
    written `prefix_of` written' /\
    at_loop filename width height fps tb n hp0 pts [] (sent ++ [F]) handed' written'
      ((fr, F) :: frames) w' ds'.
Proof.
  intros Hfresh Hat Hrun.
  pose proof (handle_image_spec _ _ _ _ _ _ _ _ Hfresh fuel img _ _ _ _ _ _ Hat) as Hs.
  unfold wp in Hs. rewrite Hrun in Hs.
  destruct Hs as (_ & ? & ? & ? & F & fr & handed' & written' & [-> Hacc] & ? & ?).
  do 3 (split; [done|]). eexists _, fr, handed', written'.
  split; [done|]. split; [by eapply accepted_sized|done].
Qed.

(** C27. An image of another size ends the recording: the turn of the loop
    neither comes back to the [select] nor stays in its inner loop; it
    returns after a report, and the only call that can have violated
    the contract is the submission of the frame of the image, which the
    encoder refuses. *)
Theorem image_of_other_size_ends_recording fuel img sent handed written frames
    (w : World O) ds c w' ds' :
  fresh_from hp0 n ->
  at_loop filename width height fps tb n hp0 pts [] sent handed written frames w ds ->
  ~ sized width height img ->
  handle_image fuel (session_at n) pts
    (Nat.iter (length sent) next_frame frameNumber0) img (w, ds) = (c, (w', ds')) ->
  c = Return tt /\
  (faults w' = faults w \/
   exists b, faults w' = faults w ++ [BadCall b] /\
     refused width height fps sent
       (encoded pts (Nat.iter (length sent) next_frame frameNumber0) img)) /\
  exists l msg e, In msg image_reports /\ out w' = out w ++ l ++ [(FmtPrintln, msg, e)].
Proof.
  intros Hfresh Hat Hsz Hrun.
  pose proof (handle_image_spec _ _ _ _ _ _ _ _ Hfresh fuel img _ _ _ _ _ _ Hat) as Hs.
  unfold wp in Hs. rewrite Hrun in Hs. cbn [fst snd] in Hs. destruct Hs as [_ Hs].
  destruct c as [fn'|[]|msg|]; [|split; [done|]|done|].
  - destruct Hs as (_ & _ & _ & F & ? & ? & ? & [-> Hacc] & _).
    by apply accepted_sized in Hacc.
  - destruct Hs as (_ & Hf & Ho). split; [|done].
    destruct Hf as [?|(b & F & ? & -> & ?)]; [by left|right; by exists b].
  - destruct Hs as (_ & _ & F & ? & ? & ? & [-> Hacc] & _).
    by apply accepted_sized in Hacc.
Qed.

(** A turn of the loop does not panic, and it fails to come back
    only when its inner loop has used all its fuel: the container then
    has [fuel] packets more than before the image. *)
Theorem image_blocks_only_out_of_fuel fuel img sent handed written frames
    (w : World O) ds c w' ds' :
  fresh_from hp0 n ->
  at_loop filename width height fps tb n hp0 pts [] sent handed written frames w ds ->
  handle_image fuel (session_at n) pts
    (Nat.iter (length sent) next_frame frameNumber0) img (w, ds) = (c, (w', ds')) ->
  (forall msg, c <> Panic msg) /\
  (c = Pending ->
   exists fc, format_at (heap w') n = Some fc /\
     (length written + fuel <= length (fc_written fc))%nat).
Proof.
  intros Hfresh Hat Hrun.
  pose proof (handle_image_spec _ _ _ _ _ _ _ _ Hfresh fuel img _ _ _ _ _ _ Hat) as Hs.
  unfold wp in Hs. rewrite Hrun in Hs. cbn [fst snd] in Hs. destruct Hs as [_ Hs].
  split; [by intros msg ->|]. intros ->.
  destruct Hs as (_ & _ & F & fr & handed' & written' & _ & _ & Hlen & Hat').
  apply at_loop_written in Hat' as (fc & ? & <-). by exists fc.
Qed.

(** C34. A turn that fails reports the failure and returns: the session
    is still consistent, with the no-op [ctx.Done()] deferred first, a
    packet of the encoder is missing from the container only when its
    write is the failure reported, and a fault is recorded only when
    the encoder refused the frame of the image, for its timestamp or
    for its size. *)
Theorem image_failure_reported fuel img sent handed written frames
    (w : World O) ds w' ds' :
  fresh_from hp0 n ->
  at_loop filename width height fps tb n hp0 pts [] sent handed written frames w ds ->
  handle_image fuel (session_at n) pts
    (Nat.iter (length sent) next_frame frameNumber0) img (w, ds) = (Return tt, (w', ds')) ->
  (exists sent' handed' written' frames',
     at_loop filename width height fps tb n hp0 pts [DCtxDone] sent' handed' written'
       frames' w' ds' /\
     written `prefix_of` written' /\
     (written' = to_stream tb <$> handed' \/ write_failed w w')) /\
  (faults w' = faults w \/
   exists c,
     refused width height fps sent
       (encoded pts (Nat.iter (length sent) next_frame frameNumber0) img) /\
     faults w' = faults w ++ [BadCall c]) /\
  exists l msg e, In msg image_reports /\ out w' = out w ++ l ++ [(FmtPrintln, msg, e)].
Proof.
  intros Hfresh Hat Hrun.
  pose proof (handle_image_spec _ _ _ _ _ _ _ _ Hfresh fuel img _ _ _ _ _ _ Hat) as Hs.
  unfold wp in Hs. rewrite Hrun in Hs. cbn [fst snd] in Hs.
  destruct Hs as (_ & (s' & h' & w2 & f' & ? & ? & _ & ?) & Hf & Ho).
  split; [by eauto 10|]. split; [|done].
  destruct Hf as [?|(c & F & ? & -> & ?)]; [by left|right; by eauto].
Qed.

(** From any state of the loop the deferred calls release the
    packets, stop the signal handler, attempt the trailer once, and
    release the file, the encoder context and the container, in this
    order: what is left is the memory the function started with and
    the frames, and the last line printed is the one of the trailer. *)
Theorem deferred_calls_finalise cd sent handed written frames (w : World O) ds :
  fresh_from hp0 n ->
  at_loop filename width height fps tb n hp0 pts cd sent handed written frames w ds ->
  cd = [] \/ cd = [DCtxDone] ->
  finished filename width height fps tb n hp0 pts sent handed written frames w
    (run_defers run_deferred ds w).
Proof. intros Hfresh. by apply teardown_spec. Qed.
End Properties.

(** ** Witnesses *)

Lemma setup_builds_session_witness :
  session_at 1%positive = session_at (next w_rec) /\
  base_defers (session_at 1%positive) = base_defers (session_at 1%positive) /\
  out w_session = out w_rec /\ faults w_session = faults w_rec /\
  env w_session = recording_env /\
  exists tb, heap w_session
             = session_heap "out.mp4" 2 2 30 tb (session_at 1%positive) HeaderWritten [] [] [] (heap w_rec).
Proof.
  apply (setup_builds_session "out.mp4" 2 2 30 w_rec (session_at 1%positive) w_session
           (base_defers (session_at 1%positive)));
    [apply wf_init | vm_compute; reflexivity].
Defined.

Lemma image_preserves_session_witness :
  first_image.1 = Next (next_frame frameNumber0) /\
  exists F fr handed' written',
    F = encoded 3000 frameNumber0 img_2x2 /\ sized 2 2 img_2x2 /\
    [] `prefix_of` written' /\
    at_loop "out.mp4" 2 2 30 tb_90k 1%positive ∅ 3000 [] ([] ++ [F]) handed' written'
      [(fr, F)] first_image.2.1 first_image.2.2.
Proof.
  destruct (image_preserves_session "out.mp4" 2 2 30 tb_90k 1%positive ∅ 3000 5 img_2x2
              [] [] [] [] w_session (base_defers (session_at 1%positive))
              (next_frame frameNumber0) first_image.2.1 first_image.2.2)
    as (_ & _ & _ & Hs);
    [apply fresh_empty | apply w_session_at_loop | vm_compute; reflexivity|].
  split; [vm_compute; reflexivity | exact Hs].
Defined.

Lemma image_blocks_only_out_of_fuel_witness :
  (forall msg, first_image_eager.1 <> Panic msg) /\
  (first_image_eager.1 = Pending ->
   exists fc, format_at (heap first_image_eager.2.1) 1%positive = Some fc /\
     (0 + 1 <= length (fc_written fc))%nat).
Proof.
  apply (image_blocks_only_out_of_fuel "out.mp4" 2 2 30 tb_90k 1%positive ∅ 3000 1 img_2x2
           [] [] [] [] w_session_eager (base_defers (session_at 1%positive))
           first_image_eager.1 first_image_eager.2.1 first_image_eager.2.2);
    [apply fresh_empty | apply w_session_eager_at_loop | vm_compute; reflexivity].
Defined.

Lemma deferred_calls_finalise_witness :
  finished "out.mp4" 2 2 30 tb_90k 1%positive ∅ 3000 [] [] [] [] w_session
    (run_defers run_deferred (base_defers (session_at 1%positive)) w_session).
Proof.
  apply (deferred_calls_finalise "out.mp4" 2 2 30 tb_90k 1%positive ∅ 3000 [] [] [] [] []
           w_session (base_defers (session_at 1%positive)));
    [apply fresh_empty | apply w_session_at_loop | by left].
Defined.

Lemma image_failure_reported_witness :
  (exists sent' handed' written' frames',
     at_loop "out.mp4" 2 2 30 tb_90k 1%positive ∅ 3000 [DCtxDone] sent' handed' written'
       frames' first_image_send_fails.2.1 first_image_send_fails.2.2 /\
     [] `prefix_of` written' /\
     (written' = to_stream tb_90k <$> handed' \/
      write_failed w_session_send_fails first_image_send_fails.2.1)) /\
  (faults first_image_send_fails.2.1 = faults w_session_send_fails \/
   exists c, refused 2 2 30 [] (encoded 3000 frameNumber0 img_2x2) /\
     faults first_image_send_fails.2.1 = faults w_session_send_fails ++ [BadCall c]) /\
  exists l msg e, In msg image_reports /\
    out first_image_send_fails.2.1
      = out w_session_send_fails ++ l ++ [(FmtPrintln, msg, e)].
Proof.
  apply (image_failure_reported "out.mp4" 2 2 30 tb_90k 1%positive ∅ 3000 5 img_2x2
           [] [] [] [] w_session_send_fails (base_defers (session_at 1%positive)));
    [apply fresh_empty | apply w_session_send_fails_at_loop | vm_compute; reflexivity].
Defined.

Lemma image_of_other_size_ends_recording_witness :
  first_image_other_size.1 = Return tt /\
  (faults first_image_other_size.2.1 = faults w_session \/
   exists b, faults first_image_other_size.2.1 = faults w_session ++ [BadCall b] /\
     refused 2 2 30 [] (encoded 3000 frameNumber0 img_4x4)) /\
  exists l msg e, In msg image_reports /\
    out first_image_other_size.2.1 = out w_session ++ l ++ [(FmtPrintln, msg, e)].
Proof.
  apply (image_of_other_size_ends_recording "out.mp4" 2 2 30 tb_90k 1%positive ∅ 3000 5
           img_4x4 [] [] [] [] w_session (base_defers (session_at 1%positive))
           first_image_other_size.1 first_image_other_size.2.1 first_image_other_size.2.2);
    [apply fresh_empty | apply w_session_at_loop
    | intros [Hw _]; vm_compute in Hw; discriminate | vm_compute; reflexivity].
Defined.

(** On a library that never fails, the frame of the image of another
    size is submitted: the contract of [SendFrame] is violated. *)
Lemma other_size_breaks_contract :
  faults first_image_other_size.2.1 =
    faults w_session ++ [BadCall (SendFrame 2%positive (Some 6%positive))].
Proof. by vm_compute. Qed.
