(* ===== verification/Program.v ===== *)
(** * Program: [main] and the two goroutines together

    [main] ([src/examples/screenrecorder/screencap.go], lines 56-61)
    reads the bounds of the display and records it at 30 frames per
    second into [output.mp4].  The recording function starts the
    sampler with the same frame rate; the sampler reads the bounds of
    the display again.  The properties here are the ones of the program
    as it is run: the frame rate is the constant 30, the size of the
    encoder is the size of the display, and the events the recording
    function takes are the ones of a trace of the two goroutines
    ([Pipeline.events_of_trace]). *)

From stdpp Require Import gmap strings.
From S2P Require Import Prelude GoLang Rational Clock Astiav Logging Sampler Converter Encoder Recorder Loop Pipeline Teardown Recording.

Local Open Scope Z_scope.
Local Open Scope go_scope.

(** ** The function *)

Section Main.
Context {O : Type} `{AvLib O}.

(** The frame rate of the program: line 60. *)
Definition fps_of_main : Z := 30.

(** Lines 56-61.  [display] is what [screenshot.GetDisplayBounds(0)]
    answers. *)
Definition main_body (fuel : nat) (events : list Event) (display : Rectangle)
  : Go (World O) Empty_set unit unit :=
  lift (Println FmtPrintln "Starting Screen recording..." None) ;;
  call (StartScreenRecording fuel events "output.mp4" (Dx display) (Dy display)
          fps_of_main).

Definition main (fuel : nat) (events : list Event) (display : Rectangle)
    (w : World O) : Exit unit * World O :=
  func run_none (main_body fuel events display) w.

(** The sampler's world when its goroutine starts. *)
Definition cap_start (display : Rectangle) : Cap := mkCap display NoTicker [] [] [].

(** The world in which the recording starts. *)
Definition started (w : World O) : World O :=
  (Println FmtPrintln "Starting Screen recording..." None w).2.

(** ** Lemmas *)

Lemma main_eq fuel events display w :
  main fuel events display w
    = StartScreenRecording fuel events "output.mp4" (Dx display) (Dy display)
        fps_of_main (started w).
Proof.
  unfold main, main_body, func, call, bind, lift, started, Println.
  cbn -[StartScreenRecording Dx Dy].
  by destruct (StartScreenRecording _ _ _ _ _ _ _) as [[[]|msg|] w'].
Qed.

Lemma started_wf w : wf w -> wf (started w).
Proof. by destruct w. Qed.

Lemma main_exit fuel events display w :
  wf w ->
  recording_post fuel events "output.mp4" (Dx display) (Dy display) fps_of_main
    (started w) (main fuel events display w).1 (main fuel events display w).2.
Proof. intros Hwf. rewrite main_eq. by apply recording_spec, started_wf. Qed.
End Main.

(** ** Inputs of the witnesses *)

Definition run_main : Exit unit * World Script := main 5 three_images screen w_rec.

(** A trace of the two goroutines: two images, the interrupt, and the
    two goroutines taking the cancellation; the state it leads to; and
    the run of [main] on the events of this trace. *)
Definition two_shots : list Label :=
  [Capture (inr shot); Handoff shot true; Capture (inr shot); Handoff shot true;
   Sigint; RecorderDone; SamplerDone].

Definition after_two_shots : Pipe := mkPipe true (Ended None) Left [shot; shot] [shot; shot].

Definition run_pipeline : Exit unit * World Script :=
  main 5 (events_of_trace two_shots) screen w_rec.

(** ** Properties *)

Section Properties.
Context {O : Type} `{AvLib O}.

(** The program does not panic, whatever the library answers and
    whatever the display is, and it makes no call that violates the
    contract of the library when the images it is given have the size
    of the display: at 30 frames per second the increment of the clock
    is 3000, and the timestamps increase for any number of images below
    [max_exact_frame]. *)
Theorem main_respects_contract fuel events display (w : World O) :
  wf w -> Z.of_nat (images_taken events) <= max_exact_frame ->
  (Forall (sized (Dx display) (Dy display)) (images_of events) ->
   faults (main fuel events display w).2 = faults w) /\
  forall msg, (main fuel events display w).1 <> Panicked msg.
Proof.
  intros Hwf Hn. pose proof (main_exit fuel events display w Hwf) as Hp. split.
  - intros Hsz. transitivity (faults (started w)); [|by destruct w].
    eapply recording_post_faults; [|exact Hn|exact Hsz|exact Hp]. by vm_compute.
  - intros msg Hm. rewrite Hm in Hp. by destruct Hp as (_ & Hpts & _).
Qed.

(** The sampler and the encoder agree on the size of the pictures:
    every rectangle the sampler captures has the width and the height
    the encoder context was configured with, when both goroutines are
    started on the same display. *)
Theorem sampler_and_encoder_sizes_agree fuel events ticks c (w w' : World O) :
  wf w -> main fuel events (bounds c) w = (Returned tt, w') -> finalised w' ->
  exists sent packets fc,
    released w' = released w ++
      [OCodecContext (opened_context (Dx (bounds c)) (Dy (bounds c)) fps_of_main sent packets);
       OFormatContext fc] /\
    Forall (fun r => Dx r = Dx (bounds c) /\ Dy r = Dy (bounds c))
      (requested (capture_goroutine fps_of_main ticks (cap_start (bounds c))).2).
Proof.
  intros Hwf Hrun Hfin. rewrite main_eq in Hrun.
  destruct (returned_finalised _ _ _ _ _ _ _ w' (started_wf w Hwf) Hrun Hfin)
    as (tb & pts & sent & handed & written & frames & r & l & _ & _ & _ & _ & _ & _ & _ & Hrl & _).
  eexists sent, handed, _. split; [exact Hrl|].
  destruct (capture_goroutine_forwarded fps_of_main ticks (cap_start (bounds c)))
    as [_ ->]; [by vm_compute|].
  by apply Forall_replicate.
Qed.

(** C2. What the sampler captures is what the encoder gets, and what
    the encoder hands out is what the file gets.  Along any trace of
    the two goroutines, when the program run on the events of the trace
    prints nothing but its two lines, the encoder was given the
    conversion of each image the sampler handed over, in the order of
    capture, frame [k] stamped [3000 * k]; these are all the images
    captured but the one the sampler may still be sending; the
    container holds every packet the encoder handed out, in order and
    rescaled to the time base of the stream; the trailer is written and
    no call violated the contract of the library. *)
Theorem captured_images_are_encoded fuel ls p display (w w' : World O) :
  steps start ls p -> wf w ->
  main fuel (events_of_trace ls) display w = (Returned tt, w') ->
  out w' = out w ++ [(FmtPrintln, "Starting Screen recording..."%string, None);
                     (FmtPrintln, "Stopping Screen recording!"%string, None)] ->
  let handed :=
    forwarded (capture_goroutine fps_of_main (ticks_of ls p) (cap_start display)).2 in
  captured p = handed ++ in_flight (sampler p) /\
  exists tb packets,
    released w' = released w ++
      [OCodecContext
         (opened_context (Dx display) (Dy display) fps_of_main
            (encoded_from 3000 frameNumber0 handed) packets);
       OFormatContext
         (closed_container "output.mp4" (next w) true (to_stream tb <$> packets))] /\
    Forall (fun q => p_tb q = Some encoder_tb) packets /\ faults w' = faults w.
Proof.
  intros Hs Hwf Hrun Hout handed. rewrite main_eq in Hrun.
  destruct (clean_stop _ _ _ _ _ _ _ w' (started_wf w Hwf) Hrun)
    as (tb & pts & packets & [= <-] & _ & Hfl & Hst & Hrl).
  { rewrite Hout. destruct w. cbn. by rewrite <- app_assoc. }
  destruct (trace_inv_history ls p (steps_trace_inv ls p Hs)) as [Hev Hhist].
  assert (handed = received p) as ->.
  { unfold handed.
    destruct (capture_goroutine_forwarded fps_of_main (ticks_of ls p) (cap_start display))
      as [-> _]; [by vm_compute|]. by rewrite Hhist. }
  split; [by apply (steps_pipe_inv start ls p start_pipe_inv)|].
  rewrite Hev in Hrl. exists tb, packets. split; [|done].
  rewrite Hrl. by destruct w.
Qed.
End Properties.

(** ** Witnesses *)

Lemma main_respects_contract_witness :
  (Forall (sized (Dx screen) (Dy screen)) (images_of three_images) ->
   faults run_main.2 = faults w_rec) /\
  forall msg, run_main.1 <> Panicked msg.
Proof.
  apply (main_respects_contract 5 three_images screen w_rec);
    [apply wf_init | cbn; unfold max_exact_frame; lia].
Defined.

Lemma sampler_and_encoder_sizes_agree_witness :
  exists sent packets fc,
    released run_main.2 = released w_rec ++
      [OCodecContext (opened_context (Dx (bounds cap0)) (Dy (bounds cap0)) fps_of_main sent
                        packets);
       OFormatContext fc] /\
    Forall (fun r => Dx r = Dx (bounds cap0) /\ Dy r = Dy (bounds cap0))
      (requested (capture_goroutine fps_of_main [TickCapture (inr shot) true; TickDone]
                    (cap_start (bounds cap0))).2).
Proof.
  apply (sampler_and_encoder_sizes_agree 5 three_images
           [TickCapture (inr shot) true; TickDone] cap0 w_rec run_main.2);
    [apply wf_init | vm_compute; reflexivity | exists None; vm_compute; reflexivity].
Defined.

Lemma captured_images_are_encoded_witness :
  let handed :=
    forwarded (capture_goroutine fps_of_main (ticks_of two_shots after_two_shots)
                 (cap_start screen)).2 in
  captured after_two_shots = handed ++ in_flight (sampler after_two_shots) /\
  exists tb packets,
    released run_pipeline.2 = released w_rec ++
      [OCodecContext
         (opened_context (Dx screen) (Dy screen) fps_of_main
            (encoded_from 3000 frameNumber0 handed) packets);
       OFormatContext
         (closed_container "output.mp4" (next w_rec) true (to_stream tb <$> packets))] /\
    Forall (fun q => p_tb q = Some encoder_tb) packets /\
    faults run_pipeline.2 = faults w_rec.
Proof.
  apply (captured_images_are_encoded 5 two_shots after_two_shots screen w_rec
           run_pipeline.2);
    [apply steps_run; vm_compute; reflexivity | apply wf_init
    | vm_compute; reflexivity | vm_compute; reflexivity].
Defined.
