(* ===== verification/System.v ===== *)
(** * System: the two goroutines run together, each on its world

    [Pipeline] says where the two goroutines are; here they also act.
    A state of the system holds the world of the sampler ([Cap]) and
    the world of the recording function with its stack of deferred
    calls, and a step runs the statements of the goroutine that moves:
    a capture calls [CaptureRect], a hand-off delivers the image and
    runs one turn of the loop of [StartScreenRecording]
    ([Recorder.handle_image]), whose result decides whether the
    function is back at its [select], has returned (its deferred calls
    run) or is held in its inner loop.

    The theorems relate this system to the other models: it simulates
    [Pipeline.step] (whether a turn comes back is no longer a free
    choice), and the worlds it reaches are the results of the functions
    [StartScreenRecording] and [capture_goroutine] on the events and the
    ticks of the trace: the functions over sequences of events are the
    goroutines of the interleaved system, and every run of the
    recording function is a run of the system ([play]).  The system
    can be stopped from every state but the one in which the sampler
    is abandoned in its send ([shutdown]). *)

From stdpp Require Import gmap strings.
From S2P Require Import Prelude GoLang Rational Clock Astiav Logging Sampler Converter Encoder Recorder Loop Pipeline Teardown Recording Program.

Local Open Scope Z_scope.
Local Open Scope go_scope.

(** ** The system *)

Section System.
Context {O : Type} `{AvLib O}.
Context (fuel : nat) (s : Session) (pts : Z).

(** The context, the sampler with its world, and the recording
    function: [Next fn] at its [select] with the frame number [fn],
    [Return] or [Panic] once it has left, [Pending] in an inner loop
    that has used its fuel. *)
Record Sys : Type := mkSys {
  sys_closed : bool;
  sys_smp : SamplerPc;
  sys_cap : Cap;
  sys_rec : Ctl unit Z;
  sys_world : World O;
  sys_defers : list Deferred
}.

(** Lines 28-29, then 22: the sampler takes the cancellation and
    returns; its ticker is stopped. *)
Definition sampler_cancelled (c : Cap) : Cap :=
  stop_ticker (cap_Println LogPrintln "Screenshot Stream Stopped" None c).2.

(** Lines 31-35, then 22 and 138-141: the capture fails, the sampler
    logs the error and returns it, its ticker is stopped and the
    goroutine prints the error. *)
Definition sampler_failed (e : error) (c : Cap) : Cap :=
  (cap_Println FmtPrintln "Error capturing screen:" (Some e)
     (stop_ticker
        (cap_Println LogPrintln "Error capturing screenshot:" (Some e)
           (CaptureRect (bounds c) (inl e) c).2).2)).2.

(** The recording function has left its loop. *)
Definition rec_left (c : Ctl unit Z) : bool :=
  match c with Return _ | Panic _ => true | _ => false end.

(** Lines 155-206: one turn of the loop; when it ends the function, the
    deferred calls run. *)
Definition rec_turn (fn : Z) (img : RGBA) (w : World O) (ds : list Deferred)
  : Ctl unit Z * World O * list Deferred :=
  let '(c, (w', ds')) := handle_image fuel s pts fn img (w, ds) in
  if rec_left c then (c, run_defers run_deferred ds' w', []) else (c, w', ds').

(** The steps.  The only choices are the scheduler's, the operator's
    and the answer of a capture. *)
Inductive sys_step : Sys -> Label -> Sys -> Prop :=
| sys_sigint a :
    sys_step a Sigint
      (mkSys true (sys_smp a) (sys_cap a) (sys_rec a) (sys_world a) (sys_defers a))
| sys_capture a img :
    sys_smp a = AtSelect ->
    sys_step a (Capture (inr img))
      (mkSys (sys_closed a) (Sending img)
         (CaptureRect (bounds (sys_cap a)) (inr img) (sys_cap a)).2
         (sys_rec a) (sys_world a) (sys_defers a))
| sys_capture_fails a e :
    sys_smp a = AtSelect ->
    sys_step a (Capture (inl e))
      (mkSys (sys_closed a) (Ended (Some e)) (sampler_failed e (sys_cap a))
         (sys_rec a) (sys_world a) (sys_defers a))
| sys_sampler_done a :
    sys_smp a = AtSelect -> sys_closed a = true ->
    sys_step a SamplerDone
      (mkSys true (Ended None) (sampler_cancelled (sys_cap a))
         (sys_rec a) (sys_world a) (sys_defers a))
| sys_handoff a img fn c w' ds' :
    sys_smp a = Sending img -> sys_rec a = Next fn ->
    rec_turn fn img (sys_world a) (sys_defers a) = (c, w', ds') ->
    sys_step a (Handoff img (negb (rec_left c)))
      (mkSys (sys_closed a || rec_left c) AtSelect (deliver img (sys_cap a)).2 c w' ds')
| sys_recorder_done a fn :
    sys_rec a = Next fn -> sys_closed a = true ->
    sys_step a RecorderDone
      (mkSys true (sys_smp a) (sys_cap a) (Return tt)
         (run_defers run_deferred (sys_defers a) (sys_world a)) []).

Inductive sys_steps : Sys -> list Label -> Sys -> Prop :=
| sys_steps_nil a : sys_steps a [] a
| sys_steps_snoc a ls b l c : sys_steps a ls b -> sys_step b l c -> sys_steps a (ls ++ [l]) c.

(** The same, executable. *)
Definition sys_fire (l : Label) (a : Sys) : option Sys :=
  match l, sys_smp a, sys_rec a with
  | Sigint, _, _ =>
      Some (mkSys true (sys_smp a) (sys_cap a) (sys_rec a) (sys_world a) (sys_defers a))
  | Capture (inr img), AtSelect, _ =>
      Some (mkSys (sys_closed a) (Sending img)
              (CaptureRect (bounds (sys_cap a)) (inr img) (sys_cap a)).2
              (sys_rec a) (sys_world a) (sys_defers a))
  | Capture (inl e), AtSelect, _ =>
      Some (mkSys (sys_closed a) (Ended (Some e)) (sampler_failed e (sys_cap a))
              (sys_rec a) (sys_world a) (sys_defers a))
  | SamplerDone, AtSelect, _ =>
      if sys_closed a
      then Some (mkSys true (Ended None) (sampler_cancelled (sys_cap a))
                   (sys_rec a) (sys_world a) (sys_defers a))
      else None
  | Handoff img ok, Sending img', Next fn =>
      let '(c, w', ds') := rec_turn fn img (sys_world a) (sys_defers a) in
      if decide (img' = img /\ ok = negb (rec_left c))
      then Some (mkSys (sys_closed a || rec_left c) AtSelect
                   (deliver img (sys_cap a)).2 c w' ds')
      else None
  | RecorderDone, _, Next fn =>
      if sys_closed a
      then Some (mkSys true (sys_smp a) (sys_cap a) (Return tt)
                   (run_defers run_deferred (sys_defers a) (sys_world a)) [])
      else None
  | _, _, _ => None
  end.

Fixpoint sys_run (ls : list Label) (a : Sys) : option Sys :=
  match ls with
  | [] => Some a
  | l :: ls => match sys_fire l a with Some b => sys_run ls b | None => None end
  end.

(** A schedule that stops the system: the operator interrupts, an image
    being sent is received, and each goroutine takes the cancellation
    at its [select]. *)
Definition shutdown (a : Sys) : list Label :=
  Sigint ::
  match sys_smp a, sys_rec a with
  | AtSelect, Next _ => [SamplerDone; RecorderDone]
  | AtSelect, _ => [SamplerDone]
  | Sending img, Next fn =>
      let c := (rec_turn fn img (sys_world a) (sys_defers a)).1.1 in
      Handoff img (negb (rec_left c)) :: SamplerDone ::
      match c with Next _ => [RecorderDone] | _ => [] end
  | Ended _, Next _ => [RecorderDone]
  | _, _ => []
  end.

(** The schedule on which the recording function takes the events
    [evs]: each image is captured and handed over, as long as the
    function comes back to its [select]; the cancellation is the
    interrupt of the operator, taken by the recording function. *)
Fixpoint play (evs : list Event) (a : Sys) : list Label :=
  match evs, sys_rec a with
  | EvDone :: _, Next _ => [Sigint; RecorderDone]
  | EvImage img :: evs, Next fn =>
      let ok := negb (rec_left (rec_turn fn img (sys_world a) (sys_defers a)).1.1) in
      let ls := [Capture (inr img); Handoff img ok] in
      match sys_run ls a with
      | Some b => ls ++ (if ok then play evs b else [])
      | None => []
      end
  | _, _ => []
  end.

(** ** What the system is compared with *)

(** Where the goroutines of a state are. *)
Definition abs (a : Sys) : Pipe :=
  mkPipe (sys_closed a) (sys_smp a) (if rec_left (sys_rec a) then Left else Receiving)
    (forwarded (sys_cap a) ++ in_flight (sys_smp a)) (forwarded (sys_cap a)).

(** How the recording function has left, if it has. *)
Definition sys_exit (a : Sys) : Exit unit :=
  match sys_rec a with
  | Next _ | Pending => Blocked
  | Return r => Returned r
  | Panic msg => Panicked msg
  end.

(** How the goroutine of the sampler has left, if it has. *)
Definition smp_exit (p : SamplerPc) : Exit unit :=
  match p with Ended _ => Returned tt | _ => Blocked end.

(** The outcome of a function from the outcome of its body. *)
Definition finish (r : Ctl unit unit * (World O * list Deferred)) : Exit unit * World O :=
  (exit_of r.1,
   match r.1 with Pending => r.2.1 | _ => run_defers run_deferred r.2.2 r.2.1 end).

(** The recording function of a state, run on the events [evs]. *)
Definition resume (evs : list Event) (a : Sys) : Exit unit * World O :=
  match sys_rec a with
  | Next fn => finish (encode_loop fuel s pts evs fn (sys_world a, sys_defers a))
  | _ => (sys_exit a, sys_world a)
  end.

(** The state in which both goroutines are at their [select]: the
    recording function with the world and the deferred calls of its
    set-up, the sampler with its ticker running. *)
Definition sys_start (x : World O * list Deferred) (c : Cap) : Sys :=
  mkSys false AtSelect c (Next frameNumber0) x.1 x.2.
End System.

Arguments Sys O : clear implicits.

(** The statements of [StartScreenRecording] before its loop (lines
    64-148): the session and the increment of the clock. *)
Definition boot {O : Type} `{AvLib O} (filename : string) (width height fps : Z)
  : Go (World O) Deferred unit (Session * Z) :=
  s <- setup filename width height fps ;;
  lift go_capture ;;
  pts <- start_clock fps ;;
  ret (s, pts).

(** The sampler once its ticker runs (lines 14-22). *)
Definition cap_running (fps : Z) (display : Rectangle) : Cap :=
  set_ticker (Running (time_Second / fps)) (cap_start display).

(** The contract of [screenshot.CaptureRect]: the image it answers has
    the size of the rectangle it is asked for, here the display. *)
Definition capture_fits (display : Rectangle) (l : Label) : Prop :=
  match l with
  | Capture (inr img) => sized (Dx display) (Dy display) img
  | _ => True
  end.

(** The ticks a sampler at [p] has taken after the images it has
    forwarded. *)
Definition smp_ticks (p : SamplerPc) : list Tick :=
  match p with
  | AtSelect => []
  | Sending img => [TickCapture (inr img) false]
  | Ended None => [TickDone]
  | Ended (Some e) => [TickCapture (inl e) true]
  end.

(** The world of the goroutine of the sampler, from the images it has
    forwarded and where it is. *)
Definition cap_form (fps : Z) (display : Rectangle) (imgs : list RGBA) (p : SamplerPc)
  : Cap :=
  mkCap display
    (match p with
     | Ended _ => Stopped (time_Second / fps)
     | _ => Running (time_Second / fps)
     end)
    (match p with
     | Ended None => [(LogPrintln, "Screenshot Stream Stopped"%string, None)]
     | Ended (Some e) =>
         [(LogPrintln, "Error capturing screenshot:"%string, Some e);
          (FmtPrintln, "Error capturing screen:"%string, Some e)]
     | _ => []
     end)
    (replicate (length imgs + match p with Sending _ | Ended (Some _) => 1 | _ => 0 end)%nat
       display)
    imgs.

(** ** Inputs of the witnesses

    The system started on [w_rec] and the display [screen], and the
    state the trace [two_shots] leads to. *)

Definition booted : Ctl unit (Session * Z) * (World Script * list Deferred) :=
  boot "output.mp4" (Dx screen) (Dy screen) fps_of_main (started w_rec, []).

Definition sys0 : Sys Script := sys_start booted.2 (cap_running fps_of_main screen).

Definition sys_two_shots : Sys Script :=
  default sys0 (sys_run 5 (session_at 1%positive) 3000 two_shots sys0).

(** A trace on which the second capture fails, and its state. *)
Definition failed_shot : list Label :=
  [Capture (inr shot); Handoff shot true; Capture (inl capture_error)].

Definition sys_failed_shot : Sys Script :=
  default sys0 (sys_run 5 (session_at 1%positive) 3000 failed_shot sys0).

(** The state in which the first image is being sent. *)
Definition sys_sending : Sys Script :=
  default sys0 (sys_run 5 (session_at 1%positive) 3000 [Capture (inr shot)] sys0).

(** ** Lemmas: relation and function *)

Section Fire.
Context {O : Type} `{AvLib O}.
Context (fuel : nat) (s : Session) (pts : Z).
Implicit Types (a b c : Sys O) (l : Label) (ls : list Label).

Local Abbreviation sys_step := (sys_step fuel s pts).
Local Abbreviation sys_steps := (sys_steps fuel s pts).
Local Abbreviation sys_fire := (sys_fire fuel s pts).
Local Abbreviation sys_run := (sys_run fuel s pts).
Local Abbreviation shutdown := (shutdown fuel s pts).

Lemma sys_fire_step l a b : sys_fire l a = Some b -> sys_step a l b.
Proof.
  destruct a as [cl sp cp rc w ds]. unfold System.sys_fire.
  cbn [sys_smp sys_rec sys_closed sys_cap sys_world sys_defers].
  destruct l as [|[e|img]| |img ok|], sp as [|img'|err]; try discriminate;
    try (destruct rc; try discriminate); try (destruct cl; try discriminate);
    try (intros [= <-]; by econstructor).
  all: match goal with
       | |- context [rec_turn ?f ?s0 ?p ?fn ?i ?w0 ?d] =>
           destruct (rec_turn f s0 p fn i w0 d) as [[c w'] ds'] eqn:Ht
       end;
    case_decide as Hd; [|discriminate]; destruct Hd as [-> ->]; intros [= <-].
  all: by eapply sys_handoff.
Qed.

Lemma sys_step_fire l a b : sys_step a l b -> sys_fire l a = Some b.
Proof.
  destruct 1 as [a|a img Hp|a e Hp|a Hp Hc|a img fn c w' ds' Hp Hr Ht|a fn Hr Hc];
    unfold System.sys_fire; rewrite ?Hp, ?Hr, ?Hc, ?Ht; try done.
  by rewrite decide_True.
Qed.

(** The system is deterministic: a label has one outcome. *)
Lemma sys_step_deterministic l a b b' : sys_step a l b -> sys_step a l b' -> b = b'.
Proof. intros Hb%sys_step_fire Hb'%sys_step_fire. congruence. Qed.

Lemma sys_run_snoc ls l a :
  sys_run (ls ++ [l]) a = match sys_run ls a with Some b => sys_fire l b | None => None end.
Proof.
  revert a. induction ls as [|l' ls IH]; intros a; cbn; [by destruct (sys_fire l a)|].
  by destruct (sys_fire l' a).
Qed.

(** A turn that leaves the loop has run the deferred calls. *)
Lemma rec_turn_defers fn img (w : World O) ds (r : Ctl unit Z) w' ds' :
  rec_turn fuel s pts fn img w ds = (r, w', ds') -> rec_left r = true -> ds' = [].
Proof.
  unfold rec_turn. destruct (handle_image _ _ _ _ _ _) as [c0 [w0 ds0]].
  destruct (rec_left c0) eqn:Hl; intros [= <- <- <-]; [done|congruence].
Qed.

(** The schedule [shutdown] runs, unless the sampler is sending to a
    recording function that has left. *)
Lemma shutdown_runs a :
  (forall img, sys_smp a = Sending img -> exists fn, sys_rec a = Next fn) ->
  (rec_left (sys_rec a) = true -> sys_defers a = []) ->
  exists b, sys_run (shutdown a) a = Some b /\ sys_closed b = true /\
    (exists err, sys_smp b = Ended err) /\ (forall fn, sys_rec b <> Next fn) /\
    (rec_left (sys_rec b) = true -> sys_defers b = []).
Proof.
  destruct a as [cl sp cp rc w ds]. intros Hab Hd. cbn in Hab, Hd.
  unfold System.shutdown. cbn -[rec_turn].
  destruct sp as [|img|err].
  - destruct rc; eexists; (split; [reflexivity|]); cbn; eauto.
  - destruct (Hab img eq_refl) as [fn ->].
    destruct (rec_turn _ _ _ fn img w ds) as [[c w'] ds'] eqn:Ht.
    unfold System.sys_run at 1, System.sys_fire at 1. cbn -[rec_turn System.sys_run].
    rewrite Ht, decide_True by done. pose proof (rec_turn_defers _ _ _ _ _ _ _ Ht) as Hd'.
    destruct c; eexists; (split; [reflexivity|]); cbn; eauto.
  - destruct rc; eexists; (split; [reflexivity|]); cbn; eauto.
Qed.

Lemma shutdown_length a : (length (shutdown a) <= 4)%nat.
Proof.
  unfold System.shutdown. destruct (sys_smp a), (sys_rec a); cbn -[rec_turn]; try lia.
  destruct (rec_turn _ _ _ _ _ _ _) as [[[] ?] ?]; cbn; lia.
Qed.

Lemma sys_run_app ls ls' a :
  sys_run (ls ++ ls') a = match sys_run ls a with Some b => sys_run ls' b | None => None end.
Proof.
  revert a. induction ls as [|l ls IH]; intros a; cbn; [done|].
  by destruct (sys_fire l a).
Qed.

(** An image can be captured and handed over when both goroutines are
    at their [select]. *)
Lemma sys_run_image img fn a :
  sys_smp a = AtSelect -> sys_rec a = Next fn ->
  exists b,
    sys_run [Capture (inr img);
             Handoff img (negb (rec_left (rec_turn fuel s pts fn img (sys_world a)
                                            (sys_defers a)).1.1))] a = Some b /\
    sys_smp b = AtSelect /\
    sys_rec b = (rec_turn fuel s pts fn img (sys_world a) (sys_defers a)).1.1.
Proof.
  destruct a as [cl sp cp rc w ds]. cbn. intros -> ->.
  unfold System.sys_fire. cbn -[rec_turn].
  destruct (rec_turn _ _ _ fn img w ds) as [[r w'] ds']. cbn.
  rewrite decide_True by done. by eexists.
Qed.

Lemma sys_run_steps ls a b : sys_run ls a = Some b -> sys_steps a ls b.
Proof.
  revert b. induction ls as [|l ls IH] using rev_ind; intros b.
  - intros [= <-]. constructor.
  - rewrite sys_run_snoc. destruct (sys_run ls a) as [b'|] eqn:Hr; [|done].
    intros Hf%sys_fire_step. eapply sys_steps_snoc; [by apply IH|done].
Qed.
End Fire.

(** ** Lemmas: the system and the pipeline *)

Section Simulation.
Context {O : Type} `{AvLib O}.
Context (fuel : nat) (s : Session) (pts : Z).
Implicit Types (a b c : Sys O) (l : Label) (ls : list Label).

Local Abbreviation sys_step := (sys_step fuel s pts).
Local Abbreviation sys_steps := (sys_steps fuel s pts).

Lemma forwarded_stop_ticker (c : Cap) : forwarded (stop_ticker c) = forwarded c.
Proof. unfold stop_ticker. by destruct (ticker c). Qed.

(** A step of the system is a step of the pipeline. *)
Lemma sys_step_abs a l b : sys_step a l b -> step (abs a) l (abs b).
Proof.
  intros Hs. apply fire_step.
  destruct Hs as [a|a img Hp|a e Hp|a Hp Hc|a img fn c w' ds' Hp Hr _|a fn Hr Hc];
    unfold abs, fire, sampler_cancelled, sampler_failed; cbn;
    rewrite ?Hp, ?Hr, ?Hc; cbn; rewrite ?forwarded_stop_ticker, ?app_nil_r; cbn.
  all: try done.
  rewrite decide_True by done. by destruct (rec_left c).
Qed.

Lemma sys_steps_abs a ls b : sys_steps a ls b -> steps (abs a) ls (abs b).
Proof.
  induction 1 as [|a ls b l c _ IH Hs]; [constructor|].
  eapply steps_snoc; [exact IH|by apply sys_step_abs].
Qed.
End Simulation.

(** ** Lemmas: the system and the recording function *)

Section Recorder.
Context {O : Type} `{AvLib O}.
Context (fuel : nat) (s : Session) (pts : Z).
Implicit Types (a b c : Sys O) (l : Label) (ls : list Label) (evs : list Event).

Local Abbreviation sys_step := (sys_step fuel s pts).
Local Abbreviation sys_steps := (sys_steps fuel s pts).
Local Abbreviation resume := (resume fuel s pts).
Local Abbreviation sys_run := (sys_run fuel s pts).
Local Abbreviation play := (play fuel s pts).

(** The recording function run from a state is the one run from the
    state after a step, on the events that remain. *)
Lemma resume_step a l b evs :
  sys_step a l b -> resume (events_of_trace [l] ++ evs) a = resume evs b.
Proof.
  destruct 1 as [a|a img Hp|a e Hp|a Hp Hc|a img fn c w' ds' Hp Hr Ht|a fn Hr Hc];
    try done; unfold System.resume; cbn; rewrite Hr; [|done].
  unfold rec_turn in Ht. unfold bind.
  destruct (handle_image _ _ _ _ _ _) as [[fn'|r|msg|] [w1 ds1]];
    cbn in Ht; by injection Ht as <- <- <-.
Qed.

Lemma resume_steps a ls b evs :
  sys_steps a ls b -> resume (events_of_trace ls ++ evs) a = resume evs b.
Proof.
  intros Hs. revert evs. induction Hs as [|a ls b l c _ IH Hs]; intros evs; [done|].
  by rewrite events_of_trace_app, <-app_assoc, IH, (resume_step _ _ _ _ Hs).
Qed.

Lemma resume_nil a : resume [] a = (sys_exit a, sys_world a).
Proof. unfold System.resume, sys_exit. by destruct (sys_rec a). Qed.

Lemma play_image img evs a fn b :
  sys_rec a = Next fn ->
  sys_run [Capture (inr img);
           Handoff img (negb (rec_left (rec_turn fuel s pts fn img (sys_world a)
                                          (sys_defers a)).1.1))] a = Some b ->
  play (EvImage img :: evs) a =
    [Capture (inr img);
     Handoff img (negb (rec_left (rec_turn fuel s pts fn img (sys_world a)
                                    (sys_defers a)).1.1))] ++
    (if negb (rec_left (rec_turn fuel s pts fn img (sys_world a) (sys_defers a)).1.1)
     then play evs b else []).
Proof. intros Hr Hb. cbn [System.play]. rewrite Hr. cbv zeta. by rewrite Hb. Qed.

(** The schedule [play evs] runs, and leads to the outcome of the
    recording function on [evs]. *)
Lemma play_runs evs a :
  sys_smp a = AtSelect ->
  exists b, sys_run (play evs a) a = Some b /\ resume evs a = (sys_exit b, sys_world b) /\
            events_of_trace (play evs a) `prefix_of` evs.
Proof.
  revert a. induction evs as [|[|img] evs IH]; intros a Hp.
  - exists a. rewrite resume_nil. repeat split. apply prefix_nil.
  - destruct a as [cl sp cp [fn|r|msg|] w ds]; cbn; eexists; (split; [reflexivity|]);
      (split; [reflexivity|]); by auto using prefix_nil, prefix_cons.
  - destruct (sys_rec a) as [fn| | |] eqn:Hr.
    2-4: exists a; rewrite <-resume_nil; unfold System.resume; cbn [System.play];
      rewrite Hr; repeat split; apply prefix_nil.
    destruct (sys_run_image fuel s pts img fn a Hp Hr) as (b & Hb & Hpb & Hrb).
    pose proof (resume_steps _ _ _ evs (sys_run_steps _ _ _ _ _ _ Hb)) as Hres.
    cbn [events_of_trace app] in Hres.
    rewrite (play_image _ _ _ _ _ Hr Hb), sys_run_app, Hb, Hres, events_of_trace_app.
    cbn [events_of_trace app]. destruct (rec_left _) eqn:Hl; cbn [negb].
    + exists b. unfold System.resume. rewrite Hrb. cbn [events_of_trace].
      destruct (rec_turn _ _ _ _ _ _ _).1.1; try done;
        (split; [done|]; split; [done|]; by apply prefix_cons, prefix_nil).
    + destruct (IH b Hpb) as (b' & Hb' & Hres' & Hpre). exists b'.
      repeat split; [done..|]. by apply prefix_cons.
Qed.

(** The recording function is its set-up followed by its loop. *)
Lemma body_boot evs filename width height fps x :
  StartScreenRecording_body fuel evs filename width height fps x =
  (sp <- boot filename width height fps ;; encode_loop fuel sp.1 sp.2 evs frameNumber0) x.
Proof.
  unfold StartScreenRecording_body, boot, bind.
  destruct (setup _ _ _ _ x) as [[s0| | |] x1]; try done.
  destruct (lift go_capture x1) as [[[]| | |] x2]; try done.
  by destruct (start_clock fps x2) as [[| | |] x3].
Qed.

Lemma boot_pts filename width height fps x0 x :
  boot filename width height fps x0 = (Next (s, pts), x) -> pts_increment fps = Some pts.
Proof.
  unfold boot, bind. destruct (setup _ _ _ _ x0) as [[s0| | |] x1]; try done.
  destruct (lift go_capture x1) as [[[]| | |] x2]; try done.
  unfold start_clock. by destruct (pts_increment fps); intros [= ? <- ?].
Qed.

(** The recording function on the events of a trace of the system. *)
Lemma recording_resume filename width height fps (w : World O) x (cp : Cap) evs :
  boot filename width height fps (w, []) = (Next (s, pts), x) ->
  StartScreenRecording fuel evs filename width height fps w = resume evs (sys_start x cp).
Proof.
  intros Hb. unfold StartScreenRecording, func. rewrite body_boot. unfold bind. rewrite Hb.
  unfold System.resume, finish. destruct x as [w0 ds0]. cbn.
  by destruct (encode_loop _ _ _ _ _ _) as [[] []].
Qed.

Lemma recording_of_steps filename width height fps (w : World O) x (cp : Cap) ls a :
  boot filename width height fps (w, []) = (Next (s, pts), x) ->
  sys_steps (sys_start x cp) ls a ->
  StartScreenRecording fuel (events_of_trace ls) filename width height fps w
    = (sys_exit a, sys_world a).
Proof.
  intros Hb Hs. rewrite (recording_resume _ _ _ _ _ _ cp _ Hb).
  by rewrite <-(app_nil_r (events_of_trace ls)), (resume_steps _ _ _ [] Hs), resume_nil.
Qed.

(** Every run of the recording function is a run of the system. *)
Lemma recording_played filename width height fps (w : World O) x (cp : Cap) evs :
  boot filename width height fps (w, []) = (Next (s, pts), x) ->
  exists a,
    sys_steps (sys_start x cp) (play evs (sys_start x cp)) a /\
    events_of_trace (play evs (sys_start x cp)) `prefix_of` evs /\
    StartScreenRecording fuel evs filename width height fps w = (sys_exit a, sys_world a).
Proof.
  intros Hb. destruct (play_runs evs (sys_start x cp) eq_refl) as (a & Hr & Hres & Hpre).
  exists a. rewrite (recording_resume _ _ _ _ _ _ cp _ Hb).
  split; [by apply sys_run_steps|done].
Qed.
End Recorder.

(** ** Lemmas: the system and the sampler *)

Section Sampler.
Context {O : Type} `{AvLib O}.
Context (fuel : nat) (s : Session) (pts : Z) (fps : Z) (display : Rectangle).
Implicit Types (a b c : Sys O) (l : Label) (ls : list Label) (p : SamplerPc).

Local Abbreviation sys_step := (sys_step fuel s pts).
Local Abbreviation sys_steps := (sys_steps fuel s pts).

(** A step keeps the world of the sampler in its closed form. *)
Lemma sys_step_cap a l b imgs :
  sys_step a l b -> sys_cap a = cap_form fps display imgs (sys_smp a) ->
  exists imgs', sys_cap b = cap_form fps display imgs' (sys_smp b).
Proof.
  destruct 1 as [a|a img Hp|a e Hp|a Hp Hc|a img fn c w' ds' Hp Hr _|a fn Hr Hc];
    cbn; rewrite ?Hp; intros ->; unfold cap_form, sampler_cancelled, sampler_failed;
    cbn; eauto.
  - exists imgs. by rewrite Nat.add_0_r, Nat.add_1_r, replicate_S_end.
  - exists imgs. by rewrite Nat.add_0_r, Nat.add_1_r, replicate_S_end.
  - exists (imgs ++ [img]). by rewrite length_app, Nat.add_0_r.
Qed.

Lemma sys_steps_cap x ls a :
  sys_steps (sys_start x (cap_running fps display)) ls a ->
  sys_cap a = cap_form fps display (forwarded (sys_cap a)) (sys_smp a).
Proof.
  intros Hs.
  assert (exists imgs, sys_cap a = cap_form fps display imgs (sys_smp a)) as [imgs Hc];
    [|by rewrite Hc at 1; rewrite Hc].
  remember (sys_start x (cap_running fps display)) as a0 eqn:Ha0.
  induction Hs as [|a0 ls b l c _ IH Hs]; [subst; by exists []|].
  destruct (IH Ha0) as [imgs Hc]. by eapply sys_step_cap.
Qed.

(** The goroutine of the sampler on the ticks of a state. *)
Lemma capture_goroutine_form imgs p :
  0 < fps <= time_Second ->
  capture_goroutine fps ((taken <$> imgs) ++ smp_ticks p) (cap_start display)
    = (smp_exit p, cap_form fps display imgs p).
Proof.
  intros Hf. unfold capture_goroutine, func, bind, call.
  rewrite (StartScreenCap_runs _ _ _ Hf). unfold sampled, captures.
  rewrite history_taken. unfold cap_form.
  destruct p as [|img|[e|]]; cbn; rewrite ?app_nil_r, ?Nat.add_0_r, ?Nat.add_1_r; done.
Qed.

(** The ticks of a trace of the system. *)
Lemma sys_steps_ticks x ls a :
  sys_steps (sys_start x (cap_running fps display)) ls a ->
  ticks_of ls (abs a) = (taken <$> forwarded (sys_cap a)) ++ smp_ticks (sys_smp a).
Proof.
  intros Hs%sys_steps_abs%steps_trace_inv. destruct Hs as [_ Ht].
  unfold ticks_of. rewrite Ht, <-app_assoc. cbn.
  by destruct (sys_smp a) as [|img|[e|]]; cbn; rewrite ?app_nil_r.
Qed.

(** When the captures answer images of the size of the display, the
    images handed over and the one being sent have this size. *)
Lemma sys_step_sized a l b :
  sys_step a l b -> capture_fits display l ->
  Forall (sized (Dx display) (Dy display)) (forwarded (sys_cap a) ++ in_flight (sys_smp a)) ->
  Forall (sized (Dx display) (Dy display)) (forwarded (sys_cap b) ++ in_flight (sys_smp b)).
Proof.
  destruct 1 as [a|a img Hp|a e Hp|a Hp Hc|a img fn c w' ds' Hp Hr _|a fn Hr Hc];
    cbn; rewrite ?Hp; unfold sampler_cancelled, sampler_failed; cbn;
    rewrite ?forwarded_stop_ticker, ?app_nil_r; cbn; try done.
  intros Hl Hf. apply list.Forall_app. by split; [|constructor].
Qed.

Lemma sys_steps_sized x ls a :
  sys_steps (sys_start x (cap_running fps display)) ls a ->
  Forall (capture_fits display) ls ->
  Forall (sized (Dx display) (Dy display)) (forwarded (sys_cap a)).
Proof.
  intros Hs Hls.
  enough (Forall (sized (Dx display) (Dy display))
            (forwarded (sys_cap a) ++ in_flight (sys_smp a)))
    as [? _]%list.Forall_app by done.
  remember (sys_start x (cap_running fps display)) as a0 eqn:Ha0.
  induction Hs as [|a0 ls b l c _ IH Hs]; [subst; by constructor|].
  apply list.Forall_app in Hls as [Hls [Hl _]%list.Forall_cons].
  eapply sys_step_sized; [done..|]. by apply IH.
Qed.

(** The images of the events of a trace of the system. *)
Lemma sys_steps_images x ls a :
  sys_steps (sys_start x (cap_running fps display)) ls a ->
  images_of (events_of_trace ls) = forwarded (sys_cap a).
Proof.
  intros Hs%sys_steps_abs%steps_trace_inv. by apply trace_inv_history in Hs as [-> _].
Qed.
End Sampler.

(** ** Properties *)

Section Properties.
Context {O : Type} `{AvLib O}.
Context (fuel : nat) (s : Session) (pts : Z).
Context (filename : string) (width height fps : Z) (display : Rectangle).
Implicit Types (a b : Sys O) (ls : list Label) (w : World O).

Local Abbreviation sys_steps := (sys_steps fuel s pts).
Local Abbreviation sys_start := (@sys_start O).


(** C6. The recording function is the recording goroutine of the
    system: after any trace from the state its set-up leads to,
    [StartScreenRecording] run on the events of the trace ends the way
    the recorder of the state has (returned, panicked or still in its
    loop) and in the world of the state. *)
Theorem system_runs_recording w x ls a :
  boot filename width height fps (w, []) = (Next (s, pts), x) ->
  sys_steps (sys_start x (cap_running fps display)) ls a ->
  StartScreenRecording fuel (events_of_trace ls) filename width height fps w
    = (sys_exit a, sys_world a).
Proof. apply recording_of_steps. Qed.

(** C7. Every run of the recording function is a run of the system:
    for any events, the schedule [play] (each image captured and
    handed over while the function comes back to its [select], then
    the interrupt) is a trace of the system from the state the set-up
    leads to; the events of the trace are the events the function has
    taken, a prefix of the ones given; and the function run on the
    events given ends as the recorder of the state reached has, in its
    world.  With [system_runs_recording], the function and the
    recording goroutine of the system have the same runs. *)
Theorem system_realises_recording w x evs :
  boot filename width height fps (w, []) = (Next (s, pts), x) ->
  let a0 := sys_start x (cap_running fps display) in
  exists a,
    sys_steps a0 (play fuel s pts evs a0) a /\
    events_of_trace (play fuel s pts evs a0) `prefix_of` evs /\
    StartScreenRecording fuel evs filename width height fps w = (sys_exit a, sys_world a).
Proof. apply recording_played. Qed.

(** C9. The sampler is the sampling goroutine of the system: after any
    trace, the goroutine of line 137 run on the ticks of the trace has
    ended the way the sampler of the state has, in the world of the
    sampler of the state: its ticker, its lines, the rectangles it
    asked for and the images it handed over. *)
Theorem system_runs_sampler x ls a :
  0 < fps <= time_Second ->
  sys_steps (sys_start x (cap_running fps display)) ls a ->
  capture_goroutine fps (ticks_of ls (abs a)) (cap_start display)
    = (smp_exit (sys_smp a), sys_cap a).
Proof.
  intros Hf Hs. rewrite (sys_steps_ticks _ _ _ _ _ _ _ _ Hs), (sys_steps_cap _ _ _ _ _ _ _ _ Hs).
  by apply capture_goroutine_form.
Qed.

(** The worlds of the system keep the contract of the library: in
    every state the system reaches from a well-formed world, at a frame
    rate the time base can express, while the frame numbers are exact
    and the images the sampler has handed over have the size of the
    encoder, the world of the recording function is well formed and no
    call has violated the contract. *)
Theorem system_keeps_contract w x ls a :
  wf w -> 0 < fps <= timeBaseFrequency ->
  boot filename width height fps (w, []) = (Next (s, pts), x) ->
  sys_steps (sys_start x (cap_running fps display)) ls a ->
  Z.of_nat (length (forwarded (sys_cap a))) <= max_exact_frame ->
  Forall (sized width height) (forwarded (sys_cap a)) ->
  wf (sys_world a) /\ faults (sys_world a) = faults w.
Proof.
  intros Hwf Hf Hb Hs Hn Hsz.
  pose proof (recording_of_steps _ _ _ _ _ _ _ _ _ _ _ _ Hb Hs) as Hrun.
  rewrite <-(sys_steps_images _ _ _ _ _ _ _ _ Hs) in Hn, Hsz.
  rewrite images_of_length in Hn.
  split; [by eapply recording_post_wf, recording_exit|].
  by eapply recording_post_faults, recording_exit.
Qed.

(** C11. A failed capture leaves the file open: when the sampler of a
    state the system has reached has ended on a failed capture and
    nobody has interrupted, the recording function has released
    nothing and printed nothing (the trailer is not written, the
    container and the encoder are still open), and the only step the
    system can take is the interrupt of the operator: the failure of
    the sampler does not stop the recording. *)
Theorem system_capture_failure_strands w x ls a e :
  wf w ->
  boot filename width height fps (w, []) = (Next (s, pts), x) ->
  sys_steps (sys_start x (cap_running fps display)) ls a ->
  sys_smp a = Ended (Some e) -> sys_closed a = false ->
  released (sys_world a) = released w /\ out (sys_world a) = out w /\
  forall l b, sys_step fuel s pts a l b -> l = Sigint.
Proof.
  intros Hwf Hb Hs Hp Hc.
  pose proof (recording_of_steps _ _ _ _ _ _ _ _ _ _ _ _ Hb Hs) as Hrun.
  apply recording_exit in Hrun; [|done].
  destruct (steps_pipe_inv _ _ _ start_pipe_inv (sys_steps_abs _ _ _ _ _ _ Hs)) as [_ Hl].
  cbn in Hl. rewrite Hc in Hl. unfold sys_exit in Hrun.
  destruct (sys_rec a) as [fn|r|msg|] eqn:Hr; cbn in Hl; try (by specialize (Hl eq_refl)).
  all: destruct Hrun as (tb & p' & sent & handed & written & frames & ds & _ & _ & -> & _ & -> & _).
  all: repeat split; intros l b Hst; destruct Hst; congruence.
Qed.

(** C31. The system can be stopped, unless the sampler is abandoned:
    from any state in which the sampler is not sending to a recording
    function that has left its loop, the schedule [shutdown] (the
    interrupt, the receipt of the image being sent, each goroutine
    taking the cancellation at its [select]) is a trace of at most
    four steps to a state in which the context is cancelled, the
    sampler has returned and the recording function is not at its
    [select] any more: it has left and its deferred calls have run,
    or it is in its inner loop out of fuel. *)
Theorem system_can_shut_down a :
  (forall img, sys_smp a = Sending img -> exists fn, sys_rec a = Next fn) ->
  (rec_left (sys_rec a) = true -> sys_defers a = []) ->
  exists b,
    sys_steps a (shutdown fuel s pts a) b /\ (length (shutdown fuel s pts a) <= 4)%nat /\
    sys_closed b = true /\ (exists err, sys_smp b = Ended err) /\
    (forall fn, sys_rec b <> Next fn) /\ (rec_left (sys_rec b) = true -> sys_defers b = []).
Proof.
  intros Hab Hd. destruct (shutdown_runs fuel s pts a Hab Hd) as (b & Hr & Hb). exists b.
  split; [by apply sys_run_steps|]. split; [apply shutdown_length|done].
Qed.

(** C8. A clean run of the system: when the recording function of a
    state the system has reached has returned and has printed nothing
    but the line of its deferred closure, the encoder was given the
    conversion of every image the sampler of the state has handed over,
    in the order of capture, frame [k] stamped [pts * k], and the
    container, closed after its trailer, holds every packet the encoder
    handed out, rescaled to the time base of the stream. *)
Theorem system_clean_run w x ls a :
  wf w ->
  boot filename width height fps (w, []) = (Next (s, pts), x) ->
  sys_steps (sys_start x (cap_running fps display)) ls a ->
  sys_rec a = Return tt ->
  out (sys_world a) = out w ++ [(FmtPrintln, "Stopping Screen recording!"%string, None)] ->
  exists tb packets,
    released (sys_world a) = released w ++
      [OCodecContext
         (opened_context width height fps
            (encoded_from pts frameNumber0 (forwarded (sys_cap a))) packets);
       OFormatContext (closed_container filename (next w) true (to_stream tb <$> packets))] /\
    Forall (fun q => p_tb q = Some encoder_tb) packets /\
    faults (sys_world a) = faults w.
Proof.
  intros Hwf Hb Hs Hr Hout.
  pose proof (recording_of_steps _ _ _ _ _ _ _ _ _ _ _ _ Hb Hs) as Hrun.
  unfold sys_exit in Hrun. rewrite Hr in Hrun.
  destruct (clean_stop _ _ _ _ _ _ _ _ Hwf Hrun Hout)
    as (tb & pts' & packets & Hpts & _ & Hfl & Hst & Hrl).
  rewrite (boot_pts _ _ _ _ _ _ _ _ Hb) in Hpts. injection Hpts as <-.
  rewrite (sys_steps_images _ _ _ _ _ _ _ _ Hs) in Hrl. by exists tb, packets.
Qed.
End Properties.

Section Composed.
Context {O : Type} `{AvLib O}.
Context (fuel : nat) (s : Session) (pts : Z).
Context (filename : string) (fps : Z) (display : Rectangle).

(** C5. The program as a whole respects the contract of the library:
    when the recording is set up for the size of the display, as
    [main] does, at a frame rate from 1 to 90000, and the capture
    library answers images of the rectangle it is asked for, then in
    every state the two goroutines reach together, while the frame
    numbers are exact, the world of the recording function is well
    formed and no call has violated the contract, whatever the
    schedule and whatever the codec library answers. *)
Theorem system_respects_contract (w : World O) x ls a :
  wf w -> 0 < fps <= timeBaseFrequency ->
  boot filename (Dx display) (Dy display) fps (w, []) = (Next (s, pts), x) ->
  sys_steps fuel s pts (sys_start x (cap_running fps display)) ls a ->
  Forall (capture_fits display) ls ->
  Z.of_nat (length (forwarded (sys_cap a))) <= max_exact_frame ->
  wf (sys_world a) /\ faults (sys_world a) = faults w.
Proof.
  intros Hwf Hf Hb Hs Hls Hn.
  eapply system_keeps_contract; [done..|]. by eapply sys_steps_sized.
Qed.
End Composed.

(** ** Witnesses *)

Lemma sys_two_shots_reached :
  sys_steps 5 (session_at 1%positive) 3000 sys0 two_shots sys_two_shots.
Proof. apply sys_run_steps. vm_compute. reflexivity. Qed.

Lemma sys_two_shots_forwarded : forwarded (sys_cap sys_two_shots) = [shot; shot].
Proof. vm_compute. reflexivity. Qed.


Lemma system_runs_recording_witness :
  StartScreenRecording 5 (events_of_trace two_shots) "output.mp4" (Dx screen) (Dy screen)
    fps_of_main (started w_rec)
    = (sys_exit sys_two_shots, sys_world sys_two_shots).
Proof.
  apply (system_runs_recording 5 (session_at 1%positive) 3000 "output.mp4" (Dx screen)
           (Dy screen) fps_of_main screen (started w_rec) booted.2 two_shots sys_two_shots);
    [vm_compute; reflexivity | apply sys_two_shots_reached].
Defined.

Lemma system_runs_sampler_witness :
  capture_goroutine fps_of_main (ticks_of two_shots (abs sys_two_shots)) (cap_start screen)
    = (smp_exit (sys_smp sys_two_shots), sys_cap sys_two_shots).
Proof.
  apply (system_runs_sampler 5 (session_at 1%positive) 3000 fps_of_main screen booted.2
           two_shots sys_two_shots);
    [by vm_compute | apply sys_two_shots_reached].
Defined.

Lemma system_keeps_contract_witness :
  wf (sys_world sys_two_shots) /\ faults (sys_world sys_two_shots) = faults (started w_rec).
Proof.
  apply (system_keeps_contract 5 (session_at 1%positive) 3000 "output.mp4" (Dx screen)
           (Dy screen) fps_of_main screen (started w_rec) booted.2 two_shots sys_two_shots);
    [apply started_wf, wf_init | by vm_compute | vm_compute; reflexivity
    | apply sys_two_shots_reached | by vm_compute
    | rewrite sys_two_shots_forwarded; by repeat constructor].
Defined.

Lemma system_clean_run_witness :
  exists tb packets,
    released (sys_world sys_two_shots) = released (started w_rec) ++
      [OCodecContext
         (opened_context (Dx screen) (Dy screen) fps_of_main
            (encoded_from 3000 frameNumber0 (forwarded (sys_cap sys_two_shots))) packets);
       OFormatContext
         (closed_container "output.mp4" (next (started w_rec)) true
            (to_stream tb <$> packets))] /\
    Forall (fun q => p_tb q = Some encoder_tb) packets /\
    faults (sys_world sys_two_shots) = faults (started w_rec).
Proof.
  apply (system_clean_run 5 (session_at 1%positive) 3000 "output.mp4" (Dx screen)
           (Dy screen) fps_of_main screen (started w_rec) booted.2 two_shots sys_two_shots);
    [apply started_wf, wf_init | vm_compute; reflexivity | apply sys_two_shots_reached
    | vm_compute; reflexivity | vm_compute; reflexivity].
Defined.

Lemma system_capture_failure_strands_witness :
  released (sys_world sys_failed_shot) = released (started w_rec) /\
  out (sys_world sys_failed_shot) = out (started w_rec) /\
  forall l b, sys_step 5 (session_at 1%positive) 3000 sys_failed_shot l b -> l = Sigint.
Proof.
  apply (system_capture_failure_strands 5 (session_at 1%positive) 3000 "output.mp4"
           (Dx screen) (Dy screen) fps_of_main screen (started w_rec) booted.2 failed_shot
           sys_failed_shot capture_error);
    [apply started_wf, wf_init | vm_compute; reflexivity
    | apply sys_run_steps; vm_compute; reflexivity | reflexivity | reflexivity].
Defined.

Lemma system_can_shut_down_witness :
  exists b,
    sys_steps 5 (session_at 1%positive) 3000 sys_sending
      (shutdown 5 (session_at 1%positive) 3000 sys_sending) b /\
    (length (shutdown 5 (session_at 1%positive) 3000 sys_sending) <= 4)%nat /\
    sys_closed b = true /\ (exists err, sys_smp b = Ended err) /\
    (forall fn, sys_rec b <> Next fn) /\ (rec_left (sys_rec b) = true -> sys_defers b = []).
Proof.
  apply (system_can_shut_down 5 (session_at 1%positive) 3000 sys_sending);
    [intros img _; exists 0; reflexivity | vm_compute; discriminate].
Defined.

Lemma system_realises_recording_witness :
  let a0 := sys0 in
  exists a,
    sys_steps 5 (session_at 1%positive) 3000 a0
      (play 5 (session_at 1%positive) 3000 three_images a0) a /\
    events_of_trace (play 5 (session_at 1%positive) 3000 three_images a0)
      `prefix_of` three_images /\
    StartScreenRecording 5 three_images "output.mp4" (Dx screen) (Dy screen) fps_of_main
      (started w_rec) = (sys_exit a, sys_world a).
Proof.
  apply (system_realises_recording 5 (session_at 1%positive) 3000 "output.mp4" (Dx screen)
           (Dy screen) fps_of_main screen (started w_rec) booted.2 three_images).
  vm_compute. reflexivity.
Defined.

Lemma system_respects_contract_witness :
  wf (sys_world sys_two_shots) /\ faults (sys_world sys_two_shots) = faults (started w_rec).
Proof.
  apply (system_respects_contract 5 (session_at 1%positive) 3000 "output.mp4" fps_of_main
           screen (started w_rec) booted.2 two_shots sys_two_shots);
    [apply started_wf, wf_init | by vm_compute | vm_compute; reflexivity
    | apply sys_two_shots_reached | by repeat constructor | by vm_compute].
Defined.
